(** * Fail-safe return controller of the delivery car (ATmega32)

    Shallow embedding of [delivery_car/Code/APP/APP.c] together with the
    parts of the TIMER0, TIMER2, UART, WDT and DC-motor drivers it calls.
    Every C global that the controller reads or writes is a field of
    [State]; interrupt handlers and the obstacle poll are state
    transformers, and a run of the firmware is a list of [event]s.

    Conventions.
    - Unsigned C integers are [Z] values; every store into a narrower
      object writes out its wrap-around ([uint8], [uint16], [bits3]).
    - A function that never returns ([WDT_RESET_MCU]) raises [mcu_reset];
      no event has any effect afterwards (one boot session is modelled).
    - Interrupt handlers run with interrupts disabled, so each handler
      and each poll of the main loop is one atomic transition.
    - The keypad / password / servo workflow of the main loop never
      touches the controller variables; it is embedded on its own state
      in [Lock], on top of the EEPROM driver. *)

From Stdlib Require Import ZArith Lia Bool List.
From Stdlib Require String.
From stdpp Require Import base list.
Import ListNotations.
Import String.StringSyntax.
Delimit Scope string_scope with string.
Local Open Scope Z_scope.

(** ** STD_TYPES.h: fixed-width unsigned integers *)

Definition uint8 (z : Z) : Z := z mod 256.
Definition uint16 (z : Z) : Z := z mod 65536.

(** A bit-field of width three ([uint32 mode : 3], [uint32 gear : 3]). *)
Definition bits3 (z : Z) : Z := z mod 8.

(** ** APP_def.h *)

Definition MAX_GEAR : Z := 5.
Definition MIN_GEAR : Z := 1.

Definition NOTHING : Z := 48.       (* '0' *)
Definition FORWARD : Z := 49.       (* '1' *)
Definition BACKWARD : Z := 50.      (* '2' *)
Definition STOP : Z := 51.          (* '3' *)
Definition STEER_RIGHT : Z := 52.   (* '4' *)
Definition STEER_LEFT : Z := 53.    (* '5' *)
Definition GEARUP : Z := 54.        (* '6' *)
Definition GEARDOWN : Z := 55.      (* '7' *)
Definition CLR_SCREEN : Z := 56.    (* '8' *)
Definition SEND_LCD : Z := 57.      (* '9' *)
Definition UART_STOPCHAR : Z := 58. (* ':' *)
Definition REVERSE : Z := 59.       (* ';' *)
Definition BUZZER_ON : Z := 111.    (* 'o' *)
Definition BUZZER_OFF : Z := 102.   (* 'f' *)

Definition MAX_MOVES : Z := 300.

(** [struct reverse]: one movement record.  The four members are
    bit-fields of a [uint32]: mode:3, gear:3, ovfs:16, tcnt:8. *)
Module reverse.
Record t : Type := mk {
  mode : Z;  (* uint32 mode : 3 *)
  gear : Z;  (* uint32 gear : 3 *)
  ovfs : Z;  (* uint32 ovfs : 16 *)
  tcnt : Z   (* uint32 tcnt : 8 *)
}.
Definition zero : t := mk 0 0 0 0.
End reverse.

(** ** MOTOR_def.h *)

Definition MOTOR_FORWARD : Z := 0.
Definition MOTOR_BACKWARD : Z := 1.
Definition MOTOR_STOP : Z := 2.
Definition MOTOR_TURN_RIGHT : Z := 3.
Definition MOTOR_TURN_LEFT : Z := 4.

(** The two motor descriptors declared in APP.c. *)
Inductive Motor : Type := right_motor | left_motor.

(** Levels of the (first_pin, second_pin) pair of one H-bridge. *)
Definition pins : Type := (bool * bool)%type.
Definition HIGH : bool := true.
Definition LOW : bool := false.

(** ** Callback pointers *)

Inductive ovf_handler : Type := fn_Check_Connection | fn_Back_Reverse.
Inductive rx_handler : Type := fn_UART_Get_Cmd | fn_UART_Get_LCD_msg.

(** Calls into the (external) LCD driver. *)
Inductive lcd_op : Type :=
  | LCD_ClearScreen_call
  | LCD_PrintString_call (text : list Z).

(** ** The controller state: APP.c globals, driver globals, registers *)

Record State : Type := mkState {
  gear : Z;  (* uint8 gear *)
  command : Z;  (* uint8 command *)
  reversed_mode : Z;  (* uint8 reversed_mode *)
  tcnt : Z;  (* uint8 tcnt: heartbeat preload *)
  ovfCounts : Z;  (* uint16 ovfCounts *)
  front_distance : Z;  (* uint16 front_distance *)
  back_distance : Z;  (* uint16 back_distance *)
  front_blocked : bool;  (* bool front_blocked *)
  back_blocked : bool;  (* bool back_blocked *)
  car_connected : bool;  (* bool car_connected *)
  uart_rx_buffer : list Z;  (* char uart_rx_buffer[34] *)
  stack : list reverse.t;  (* struct reverse stack[MAX_MOVES] *)
  top : Z;  (* uint8 top *)
  cc_counter : Z;  (* static counter of Check_Connection *)
  br_counter : Z;  (* static counter of Back_Reverse *)
  g_TIMER0_Overflow : Z;  (* uint16 g_TIMER0_Overflow (TIMER0.c) *)
  g_TIMER0_OVF_CallBack : option ovf_handler;  (* TIMER0.c callback pointer *)
  TCNT0 : Z;  (* Timer0 counter register *)
  timer0_clock : bool;  (* TCCR0 clock select: true = counting *)
  OCR2 : Z;  (* Timer2 compare register (motor PWM duty) *)
  g_UART_RXCallBack : option rx_handler;  (* UART.c callback pointer *)
  g_UART_RX_ArraySize : Z;  (* uint16 g_UART_RX_ArraySize (UART.c) *)
  g_UART_RX_Index : Z;  (* uint16 g_UART_RX_Index (UART.c) *)
  uart_rx_int : bool;  (* UCSRB.RXCIE *)
  right_pins : pins;  (* first/second pin of right_motor *)
  left_pins : pins;  (* first/second pin of left_motor *)
  buzzer : bool;  (* buzzer pin level *)
  lcd : list lcd_op;  (* LCD driver calls, latest first *)
  mcu_reset : bool  (* WDT_RESET_MCU has been entered *)
}.

Definition set_gear (v : Z) (s : State) : State :=
  mkState v (command s) (reversed_mode s) (tcnt s) (ovfCounts s)
    (front_distance s) (back_distance s) (front_blocked s) (back_blocked s)
    (car_connected s) (uart_rx_buffer s) (stack s) (top s) (cc_counter s)
    (br_counter s) (g_TIMER0_Overflow s) (g_TIMER0_OVF_CallBack s) (TCNT0 s)
    (timer0_clock s) (OCR2 s) (g_UART_RXCallBack s) (g_UART_RX_ArraySize s)
    (g_UART_RX_Index s) (uart_rx_int s) (right_pins s) (left_pins s)
    (buzzer s) (lcd s) (mcu_reset s).

Definition set_command (v : Z) (s : State) : State :=
  mkState (gear s) v (reversed_mode s) (tcnt s) (ovfCounts s)
    (front_distance s) (back_distance s) (front_blocked s) (back_blocked s)
    (car_connected s) (uart_rx_buffer s) (stack s) (top s) (cc_counter s)
    (br_counter s) (g_TIMER0_Overflow s) (g_TIMER0_OVF_CallBack s) (TCNT0 s)
    (timer0_clock s) (OCR2 s) (g_UART_RXCallBack s) (g_UART_RX_ArraySize s)
    (g_UART_RX_Index s) (uart_rx_int s) (right_pins s) (left_pins s)
    (buzzer s) (lcd s) (mcu_reset s).

Definition set_reversed_mode (v : Z) (s : State) : State :=
  mkState (gear s) (command s) v (tcnt s) (ovfCounts s) (front_distance s)
    (back_distance s) (front_blocked s) (back_blocked s) (car_connected s)
    (uart_rx_buffer s) (stack s) (top s) (cc_counter s) (br_counter s)
    (g_TIMER0_Overflow s) (g_TIMER0_OVF_CallBack s) (TCNT0 s) (timer0_clock s)
    (OCR2 s) (g_UART_RXCallBack s) (g_UART_RX_ArraySize s) (g_UART_RX_Index s)
    (uart_rx_int s) (right_pins s) (left_pins s) (buzzer s) (lcd s)
    (mcu_reset s).

Definition set_tcnt (v : Z) (s : State) : State :=
  mkState (gear s) (command s) (reversed_mode s) v (ovfCounts s)
    (front_distance s) (back_distance s) (front_blocked s) (back_blocked s)
    (car_connected s) (uart_rx_buffer s) (stack s) (top s) (cc_counter s)
    (br_counter s) (g_TIMER0_Overflow s) (g_TIMER0_OVF_CallBack s) (TCNT0 s)
    (timer0_clock s) (OCR2 s) (g_UART_RXCallBack s) (g_UART_RX_ArraySize s)
    (g_UART_RX_Index s) (uart_rx_int s) (right_pins s) (left_pins s)
    (buzzer s) (lcd s) (mcu_reset s).

Definition set_ovfCounts (v : Z) (s : State) : State :=
  mkState (gear s) (command s) (reversed_mode s) (tcnt s) v (front_distance s)
    (back_distance s) (front_blocked s) (back_blocked s) (car_connected s)
    (uart_rx_buffer s) (stack s) (top s) (cc_counter s) (br_counter s)
    (g_TIMER0_Overflow s) (g_TIMER0_OVF_CallBack s) (TCNT0 s) (timer0_clock s)
    (OCR2 s) (g_UART_RXCallBack s) (g_UART_RX_ArraySize s) (g_UART_RX_Index s)
    (uart_rx_int s) (right_pins s) (left_pins s) (buzzer s) (lcd s)
    (mcu_reset s).

Definition set_front_distance (v : Z) (s : State) : State :=
  mkState (gear s) (command s) (reversed_mode s) (tcnt s) (ovfCounts s) v
    (back_distance s) (front_blocked s) (back_blocked s) (car_connected s)
    (uart_rx_buffer s) (stack s) (top s) (cc_counter s) (br_counter s)
    (g_TIMER0_Overflow s) (g_TIMER0_OVF_CallBack s) (TCNT0 s) (timer0_clock s)
    (OCR2 s) (g_UART_RXCallBack s) (g_UART_RX_ArraySize s) (g_UART_RX_Index s)
    (uart_rx_int s) (right_pins s) (left_pins s) (buzzer s) (lcd s)
    (mcu_reset s).

Definition set_back_distance (v : Z) (s : State) : State :=
  mkState (gear s) (command s) (reversed_mode s) (tcnt s) (ovfCounts s)
    (front_distance s) v (front_blocked s) (back_blocked s) (car_connected s)
    (uart_rx_buffer s) (stack s) (top s) (cc_counter s) (br_counter s)
    (g_TIMER0_Overflow s) (g_TIMER0_OVF_CallBack s) (TCNT0 s) (timer0_clock s)
    (OCR2 s) (g_UART_RXCallBack s) (g_UART_RX_ArraySize s) (g_UART_RX_Index s)
    (uart_rx_int s) (right_pins s) (left_pins s) (buzzer s) (lcd s)
    (mcu_reset s).

Definition set_front_blocked (v : bool) (s : State) : State :=
  mkState (gear s) (command s) (reversed_mode s) (tcnt s) (ovfCounts s)
    (front_distance s) (back_distance s) v (back_blocked s) (car_connected s)
    (uart_rx_buffer s) (stack s) (top s) (cc_counter s) (br_counter s)
    (g_TIMER0_Overflow s) (g_TIMER0_OVF_CallBack s) (TCNT0 s) (timer0_clock s)
    (OCR2 s) (g_UART_RXCallBack s) (g_UART_RX_ArraySize s) (g_UART_RX_Index s)
    (uart_rx_int s) (right_pins s) (left_pins s) (buzzer s) (lcd s)
    (mcu_reset s).

Definition set_back_blocked (v : bool) (s : State) : State :=
  mkState (gear s) (command s) (reversed_mode s) (tcnt s) (ovfCounts s)
    (front_distance s) (back_distance s) (front_blocked s) v (car_connected s)
    (uart_rx_buffer s) (stack s) (top s) (cc_counter s) (br_counter s)
    (g_TIMER0_Overflow s) (g_TIMER0_OVF_CallBack s) (TCNT0 s) (timer0_clock s)
    (OCR2 s) (g_UART_RXCallBack s) (g_UART_RX_ArraySize s) (g_UART_RX_Index s)
    (uart_rx_int s) (right_pins s) (left_pins s) (buzzer s) (lcd s)
    (mcu_reset s).

Definition set_car_connected (v : bool) (s : State) : State :=
  mkState (gear s) (command s) (reversed_mode s) (tcnt s) (ovfCounts s)
    (front_distance s) (back_distance s) (front_blocked s) (back_blocked s) v
    (uart_rx_buffer s) (stack s) (top s) (cc_counter s) (br_counter s)
    (g_TIMER0_Overflow s) (g_TIMER0_OVF_CallBack s) (TCNT0 s) (timer0_clock s)
    (OCR2 s) (g_UART_RXCallBack s) (g_UART_RX_ArraySize s) (g_UART_RX_Index s)
    (uart_rx_int s) (right_pins s) (left_pins s) (buzzer s) (lcd s)
    (mcu_reset s).

Definition set_uart_rx_buffer (v : list Z) (s : State) : State :=
  mkState (gear s) (command s) (reversed_mode s) (tcnt s) (ovfCounts s)
    (front_distance s) (back_distance s) (front_blocked s) (back_blocked s)
    (car_connected s) v (stack s) (top s) (cc_counter s) (br_counter s)
    (g_TIMER0_Overflow s) (g_TIMER0_OVF_CallBack s) (TCNT0 s) (timer0_clock s)
    (OCR2 s) (g_UART_RXCallBack s) (g_UART_RX_ArraySize s) (g_UART_RX_Index s)
    (uart_rx_int s) (right_pins s) (left_pins s) (buzzer s) (lcd s)
    (mcu_reset s).

Definition set_stack (v : list reverse.t) (s : State) : State :=
  mkState (gear s) (command s) (reversed_mode s) (tcnt s) (ovfCounts s)
    (front_distance s) (back_distance s) (front_blocked s) (back_blocked s)
    (car_connected s) (uart_rx_buffer s) v (top s) (cc_counter s)
    (br_counter s) (g_TIMER0_Overflow s) (g_TIMER0_OVF_CallBack s) (TCNT0 s)
    (timer0_clock s) (OCR2 s) (g_UART_RXCallBack s) (g_UART_RX_ArraySize s)
    (g_UART_RX_Index s) (uart_rx_int s) (right_pins s) (left_pins s)
    (buzzer s) (lcd s) (mcu_reset s).

Definition set_top (v : Z) (s : State) : State :=
  mkState (gear s) (command s) (reversed_mode s) (tcnt s) (ovfCounts s)
    (front_distance s) (back_distance s) (front_blocked s) (back_blocked s)
    (car_connected s) (uart_rx_buffer s) (stack s) v (cc_counter s)
    (br_counter s) (g_TIMER0_Overflow s) (g_TIMER0_OVF_CallBack s) (TCNT0 s)
    (timer0_clock s) (OCR2 s) (g_UART_RXCallBack s) (g_UART_RX_ArraySize s)
    (g_UART_RX_Index s) (uart_rx_int s) (right_pins s) (left_pins s)
    (buzzer s) (lcd s) (mcu_reset s).

Definition set_cc_counter (v : Z) (s : State) : State :=
  mkState (gear s) (command s) (reversed_mode s) (tcnt s) (ovfCounts s)
    (front_distance s) (back_distance s) (front_blocked s) (back_blocked s)
    (car_connected s) (uart_rx_buffer s) (stack s) (top s) v (br_counter s)
    (g_TIMER0_Overflow s) (g_TIMER0_OVF_CallBack s) (TCNT0 s) (timer0_clock s)
    (OCR2 s) (g_UART_RXCallBack s) (g_UART_RX_ArraySize s) (g_UART_RX_Index s)
    (uart_rx_int s) (right_pins s) (left_pins s) (buzzer s) (lcd s)
    (mcu_reset s).

Definition set_br_counter (v : Z) (s : State) : State :=
  mkState (gear s) (command s) (reversed_mode s) (tcnt s) (ovfCounts s)
    (front_distance s) (back_distance s) (front_blocked s) (back_blocked s)
    (car_connected s) (uart_rx_buffer s) (stack s) (top s) (cc_counter s) v
    (g_TIMER0_Overflow s) (g_TIMER0_OVF_CallBack s) (TCNT0 s) (timer0_clock s)
    (OCR2 s) (g_UART_RXCallBack s) (g_UART_RX_ArraySize s) (g_UART_RX_Index s)
    (uart_rx_int s) (right_pins s) (left_pins s) (buzzer s) (lcd s)
    (mcu_reset s).

Definition set_g_TIMER0_Overflow (v : Z) (s : State) : State :=
  mkState (gear s) (command s) (reversed_mode s) (tcnt s) (ovfCounts s)
    (front_distance s) (back_distance s) (front_blocked s) (back_blocked s)
    (car_connected s) (uart_rx_buffer s) (stack s) (top s) (cc_counter s)
    (br_counter s) v (g_TIMER0_OVF_CallBack s) (TCNT0 s) (timer0_clock s)
    (OCR2 s) (g_UART_RXCallBack s) (g_UART_RX_ArraySize s) (g_UART_RX_Index s)
    (uart_rx_int s) (right_pins s) (left_pins s) (buzzer s) (lcd s)
    (mcu_reset s).

Definition set_g_TIMER0_OVF_CallBack (v : option ovf_handler) (s : State) : State :=
  mkState (gear s) (command s) (reversed_mode s) (tcnt s) (ovfCounts s)
    (front_distance s) (back_distance s) (front_blocked s) (back_blocked s)
    (car_connected s) (uart_rx_buffer s) (stack s) (top s) (cc_counter s)
    (br_counter s) (g_TIMER0_Overflow s) v (TCNT0 s) (timer0_clock s) (OCR2 s)
    (g_UART_RXCallBack s) (g_UART_RX_ArraySize s) (g_UART_RX_Index s)
    (uart_rx_int s) (right_pins s) (left_pins s) (buzzer s) (lcd s)
    (mcu_reset s).

Definition set_TCNT0 (v : Z) (s : State) : State :=
  mkState (gear s) (command s) (reversed_mode s) (tcnt s) (ovfCounts s)
    (front_distance s) (back_distance s) (front_blocked s) (back_blocked s)
    (car_connected s) (uart_rx_buffer s) (stack s) (top s) (cc_counter s)
    (br_counter s) (g_TIMER0_Overflow s) (g_TIMER0_OVF_CallBack s) v
    (timer0_clock s) (OCR2 s) (g_UART_RXCallBack s) (g_UART_RX_ArraySize s)
    (g_UART_RX_Index s) (uart_rx_int s) (right_pins s) (left_pins s)
    (buzzer s) (lcd s) (mcu_reset s).

Definition set_timer0_clock (v : bool) (s : State) : State :=
  mkState (gear s) (command s) (reversed_mode s) (tcnt s) (ovfCounts s)
    (front_distance s) (back_distance s) (front_blocked s) (back_blocked s)
    (car_connected s) (uart_rx_buffer s) (stack s) (top s) (cc_counter s)
    (br_counter s) (g_TIMER0_Overflow s) (g_TIMER0_OVF_CallBack s) (TCNT0 s) v
    (OCR2 s) (g_UART_RXCallBack s) (g_UART_RX_ArraySize s) (g_UART_RX_Index s)
    (uart_rx_int s) (right_pins s) (left_pins s) (buzzer s) (lcd s)
    (mcu_reset s).

Definition set_OCR2 (v : Z) (s : State) : State :=
  mkState (gear s) (command s) (reversed_mode s) (tcnt s) (ovfCounts s)
    (front_distance s) (back_distance s) (front_blocked s) (back_blocked s)
    (car_connected s) (uart_rx_buffer s) (stack s) (top s) (cc_counter s)
    (br_counter s) (g_TIMER0_Overflow s) (g_TIMER0_OVF_CallBack s) (TCNT0 s)
    (timer0_clock s) v (g_UART_RXCallBack s) (g_UART_RX_ArraySize s)
    (g_UART_RX_Index s) (uart_rx_int s) (right_pins s) (left_pins s)
    (buzzer s) (lcd s) (mcu_reset s).

Definition set_g_UART_RXCallBack (v : option rx_handler) (s : State) : State :=
  mkState (gear s) (command s) (reversed_mode s) (tcnt s) (ovfCounts s)
    (front_distance s) (back_distance s) (front_blocked s) (back_blocked s)
    (car_connected s) (uart_rx_buffer s) (stack s) (top s) (cc_counter s)
    (br_counter s) (g_TIMER0_Overflow s) (g_TIMER0_OVF_CallBack s) (TCNT0 s)
    (timer0_clock s) (OCR2 s) v (g_UART_RX_ArraySize s) (g_UART_RX_Index s)
    (uart_rx_int s) (right_pins s) (left_pins s) (buzzer s) (lcd s)
    (mcu_reset s).

Definition set_g_UART_RX_ArraySize (v : Z) (s : State) : State :=
  mkState (gear s) (command s) (reversed_mode s) (tcnt s) (ovfCounts s)
    (front_distance s) (back_distance s) (front_blocked s) (back_blocked s)
    (car_connected s) (uart_rx_buffer s) (stack s) (top s) (cc_counter s)
    (br_counter s) (g_TIMER0_Overflow s) (g_TIMER0_OVF_CallBack s) (TCNT0 s)
    (timer0_clock s) (OCR2 s) (g_UART_RXCallBack s) v (g_UART_RX_Index s)
    (uart_rx_int s) (right_pins s) (left_pins s) (buzzer s) (lcd s)
    (mcu_reset s).

Definition set_g_UART_RX_Index (v : Z) (s : State) : State :=
  mkState (gear s) (command s) (reversed_mode s) (tcnt s) (ovfCounts s)
    (front_distance s) (back_distance s) (front_blocked s) (back_blocked s)
    (car_connected s) (uart_rx_buffer s) (stack s) (top s) (cc_counter s)
    (br_counter s) (g_TIMER0_Overflow s) (g_TIMER0_OVF_CallBack s) (TCNT0 s)
    (timer0_clock s) (OCR2 s) (g_UART_RXCallBack s) (g_UART_RX_ArraySize s) v
    (uart_rx_int s) (right_pins s) (left_pins s) (buzzer s) (lcd s)
    (mcu_reset s).

Definition set_uart_rx_int (v : bool) (s : State) : State :=
  mkState (gear s) (command s) (reversed_mode s) (tcnt s) (ovfCounts s)
    (front_distance s) (back_distance s) (front_blocked s) (back_blocked s)
    (car_connected s) (uart_rx_buffer s) (stack s) (top s) (cc_counter s)
    (br_counter s) (g_TIMER0_Overflow s) (g_TIMER0_OVF_CallBack s) (TCNT0 s)
    (timer0_clock s) (OCR2 s) (g_UART_RXCallBack s) (g_UART_RX_ArraySize s)
    (g_UART_RX_Index s) v (right_pins s) (left_pins s) (buzzer s) (lcd s)
    (mcu_reset s).

Definition set_right_pins (v : pins) (s : State) : State :=
  mkState (gear s) (command s) (reversed_mode s) (tcnt s) (ovfCounts s)
    (front_distance s) (back_distance s) (front_blocked s) (back_blocked s)
    (car_connected s) (uart_rx_buffer s) (stack s) (top s) (cc_counter s)
    (br_counter s) (g_TIMER0_Overflow s) (g_TIMER0_OVF_CallBack s) (TCNT0 s)
    (timer0_clock s) (OCR2 s) (g_UART_RXCallBack s) (g_UART_RX_ArraySize s)
    (g_UART_RX_Index s) (uart_rx_int s) v (left_pins s) (buzzer s) (lcd s)
    (mcu_reset s).

Definition set_left_pins (v : pins) (s : State) : State :=
  mkState (gear s) (command s) (reversed_mode s) (tcnt s) (ovfCounts s)
    (front_distance s) (back_distance s) (front_blocked s) (back_blocked s)
    (car_connected s) (uart_rx_buffer s) (stack s) (top s) (cc_counter s)
    (br_counter s) (g_TIMER0_Overflow s) (g_TIMER0_OVF_CallBack s) (TCNT0 s)
    (timer0_clock s) (OCR2 s) (g_UART_RXCallBack s) (g_UART_RX_ArraySize s)
    (g_UART_RX_Index s) (uart_rx_int s) (right_pins s) v (buzzer s) (lcd s)
    (mcu_reset s).

Definition set_buzzer (v : bool) (s : State) : State :=
  mkState (gear s) (command s) (reversed_mode s) (tcnt s) (ovfCounts s)
    (front_distance s) (back_distance s) (front_blocked s) (back_blocked s)
    (car_connected s) (uart_rx_buffer s) (stack s) (top s) (cc_counter s)
    (br_counter s) (g_TIMER0_Overflow s) (g_TIMER0_OVF_CallBack s) (TCNT0 s)
    (timer0_clock s) (OCR2 s) (g_UART_RXCallBack s) (g_UART_RX_ArraySize s)
    (g_UART_RX_Index s) (uart_rx_int s) (right_pins s) (left_pins s) v (lcd s)
    (mcu_reset s).

Definition set_lcd (v : list lcd_op) (s : State) : State :=
  mkState (gear s) (command s) (reversed_mode s) (tcnt s) (ovfCounts s)
    (front_distance s) (back_distance s) (front_blocked s) (back_blocked s)
    (car_connected s) (uart_rx_buffer s) (stack s) (top s) (cc_counter s)
    (br_counter s) (g_TIMER0_Overflow s) (g_TIMER0_OVF_CallBack s) (TCNT0 s)
    (timer0_clock s) (OCR2 s) (g_UART_RXCallBack s) (g_UART_RX_ArraySize s)
    (g_UART_RX_Index s) (uart_rx_int s) (right_pins s) (left_pins s)
    (buzzer s) v (mcu_reset s).

Definition set_mcu_reset (v : bool) (s : State) : State :=
  mkState (gear s) (command s) (reversed_mode s) (tcnt s) (ovfCounts s)
    (front_distance s) (back_distance s) (front_blocked s) (back_blocked s)
    (car_connected s) (uart_rx_buffer s) (stack s) (top s) (cc_counter s)
    (br_counter s) (g_TIMER0_Overflow s) (g_TIMER0_OVF_CallBack s) (TCNT0 s)
    (timer0_clock s) (OCR2 s) (g_UART_RXCallBack s) (g_UART_RX_ArraySize s)
    (g_UART_RX_Index s) (uart_rx_int s) (right_pins s) (left_pins s)
    (buzzer s) (lcd s) v.

(** ** MOTOR.c: H-bridge driver *)

Definition set_pins (m : Motor) (p : pins) (s : State) : State :=
  match m with
  | right_motor => set_right_pins p s
  | left_motor => set_left_pins p s
  end.

Definition MOTOR_Forward (m : Motor) (s : State) : State :=
  set_pins m (HIGH, LOW) s.

Definition MOTOR_Backward (m : Motor) (s : State) : State :=
  set_pins m (LOW, HIGH) s.

Definition MOTOR_Stop (m : Motor) (s : State) : State :=
  set_pins m (LOW, LOW) s.

Definition MOTOR_BothForward (r l : Motor) (s : State) : State :=
  MOTOR_Forward r (MOTOR_Forward l s).

Definition MOTOR_BothBackward (r l : Motor) (s : State) : State :=
  MOTOR_Backward r (MOTOR_Backward l s).

Definition MOTOR_BothStop (r l : Motor) (s : State) : State :=
  MOTOR_Stop r (MOTOR_Stop l s).

(** MOTOR_STEERING_MODE == MOTOR_REVERSE_ON_TURN (MOTOR_config.h). *)
Definition MOTOR_TurnRight (r l : Motor) (s : State) : State :=
  MOTOR_Backward r (MOTOR_Forward l s).

Definition MOTOR_TurnLeft (r l : Motor) (s : State) : State :=
  MOTOR_Backward l (MOTOR_Forward r s).

Definition MOTOR_SET_Direction (r l : Motor) (Direction : Z) (s : State)
  : State :=
  if Direction =? MOTOR_FORWARD then MOTOR_BothForward r l s
  else if Direction =? MOTOR_BACKWARD then MOTOR_BothBackward r l s
  else if Direction =? MOTOR_TURN_RIGHT then MOTOR_TurnRight r l s
  else if Direction =? MOTOR_TURN_LEFT then MOTOR_TurnLeft r l s
  else MOTOR_BothStop r l s.

(** ** TIMER0.c, TIMER2.c, UART.c, WDT.c, DIO, LCD: the calls APP.c makes *)

Definition TIMER0_Disable (s : State) : State := set_timer0_clock false s.
Definition TIMER0_Enable (s : State) : State := set_timer0_clock true s.

Definition TIMER0_SetTimerValue (TimerValue : Z) (s : State) : State :=
  set_TCNT0 (uint8 TimerValue) s.

Definition TIMER0_GetTimerValue (s : State) : Z := TCNT0 s.

Definition TIMER0_RESET (s : State) : State :=
  set_g_TIMER0_Overflow 0 (set_TCNT0 0 s).

(** Only [TIMER0_OVF_ID] is ever passed by APP.c. *)
Definition TIMER0_SetCallback (f : ovf_handler) (s : State) : State :=
  set_g_TIMER0_OVF_CallBack (Some f) s.

Definition TIMER2_SetCompareValue (CompareValue : Z) (s : State) : State :=
  set_OCR2 (uint8 CompareValue) s.

(** [UART_InterruptDisable( UART_INT_RX_ID )]. *)
Definition UART_InterruptDisable_RX (s : State) : State :=
  set_uart_rx_int false s.

(** The array is always [uart_rx_buffer], the stop byte [UART_STOPCHAR]. *)
Definition UART_Set_RX_Callback (f : rx_handler) (RX_ArraySize : Z)
    (s : State) : State :=
  set_g_UART_RX_Index 0
    (set_g_UART_RX_ArraySize (uint16 RX_ArraySize)
       (set_g_UART_RXCallBack (Some f) s)).

Definition WDT_RESET_MCU (s : State) : State := set_mcu_reset true s.

Definition LCD_ClearScreen (s : State) : State :=
  set_lcd (LCD_ClearScreen_call :: lcd s) s.

Definition LCD_PrintString (text : list Z) (s : State) : State :=
  set_lcd (LCD_PrintString_call text :: lcd s) s.

(** [DIO_SetPinValue(BUZZER_PORT, BUZZER_PIN, level)]. *)
Definition DIO_SetPinValue_BUZZER (level : bool) (s : State) : State :=
  set_buzzer level s.

(** ** APP.c *)

(** [stack[ i ]] *)
Definition stack_at (s : State) (i : Z) : reverse.t :=
  default reverse.zero (stack s !! Z.to_nat i).

Definition Back_Reverse (s : State) : State :=
  let s := set_br_counter (uint16 (br_counter s + 1)) s in
  if br_counter s <? ovfCounts s then s
  else
    let s := set_br_counter 0 s in
    if top s =? 0 then
      WDT_RESET_MCU (MOTOR_BothStop right_motor left_motor s)
    else
      let s := set_top (uint8 (top s - 1)) s in
      if negb (reversed_mode s =? STOP) then
        let s := set_ovfCounts (reverse.ovfs (stack_at s (top s))) s in
        let s := TIMER0_SetTimerValue (reverse.tcnt (stack_at s (top s))) s in
        let s :=
          TIMER2_SetCompareValue (51 * reverse.gear (stack_at s (top s))) s in
        MOTOR_SET_Direction right_motor left_motor
          (reverse.mode (stack_at s (top s))) s
      else s.

Definition Save_Move (s : State) : State :=
  let s :=
    if negb (reversed_mode s =? STOP) && (top s <? MAX_MOVES) then
      let r := reverse.mk (bits3 (reversed_mode s)) (bits3 (gear s))
                 (uint16 (g_TIMER0_Overflow s))
                 (uint8 (TIMER0_GetTimerValue s)) in
      let s := set_stack (<[Z.to_nat (top s) := r]> (stack s)) s in
      set_top (uint8 (top s + 1)) s
    else s in
  TIMER0_RESET s.

Definition UART_Get_Cmd (s : State) : State :=
  let s := set_command (uint8 (default 0 (uart_rx_buffer s !! 0%nat))) s in
  let s := set_car_connected true s in
  if command s =? FORWARD then
    let s := MOTOR_BothForward right_motor left_motor s in
    let s := Save_Move s in
    set_reversed_mode BACKWARD s
  else if command s =? BACKWARD then
    let s := MOTOR_BothBackward right_motor left_motor s in
    let s := Save_Move s in
    set_reversed_mode FORWARD s
  else if command s =? STOP then
    let s := MOTOR_BothStop right_motor left_motor s in
    let s := Save_Move s in
    set_reversed_mode STOP s
  else if command s =? STEER_RIGHT then
    let s := MOTOR_TurnRight right_motor left_motor s in
    let s := Save_Move s in
    set_reversed_mode STEER_LEFT s
  else if command s =? STEER_LEFT then
    let s := MOTOR_TurnLeft right_motor left_motor s in
    let s := Save_Move s in
    set_reversed_mode STEER_RIGHT s
  else if command s =? GEARUP then
    if gear s <? MAX_GEAR then
      let s := set_gear (uint8 (gear s + 1)) s in
      let s := TIMER2_SetCompareValue (51 * gear s) s in
      Save_Move s
    else s
  else if command s =? GEARDOWN then
    if MIN_GEAR <? gear s then
      let s := set_gear (uint8 (gear s - 1)) s in
      let s := TIMER2_SetCompareValue (51 * gear s) s in
      Save_Move s
    else s
  else if command s =? CLR_SCREEN then LCD_ClearScreen s
  else if command s =? SEND_LCD then
    UART_Set_RX_Callback fn_UART_Get_LCD_msg 34 s
  else if command s =? REVERSE then
    let s := Save_Move s in
    let s := MOTOR_BothStop right_motor left_motor s in
    let s := UART_InterruptDisable_RX s in
    let s := TIMER0_SetCallback fn_Back_Reverse s in
    let s := set_ovfCounts 0 s in
    TIMER0_SetTimerValue 255 s
  else if command s =? BUZZER_ON then DIO_SetPinValue_BUZZER HIGH s
  else if command s =? BUZZER_OFF then DIO_SetPinValue_BUZZER LOW s
  else s.

Definition UART_Get_LCD_msg (s : State) : State :=
  let s := LCD_ClearScreen s in
  let s := LCD_PrintString (uart_rx_buffer s) s in
  let s := UART_Set_RX_Callback fn_UART_Get_Cmd 1 s in
  set_car_connected true s.

Definition Check_Connection (s : State) : State :=
  let s := set_cc_counter (uint16 (cc_counter s + 1)) s in
  if ovfCounts s <=? cc_counter s then
    let s := TIMER0_SetTimerValue (tcnt s) s in
    let s := set_cc_counter 0 s in
    if negb (car_connected s) then
      let s := Save_Move s in
      let s := MOTOR_BothStop right_motor left_motor s in
      let s := UART_InterruptDisable_RX s in
      let s := TIMER0_SetCallback fn_Back_Reverse s in
      let s := set_ovfCounts 0 s in
      let s := TIMER0_SetTimerValue 255 s in
      set_command REVERSE s
    else if (command s =? STOP) || (command s =? SEND_LCD) then
      set_car_connected true s
    else set_car_connected false s
  else s.

(** The first if / else-if chain of [Obstacle_Detection] (front sensor). *)
Definition Obstacle_Detection_front (s : State) : State :=
  if ((command s =? FORWARD)
      || ((command s =? REVERSE) && (reversed_mode s =? FORWARD)))
     && (front_distance s <? 10)
  then
    if negb (front_blocked s) then
      let s := MOTOR_BothStop right_motor left_motor s in
      let s := TIMER0_Disable s in
      set_front_blocked true s
    else s
  else if front_blocked s && (10 <=? front_distance s) then
    let s := MOTOR_BothForward right_motor left_motor s in
    let s := TIMER0_Enable s in
    set_front_blocked false s
  else s.

(** The second if / else-if chain of [Obstacle_Detection] (back sensor). *)
Definition Obstacle_Detection_back (s : State) : State :=
  if ((command s =? BACKWARD)
      || ((command s =? REVERSE) && (reversed_mode s =? BACKWARD)))
     && (back_distance s <? 10)
  then
    if negb (back_blocked s) then
      let s := MOTOR_BothStop right_motor left_motor s in
      let s := TIMER0_Disable s in
      set_back_blocked true s
    else s
  else if back_blocked s && (10 <=? back_distance s) then
    let s := MOTOR_BothBackward right_motor left_motor s in
    let s := TIMER0_Enable s in
    set_back_blocked false s
  else s.

(** [Obstacle_Detection]; the two [USONIC_Read] samples are its inputs. *)
Definition Obstacle_Detection (front back : Z) (s : State) : State :=
  let s := set_front_distance (uint16 front) s in
  let s := set_back_distance (uint16 back) s in
  Obstacle_Detection_back (Obstacle_Detection_front s).

(** ** Interrupt vectors *)

(** [__vector_11]: Timer0 overflow.  Normal mode with software time
    tracking enabled (TIMER0_config.h), so the overflow count is bumped
    after the callback; [WDT_RESET_MCU] inside the callback never returns. *)
Definition vector_11 (s : State) : State :=
  let s :=
    match g_TIMER0_OVF_CallBack s with
    | Some fn_Check_Connection => Check_Connection s
    | Some fn_Back_Reverse => Back_Reverse s
    | None => s
    end in
  if mcu_reset s then s
  else set_g_TIMER0_Overflow (uint16 (g_TIMER0_Overflow s + 1)) s.

(** [__vector_13]: UART receive complete, [byte] read from UDR.  The
    receive array is [uart_rx_buffer] (never NULL after [APP_Init]); a
    store past its 34 cells is dropped by the list update. *)
Definition vector_13 (byte : Z) (s : State) : State :=
  let s :=
    set_uart_rx_buffer
      (<[Z.to_nat (g_UART_RX_Index s) := byte]> (uart_rx_buffer s)) s in
  let s := set_g_UART_RX_Index (uint16 (g_UART_RX_Index s + 1)) s in
  if (g_UART_RX_ArraySize s <=? g_UART_RX_Index s)
     || (byte =? UART_STOPCHAR)
  then
    let s :=
      if byte =? UART_STOPCHAR then
        set_uart_rx_buffer
          (<[Z.to_nat (g_UART_RX_Index s) := UART_STOPCHAR]>
             (uart_rx_buffer s)) s
      else s in
    let s := set_g_UART_RX_Index 0 s in
    match g_UART_RXCallBack s with
    | Some fn_UART_Get_Cmd => UART_Get_Cmd s
    | Some fn_UART_Get_LCD_msg => UART_Get_LCD_msg s
    | None => s
    end
  else s.

(** ** Hardware and environment *)

(** The counter wraps to 0 and the overflow interrupt is served. *)
Definition timer0_overflow (s : State) : State := vector_11 (set_TCNT0 0 s).

(** One prescaled clock period of Timer0 in normal mode: the 8-bit
    counter advances while a clock source is selected and overflows when
    it leaves 255. *)
Definition timer0_tick (s : State) : State :=
  if timer0_clock s then
    if TCNT0 s =? 255 then timer0_overflow s
    else set_TCNT0 (TCNT0 s + 1) s
  else s.

Inductive event : Type :=
  | Tick                       (* one Timebase tick elapses *)
  | Recv (byte : Z)            (* the CommandLink delivers one byte *)
  | Sense (front back : Z).    (* one main-loop poll with two samples *)

Definition step (s : State) (e : event) : State :=
  if mcu_reset s then s
  else
    match e with
    | Tick => timer0_tick s
    | Recv byte => if uart_rx_int s then vector_13 (uint8 byte) s else s
    | Sense front back => Obstacle_Detection front back s
    end.

Definition run (es : list event) (s : State) : State := fold_left step es s.

(** State at the end of [APP_Init].  [w_ovfs] and [w_tcnt] are the two
    outputs of [TIMER0_Calc_ISR_Timing_ms( 5000 , &ovfCounts , &tcnt )] (a
    float32 computation on F_CPU).  Timer0 counts with its overflow
    interrupt enabled, the receiver delivers single bytes to
    [UART_Get_Cmd], the motor pins are low and the LCD trace starts here. *)
Definition APP_Init (w_ovfs w_tcnt : Z) : State :=
  {| gear := MIN_GEAR; command := STOP; reversed_mode := STOP;
     tcnt := uint8 w_tcnt; ovfCounts := uint16 w_ovfs;
     front_distance := 0; back_distance := 0;
     front_blocked := false; back_blocked := false; car_connected := true;
     uart_rx_buffer := replicate 34 0;
     stack := replicate 300 reverse.zero; top := 0;
     cc_counter := 0; br_counter := 0;
     g_TIMER0_Overflow := 0;
     g_TIMER0_OVF_CallBack := Some fn_Check_Connection;
     TCNT0 := 0; timer0_clock := true;
     OCR2 := uint8 (51 * MIN_GEAR);
     g_UART_RXCallBack := Some fn_UART_Get_Cmd;
     g_UART_RX_ArraySize := 1; g_UART_RX_Index := 0; uart_rx_int := true;
     right_pins := (LOW, LOW); left_pins := (LOW, LOW);
     buzzer := LOW; lcd := []; mcu_reset := false |}.

(** With F_CPU = 8 MHz and the /256 prescaler, 5000 ms is 610.3515625
    overflows: 611 interrupts with a preload of 166. *)
Definition boot : State := APP_Init 611 166.

(** The twelve bytes that have a case in the switch of [UART_Get_Cmd]. *)
Definition recognized (b : Z) : bool :=
  existsb (Z.eqb b)
    [FORWARD; BACKWARD; STOP; STEER_RIGHT; STEER_LEFT; GEARUP; GEARDOWN;
     CLR_SCREEN; SEND_LCD; REVERSE; BUZZER_ON; BUZZER_OFF].

(** Both motors halted: all four H-bridge pins low. *)
Definition halted (s : State) : Prop :=
  right_pins s = (LOW, LOW) /\ left_pins s = (LOW, LOW).

(** ** EEPROM.c *)

Definition EEPROM_SIZE : Z := 1024.

(** The EEPROM cells by address. *)
Definition eeprom : Type := Z -> Z.

(** [for (uint8 i = first; ...; i++)] running its body [n] times. *)
Fixpoint for_loop {A : Type} (n : nat) (i : Z) (body : Z -> A -> A) (a : A)
  : A :=
  match n with
  | O => a
  | S n => for_loop n (i + 1) body (body i a)
  end.

(** Parameters are [uint16 address] and [uint8 data]. *)
Definition EEPROM_WriteByte (address data : Z) (m : eeprom) : eeprom :=
  let address := uint16 address in
  let data := uint8 data in
  if address <? EEPROM_SIZE then
    fun a => if a =? address then data else m a
  else m.

Definition EEPROM_ReadByte (address : Z) (m : eeprom) : Z :=
  let address := uint16 address in
  if address <? EEPROM_SIZE then m address else 0.

(** [data_array] is [None] for a NULL pointer.  On the AVR [int] has 16
    bits, so the sum [address + array_size] of the guard is an
    [unsigned int] and wraps at 65536. *)
Definition EEPROM_WriteArray (address : Z) (data_array : option (list Z))
    (array_size : Z) (m : eeprom) : eeprom :=
  let address := uint16 address in
  let array_size := uint8 array_size in
  match data_array with
  | None => m
  | Some data =>
      if EEPROM_SIZE <? uint16 (address + array_size) then m
      else
        for_loop (Z.to_nat array_size) 0
          (fun byte m =>
             EEPROM_WriteByte (address + byte)
               (default 0 (data !! Z.to_nat byte)) m)
          m
  end.

(** Returns the array behind [data_array] after the call. *)
Definition EEPROM_ReadArray (address : Z) (data_array : option (list Z))
    (array_size : Z) (m : eeprom) : option (list Z) :=
  let address := uint16 address in
  let array_size := uint8 array_size in
  match data_array with
  | None => None
  | Some data =>
      if EEPROM_SIZE <? uint16 (address + array_size) then Some data
      else
        Some (for_loop (Z.to_nat array_size) 0
                (fun byte data =>
                   <[Z.to_nat byte := EEPROM_ReadByte (address + byte) m]>
                     data)
                data)
  end.

(** An erased EEPROM: every cell reads 0xFF. *)
Definition erased : eeprom := fun _ => 255.

(** ** APP.c: the keypad, password and servo workflow of the main loop *)

Module Lock.

Definition PASS_STATUS_ADDRESS : Z := 32. (* 0x20 *)
Definition PASS_ADDRESS : Z := 33.        (* 0x21 *)
Definition NO_PASS : Z := 255.            (* 0xFF *)
Definition PASS_SAVED : Z := 0.
Definition PASS_SIZE : Z := 4.
Definition KEYPAD_NOT_PRESSED : Z := 255. (* 0xFF *)
Definition SERVO_MIN_ANGLE : Z := -90.
Definition SERVO_MAX_ANGLE : Z := 90.

(** Calls to the LCD driver. *)
Inductive lcd_call : Type :=
  | ClearScreen
  | PrintString (str : String.string)
  | PrintCharacter (character : Z)
  | SetCursor (row col : Z).

(** The two password arrays of APP.c, the EEPROM, the angle last given
    to the servo, the LCD calls made so far (latest first) and the values
    the coming calls of [KEYPAD_GetPressedKey] return. *)
Record Box : Type := mkBox {
  input_pass : list Z;   (* uint8 input_pass[ PASS_SIZE ] *)
  pass : list Z;         (* uint8 pass[ PASS_SIZE ] *)
  memory : eeprom;
  servo : Z;
  lcd : list lcd_call;
  keypad : list Z
}.

(** A [uint8 *] argument that points to one of the two arrays. *)
Inductive pass_array : Type := to_input_pass | to_pass.

(** Code that reads the keypad waits for the user: it yields no result
    when the readings run out. *)
Definition M (A : Type) : Type := Box -> option (A * Box).

Definition ret {A : Type} (a : A) : M A := fun b => Some (a, b).

Definition bind {A B : Type} (m : M A) (k : A -> M B) : M B :=
  fun b =>
    match m b with
    | Some (a, b') => k a b'
    | None => None
    end.

Declare Scope lock_scope.
Delimit Scope lock_scope with lock.
Bind Scope lock_scope with M.

Notation "x <- c1 ;; c2" := (bind c1 (fun x => c2))
  (at level 100, c1 at next level, c2 at level 200) : lock_scope.
Notation "c1 ;; c2" := (bind c1 (fun _ => c2))
  (at level 100, c2 at level 200) : lock_scope.

Local Open Scope lock_scope.

Definition LCD_ClearScreen : M unit :=
  fun b => Some (tt, mkBox (input_pass b) (pass b) (memory b) (servo b)
                       (ClearScreen :: lcd b) (keypad b)).

Definition LCD_PrintString (str : String.string) : M unit :=
  fun b => Some (tt, mkBox (input_pass b) (pass b) (memory b) (servo b)
                       (PrintString str :: lcd b) (keypad b)).

Definition LCD_PrintCharacter (character : Z) : M unit :=
  fun b => Some (tt, mkBox (input_pass b) (pass b) (memory b) (servo b)
                       (PrintCharacter character :: lcd b) (keypad b)).

Definition LCD_SetCursor (row col : Z) : M unit :=
  fun b => Some (tt, mkBox (input_pass b) (pass b) (memory b) (servo b)
                       (SetCursor row col :: lcd b) (keypad b)).

(** SERVO.c: an angle outside -90..90 is ignored.  The pulse width
    written to the compare register is a float32 expression of the angle;
    the angle stands for it. *)
Definition SERVO_SetAngle (angle : Z) : M unit :=
  fun b =>
    if (SERVO_MIN_ANGLE <=? angle) && (angle <=? SERVO_MAX_ANGLE) then
      Some (tt, mkBox (input_pass b) (pass b) (memory b) angle
                  (lcd b) (keypad b))
    else Some (tt, b).

(** [password[i]] *)
Definition get_array (password : pass_array) (b : Box) : list Z :=
  match password with
  | to_input_pass => input_pass b
  | to_pass => pass b
  end.

(** [password[i] = key] *)
Definition store (password : pass_array) (i key : Z) : M unit :=
  fun b =>
    match password with
    | to_input_pass =>
        Some (tt, mkBox (<[Z.to_nat i := key]> (input_pass b)) (pass b)
                    (memory b) (servo b) (lcd b) (keypad b))
    | to_pass =>
        Some (tt, mkBox (input_pass b) (<[Z.to_nat i := key]> (pass b))
                    (memory b) (servo b) (lcd b) (keypad b))
    end.

Definition KEYPAD_GetPressedKey : M Z :=
  fun b =>
    match keypad b with
    | [] => None
    | key :: rest =>
        Some (key, mkBox (input_pass b) (pass b) (memory b) (servo b)
                     (lcd b) rest)
    end.

(** [do key = KEYPAD_GetPressedKey(); while ( key == KEYPAD_NOT_PRESSED )]
    on the readings [ks]: the key and the readings left. *)
Fixpoint first_pressed (ks : list Z) : option (Z * list Z) :=
  match ks with
  | [] => None
  | key :: rest =>
      if key =? KEYPAD_NOT_PRESSED then first_pressed rest
      else Some (key, rest)
  end.

Definition wait_for_key : M Z :=
  fun b =>
    match first_pressed (keypad b) with
    | Some (key, rest) =>
        Some (key, mkBox (input_pass b) (pass b) (memory b) (servo b)
                     (lcd b) rest)
    | None => None
    end.

(** [for (uint8 i = first; ...; i++)] around a body that may wait. *)
Fixpoint for_each (n : nat) (i : Z) (body : Z -> M unit) : M unit :=
  match n with
  | O => ret tt
  | S n => body i ;; for_each n (i + 1) body
  end.

(** The [_delay_ms] calls are busy waits and are left out. *)
Definition Keypad_Get_Pass (password : pass_array) : M unit :=
  LCD_ClearScreen ;;
  LCD_PrintString "set pass:"%string ;;
  for_each (Z.to_nat PASS_SIZE) 0
    (fun i =>
       key <- wait_for_key ;;
       store password i key ;;
       LCD_PrintCharacter key ;;
       LCD_SetCursor 0 (9 + i) ;;
       LCD_PrintCharacter 42) ;;
  LCD_ClearScreen.

Definition Save_pass (password : pass_array) : M unit :=
  (fun b =>
     Some (tt, mkBox (input_pass b) (pass b)
                 (EEPROM_WriteArray PASS_ADDRESS
                    (Some (get_array password b)) PASS_SIZE (memory b))
                 (servo b) (lcd b) (keypad b))) ;;
  LCD_ClearScreen ;;
  LCD_PrintString "Password is set"%string ;;
  LCD_ClearScreen.

(** The loop of [Is_Pass_Valid] from index [i], [n] cells to go. *)
Fixpoint Is_Pass_Valid_from (n : nat) (i : Z) : M bool :=
  match n with
  | O =>
      LCD_ClearScreen ;;
      LCD_PrintString "Password correct"%string ;;
      ret true
  | S n =>
      fun b =>
        if negb (default 0 (input_pass b !! Z.to_nat i)
                 =? default 0 (pass b !! Z.to_nat i))
        then (LCD_ClearScreen ;;
              LCD_PrintString "Wrong password"%string ;;
              ret false) b
        else Is_Pass_Valid_from n (i + 1) b
  end.

Definition Is_Pass_Valid : M bool :=
  Is_Pass_Valid_from (Z.to_nat PASS_SIZE) 0.

Definition Check_Pass : M unit :=
  key <- KEYPAD_GetPressedKey ;;
  if negb (key =? KEYPAD_NOT_PRESSED) && negb (key =? 42) then
    Keypad_Get_Pass to_input_pass ;;
    valid <- Is_Pass_Valid ;;
    (if valid : bool then
       LCD_SetCursor 1 3 ;;
       LCD_PrintString "BOX OPENED"%string ;;
       SERVO_SetAngle 90
     else ret tt) ;;
    LCD_ClearScreen
  else if key =? 42 then
    LCD_ClearScreen ;;
    LCD_PrintString " Enter old pass"%string ;;
    Keypad_Get_Pass to_input_pass ;;
    valid <- Is_Pass_Valid ;;
    if valid : bool then
      LCD_SetCursor 1 0 ;;
      LCD_PrintString " Enter new pass"%string ;;
      Keypad_Get_Pass to_pass ;;
      Save_pass to_pass
    else LCD_ClearScreen
  else ret tt.

(** The if / else of [APP_Init] on the saved-password flag. *)
Definition APP_Init_password : M unit :=
  fun b =>
    if EEPROM_ReadByte PASS_STATUS_ADDRESS (memory b) =? NO_PASS then
      (Keypad_Get_Pass to_pass ;;
       Save_pass to_pass ;;
       fun b =>
         Some (tt, mkBox (input_pass b) (pass b)
                     (EEPROM_WriteByte PASS_STATUS_ADDRESS PASS_SAVED
                        (memory b))
                     (servo b) (lcd b) (keypad b))) b
    else
      Some (tt, mkBox (input_pass b)
                  (default (pass b)
                     (EEPROM_ReadArray PASS_ADDRESS (Some (pass b))
                        PASS_SIZE (memory b)))
                  (memory b) (servo b) (lcd b) (keypad b)).

(** The statements of [APP_Init] that greet, close the box and load or
    ask for the password. *)
Definition APP_Init : M unit :=
  LCD_SetCursor 0 5 ;;
  LCD_PrintString "HELLO!"%string ;;
  SERVO_SetAngle 90 ;;
  SERVO_SetAngle (-90) ;;
  LCD_ClearScreen ;;
  APP_Init_password.

(** The RAM and the peripherals after a reset; the EEPROM keeps its
    cells. *)
Definition power_on (m : eeprom) (ks : list Z) : Box :=
  mkBox (replicate 4 0) (replicate 4 0) m 0 [] ks.

(** Relations kept by the code of the workflow. *)
Definition keeps {A : Type} (R : Box -> Box -> Prop) (m : M A) : Prop :=
  forall b a b', m b = Some (a, b') -> R b b'.

(** The servo angle is as before. *)
Definition same_servo (b b' : Box) : Prop := servo b' = servo b.

(** The password and the EEPROM are as before. *)
Definition same_password (b b' : Box) : Prop :=
  pass b' = pass b /\ memory b' = memory b.

(** A box that holds the password 1234, closed, with the keys still to
    be read. *)
Definition box_1234 (ks : list Z) : Box :=
  mkBox [0; 0; 0; 0] [49; 50; 51; 52] erased (-90) [] ks.

(** [box_1234] after key 7 woke the lock and 1, 2, 3, 4 were typed. *)
Definition opened_box : Box :=
  mkBox [49; 50; 51; 52] [49; 50; 51; 52] erased 90
    [ClearScreen; PrintString "BOX OPENED"%string; SetCursor 1 3;
     PrintString "Password correct"%string; ClearScreen;
     ClearScreen; PrintCharacter 42; SetCursor 0 12; PrintCharacter 52;
     PrintCharacter 42; SetCursor 0 11; PrintCharacter 51;
     PrintCharacter 42; SetCursor 0 10; PrintCharacter 50;
     PrintCharacter 42; SetCursor 0 9; PrintCharacter 49;
     PrintString "set pass:"%string; ClearScreen]
    [].

End Lock.

(** * Vocabulary of the properties *)

(** Replay mode: the replay engine owns the overflow interrupt and the
    receiver is off. *)
Definition replaying (s : State) : Prop :=
  g_TIMER0_OVF_CallBack s = Some fn_Back_Reverse /\ uart_rx_int s = false.

(** The low three bits of the four non-STOP command codes. *)
Definition stored_motion (m : Z) : Prop :=
  m = bits3 FORWARD \/ m = bits3 BACKWARD \/
  m = bits3 STEER_RIGHT \/ m = bits3 STEER_LEFT.

(** The five motion command bytes. *)
Definition motion_code (c : Z) : Prop :=
  c = FORWARD \/ c = BACKWARD \/ c = STOP \/
  c = STEER_RIGHT \/ c = STEER_LEFT.

(** Invariant of ([reversed_mode], [top], [stack]): the remembered inverse
    is a motion byte and every record below [top] stores a non-STOP motion. *)
Definition stack_inv (rm tp : Z) (st : list reverse.t) : Prop :=
  motion_code rm /\ 0 <= tp < 256 /\
  forall i, 0 <= i < tp ->
    stored_motion (reverse.mode (default reverse.zero (st !! Z.to_nat i))).

(** The invariant on a state; the array keeps its 300 cells. *)
Definition Inv (s : State) : Prop :=
  stack_inv (reversed_mode s) (top s) (stack s) /\
  length (stack s) = 300%nat.

(** Replay has been entered and the in-flight motion was STOP. *)
Definition unwinding_stopped (s : State) : Prop :=
  mcu_reset s = false /\
  g_TIMER0_OVF_CallBack s = Some fn_Back_Reverse /\
  ovfCounts s = 0 /\ br_counter s = 0 /\ reversed_mode s = STOP /\
  0 <= top s < 256 /\ halted s.

(** The six statements shared by the REVERSE case of [UART_Get_Cmd] and
    the link-lost branch of [Check_Connection]. *)
Definition start_replay (s : State) : State :=
  TIMER0_SetTimerValue 255
    (set_ovfCounts 0
       (TIMER0_SetCallback fn_Back_Reverse
          (UART_InterruptDisable_RX
             (MOTOR_BothStop right_motor left_motor (Save_Move s))))).

(** The two ways replay is entered from state [s], giving [s0]: the
    dispatcher receives REVERSE, or the overflow interrupt runs the
    watchdog at a window boundary with the link not marked alive. *)
Definition replay_entry (s s0 : State) : Prop :=
  (uart_rx_buffer s !! 0%nat = Some REVERSE /\ s0 = UART_Get_Cmd s) \/
  (g_TIMER0_OVF_CallBack s = Some fn_Check_Connection /\
   ovfCounts s <= uint16 (cc_counter s + 1) /\
   car_connected s = false /\ s0 = vector_11 s).

(** [n] consecutive Timebase ticks with no other event. *)
Definition idle (n : N) (s : State) : State :=
  N.iter n (fun x => step x Tick) s.

(** One window of the watchdog at boot: 611 overflows of 256 ticks. *)
Definition window_ticks : N := 611 * 256.

(** [n] times the command pair BACKWARD, FORWARD. *)
Definition back_and_forth (n : nat) : list event :=
  mjoin (replicate n [Recv BACKWARD; Recv FORWARD]).

(** FORWARD held for 300 ticks, then the operator requests the return. *)
Definition forward_300_then_reverse : State :=
  step (idle 300 (step boot (Recv FORWARD))) (Recv REVERSE).

(** What [Back_Reverse] does once its overflow count is reached. *)
Definition replay_step_contract (s : State) : Prop :=
  let s' := Back_Reverse s in
  let r := stack_at s (top s - 1) in
  (top s = 0 -> halted s' /\ mcu_reset s' = true) /\
  (top s <> 0 ->
     top s' = top s - 1 /\ stack s' = stack s /\
     mcu_reset s' = mcu_reset s /\
     (reversed_mode s <> STOP ->
        ovfCounts s' = reverse.ovfs r /\
        TCNT0 s' = uint8 (reverse.tcnt r) /\
        OCR2 s' = uint8 (51 * reverse.gear r) /\
        right_pins s'
          = right_pins (MOTOR_SET_Direction right_motor left_motor
                          (reverse.mode r) s) /\
        left_pins s'
          = left_pins (MOTOR_SET_Direction right_motor left_motor
                         (reverse.mode r) s)) /\
     (reversed_mode s = STOP ->
        ovfCounts s' = ovfCounts s /\ TCNT0 s' = TCNT0 s /\
        OCR2 s' = OCR2 s /\
        right_pins s' = right_pins s /\ left_pins s' = left_pins s)).

(** What [Check_Connection] does at a window boundary. *)
Definition window_boundary_contract (s : State) : Prop :=
  let s' := Check_Connection s in
  (car_connected s = true ->
     car_connected s'
       = ((command s =? STOP) || (command s =? SEND_LCD))%bool /\
     g_TIMER0_OVF_CallBack s' = g_TIMER0_OVF_CallBack s /\
     uart_rx_int s' = uart_rx_int s /\
     stack s' = stack s /\ top s' = top s) /\
  (car_connected s = false ->
     halted s' /\ command s' = REVERSE /\
     forall es, replaying (run es s')).

(** The resume branches of the two halves of [Obstacle_Detection]. *)
Definition front_resumed (s : State) : Prop :=
  Obstacle_Detection_front s
  = set_front_blocked false
      (TIMER0_Enable (MOTOR_BothForward right_motor left_motor s)).

(** Same for the back sensor. *)
Definition back_resumed (s : State) : Prop :=
  Obstacle_Detection_back s
  = set_back_blocked false
      (TIMER0_Enable (MOTOR_BothBackward right_motor left_motor s)).

(** Replay entered at [s0] from [s]: [top s] overflows pop one record
    each and change nothing else; the next one halts and resets. *)
Definition unwinds_without_driving (s s0 : State) : Prop :=
  (forall k : nat, Z.of_nat k <= top s ->
     let sk := Nat.iter k timer0_overflow s0 in
     mcu_reset sk = false /\ top sk = top s - Z.of_nat k /\ halted sk /\
     OCR2 sk = OCR2 s /\ ovfCounts sk = 0 /\ stack sk = stack s /\
     TCNT0 sk = (if Nat.eqb k 0 then 255 else 0)) /\
  (let sf := Nat.iter (S (Z.to_nat (top s))) timer0_overflow s0 in
   mcu_reset sf = true /\ halted sf).

(** Remote mode: the watchdog owns the overflow interrupt, and the replay
    engine has never run. *)
Definition remote (s : State) : Prop :=
  g_TIMER0_OVF_CallBack s = Some fn_Check_Connection /\
  br_counter s = 0 /\ mcu_reset s = false.

(** The two controller modes of one boot session. *)
Definition session (s : State) : Prop := remote s \/ replaying s.

(** The replay engine has just loaded overflow count [k] and preload [t]
    and waits for its next due step. *)
Definition replay_waiting (s : State) (k t : Z) : Prop :=
  mcu_reset s = false /\ timer0_clock s = true /\
  g_TIMER0_OVF_CallBack s = Some fn_Back_Reverse /\
  ovfCounts s = k /\ TCNT0 s = t /\ br_counter s = 0.

(** [s'] is [m] ticks into the wait that began at [s]. *)
Definition waiting_after (s s' : State) (k t m : Z) : Prop :=
  mcu_reset s' = false /\ timer0_clock s' = true /\
  g_TIMER0_OVF_CallBack s' = Some fn_Back_Reverse /\
  ovfCounts s' = k /\ TCNT0 s' = (t + m) mod 256 /\
  br_counter s' = (t + m) / 256 /\
  top s' = top s /\ stack s' = stack s /\ reversed_mode s' = reversed_mode s /\
  right_pins s' = right_pins s /\ left_pins s' = left_pins s /\
  OCR2 s' = OCR2 s.

(** ** The claims that fail, as the specification states them *)

(** C3 as stated: a due replay step on a non-empty stack always reapplies
    the popped record's gear and drives its stored mode. *)
Definition C3_claimed_step (s : State) : Prop :=
  ovfCounts s <= uint16 (br_counter s + 1) ->
  let s' := Back_Reverse s in
  let r := stack_at s (top s - 1) in
  (top s = 0 -> halted s' /\ mcu_reset s' = true) /\
  (top s <> 0 ->
     top s' = top s - 1 /\
     OCR2 s' = uint8 (51 * reverse.gear r) /\
     right_pins s'
       = right_pins (MOTOR_SET_Direction right_motor left_motor
                       (reverse.mode r) s) /\
     left_pins s'
       = left_pins (MOTOR_SET_Direction right_motor left_motor
                      (reverse.mode r) s)).

(** C4 as stated: at a window boundary with the link marked alive and a
    latest command that is STOP or not a motion, the flag is cleared. *)
Definition C4_claimed_boundary (s : State) : Prop :=
  ovfCounts s <= uint16 (cc_counter s + 1) ->
  car_connected s = true ->
  (command s = STOP \/ ~ motion_code (command s)) ->
  car_connected (Check_Connection s) = false.

(** C4 as stated, second half: silence lasting a full window hands the
    overflow interrupt to the replay engine ([n] ticks of silence). *)
Definition C4_claimed_liveness (s : State) (n : N) : Prop :=
  g_TIMER0_OVF_CallBack (idle n s) = Some fn_Back_Reverse.

(** C7 as stated: once the front sample recovers, the motors are again as
    they were immediately before the block. *)
Definition C7_claimed_resume (s : State) (low high back : Z) : Prop :=
  let s_blocked := step s (Sense low back) in
  let s_resumed := step s_blocked (Sense high back) in
  front_blocked s = false -> front_blocked s_blocked = true ->
  10 <= high ->
  right_pins s_resumed = right_pins s /\ left_pins s_resumed = left_pins s /\
  timer0_clock s_resumed = true /\ front_blocked s_resumed = false.

(** C8 as stated: an unrecognized byte changes neither the alive flag nor
    any other controller variable. *)
Definition C8_claimed_no_change (s : State) (b : Z) : Prop :=
  recognized b = false ->
  let s' := step s (Recv b) in
  car_connected s' = car_connected s /\ command s' = command s /\
  stack s' = stack s /\ top s' = top s /\ gear s' = gear s /\
  reversed_mode s' = reversed_mode s.

(** BACKWARD, a gear change and STOP leave two records; the gear is
    lowered again and the return is requested while stopped. *)
Definition stopped_with_history : State :=
  run [Recv BACKWARD; Recv GEARUP; Recv STOP; Recv GEARDOWN; Recv REVERSE]
    boot.

(** STOP, then silence up to one tick before the first window boundary. *)
Definition stop_then_silence : State :=
  idle (window_ticks - 1) (step boot (Recv STOP)).

(** FORWARD, then silence for exactly one window. *)
Definition forward_then_silence : State :=
  idle window_ticks (step boot (Recv FORWARD)).

(** STEER_LEFT, BACKWARD, return requested; 257 ticks later the replay
    engine has popped both records and is turning. *)
Definition turning_in_replay : State :=
  idle 257 (run [Recv STEER_LEFT; Recv BACKWARD; Recv REVERSE] boot).

(** Both directions blocked, both samples back at 50 cm. *)
Definition both_blocked_then_clear : State :=
  set_back_distance 50
    (set_front_distance 50
       (run [Recv FORWARD; Sense 5 50; Recv BACKWARD; Sense 5 5] boot)).

(** The state [__vector_13] hands to the command callback: [b] stored in
    [uart_rx_buffer[0]]. *)
Definition with_byte (b : Z) (s : State) : State :=
  set_uart_rx_buffer (<[0%nat := b]> (uart_rx_buffer s)) s.

(** ** Durations, invariants and the message protocol *)

(** Ticks for which the replay engine holds record [r]. *)
Definition record_ticks (r : reverse.t) : Z :=
  256 * Z.max (reverse.ovfs r) 1 - reverse.tcnt r.

(** Ticks needed to replay the [n] lowest records of [st]. *)
Fixpoint replay_ticks (st : list reverse.t) (n : nat) : Z :=
  match n with
  | O => 0
  | S n => record_ticks (default reverse.zero (st !! n)) + replay_ticks st n
  end.

(** Every record below [top] holds an overflow count and a counter value
    that fit their registers. *)
Definition records_in_range (s : State) : Prop :=
  forall i, 0 <= i < top s ->
    0 <= reverse.ovfs (stack_at s i) < 65536 /\
    0 <= reverse.tcnt (stack_at s i) < 256.

(** [s'] is [m] ticks after [s] in Remote mode with no window boundary
    in between. *)
Definition counting_after (s s' : State) (m : Z) : Prop :=
  mcu_reset s' = false /\ timer0_clock s' = true /\
  g_TIMER0_OVF_CallBack s' = Some fn_Check_Connection /\
  ovfCounts s' = ovfCounts s /\
  TCNT0 s' = (TCNT0 s + m) mod 256 /\
  g_TIMER0_Overflow s' = g_TIMER0_Overflow s + (TCNT0 s + m) / 256 /\
  cc_counter s' = cc_counter s + (TCNT0 s + m) / 256 /\
  top s' = top s /\ stack s' = stack s /\
  reversed_mode s' = reversed_mode s /\ gear s' = gear s.

(** A gear the dispatcher can select. *)
Definition gear_level (g : Z) : Prop := MIN_GEAR <= g <= MAX_GEAR.

(** A record whose members are values [Save_Move] can have read. *)
Definition well_formed_record (r : reverse.t) : Prop :=
  gear_level (reverse.gear r) /\
  0 <= reverse.ovfs r < 65536 /\ 0 <= reverse.tcnt r < 256.

(** The gear is one of the five levels, the PWM compare value is 51 times
    a gear level (51 times the current gear while the watchdog owns the
    overflow interrupt), and every record below [top] is well formed. *)
Definition Gears (s : State) : Prop :=
  gear_level (gear s) /\
  (g_TIMER0_OVF_CallBack s = Some fn_Check_Connection ->
   OCR2 s = 51 * gear s) /\
  (exists g, gear_level g /\ OCR2 s = 51 * g) /\
  forall i, 0 <= i < top s -> well_formed_record (stack_at s i).

(** Neither H-bridge has both of its inputs high. *)
Definition bridge_safe (s : State) : Prop :=
  right_pins s <> (HIGH, HIGH) /\ left_pins s <> (HIGH, HIGH).

(** The receiver delivers single bytes to the dispatcher or collects an
    LCD message of up to 34 bytes, always into the 34 cells of
    [uart_rx_buffer]. *)
Definition rx_mode (s : State) : Prop :=
  length (uart_rx_buffer s) = 34%nat /\
  ((g_UART_RXCallBack s = Some fn_UART_Get_Cmd /\
    g_UART_RX_ArraySize s = 1) \/
   (g_UART_RXCallBack s = Some fn_UART_Get_LCD_msg /\
    g_UART_RX_ArraySize s = 34)).

(** The receive index stays inside the announced array size. *)
Definition Framing (s : State) : Prop :=
  rx_mode s /\ 0 <= g_UART_RX_Index s < g_UART_RX_ArraySize s.

(** What the motors, the move stack, the buzzer and Timer0 see. *)
Definition drive_view (s : State) :=
  (right_pins s, left_pins s, OCR2 s, gear s,
   (top s, stack s, reversed_mode s),
   (buzzer s, TCNT0 s, g_TIMER0_Overflow s, g_TIMER0_OVF_CallBack s)).

(** After SEND_LCD arrived in state [s0], the bytes [pre] of the message
    have been collected and nothing else has changed. *)
Definition collecting (s0 s : State) (pre : list Z) : Prop :=
  mcu_reset s = false /\ uart_rx_int s = true /\
  g_UART_RXCallBack s = Some fn_UART_Get_LCD_msg /\
  g_UART_RX_ArraySize s = 34 /\
  g_UART_RX_Index s = Z.of_nat (length pre) /\
  uart_rx_buffer s
  = pre ++ drop (length pre) (<[0%nat := SEND_LCD]> (uart_rx_buffer s0)) /\
  drive_view s = drive_view s0 /\ lcd s = lcd s0 /\
  command s = SEND_LCD /\ car_connected s = true.

(** FORWARD, three ticks, BACKWARD, return requested: two records. *)
Definition two_records_then_reverse : State :=
  run [Recv FORWARD; Tick; Tick; Tick; Recv BACKWARD; Recv REVERSE] boot.

(** * Properties *)

(** ** Arithmetic and proof automation *)

Arguments uint8 : simpl never.
Arguments uint16 : simpl never.
Arguments bits3 : simpl never.

Lemma uint8_small z : 0 <= z < 256 -> uint8 z = z.
Proof. intros H. unfold uint8. now apply Z.mod_small. Qed.

Lemma uint16_small z : 0 <= z < 65536 -> uint16 z = z.
Proof. intros H. unfold uint16. now apply Z.mod_small. Qed.

Lemma uint8_range z : 0 <= uint8 z < 256.
Proof. unfold uint8. apply Z.mod_pos_bound. lia. Qed.

Lemma uint16_range z : 0 <= uint16 z < 65536.
Proof. unfold uint16. apply Z.mod_pos_bound. lia. Qed.

Ltac unfold_drivers :=
  unfold MOTOR_SET_Direction, MOTOR_TurnLeft, MOTOR_TurnRight,
    MOTOR_BothStop, MOTOR_BothBackward, MOTOR_BothForward,
    MOTOR_Stop, MOTOR_Backward, MOTOR_Forward, set_pins,
    TIMER0_Disable, TIMER0_Enable, TIMER0_SetTimerValue,
    TIMER0_GetTimerValue, TIMER0_RESET, TIMER0_SetCallback,
    TIMER2_SetCompareValue, UART_InterruptDisable_RX, UART_Set_RX_Callback,
    WDT_RESET_MCU, LCD_ClearScreen, LCD_PrintString, DIO_SetPinValue_BUZZER
    in *.

Ltac reduce_state :=
  cbn -[Z.eqb Z.ltb Z.leb Z.add Z.sub Z.mul Z.to_nat Z.of_nat replicate
        Save_Move Back_Reverse Check_Connection UART_Get_Cmd
        UART_Get_LCD_msg Obstacle_Detection] in *.

Ltac reduce_goal :=
  cbn -[Z.eqb Z.ltb Z.leb Z.add Z.sub Z.mul Z.to_nat Z.of_nat replicate
        Save_Move Back_Reverse Check_Connection UART_Get_Cmd
        UART_Get_LCD_msg Obstacle_Detection].

Ltac split_ifs :=
  repeat (reduce_state;
          match goal with
          | |- context [if ?c then _ else _] => destruct c eqn:?
          end);
  reduce_state.

Ltac case_ifs :=
  cbv zeta;
  repeat match goal with
         | |- context [if ?c then _ else _] => destruct c
         end.

Ltac by_eval := vm_compute; first [reflexivity | discriminate | congruence].

(** Refute [H : a = b] by evaluating both sides to distinct values. *)
Ltac refute_eq H va vb :=
  match type of H with
  | ?a = ?b =>
      let Ha := fresh "Ha" in
      let Hb := fresh "Hb" in
      let Hx := fresh "Hx" in
      assert (Ha : a = va) by by_eval;
      assert (Hb : b = vb) by by_eval;
      pose proof (eq_trans (eq_sym Ha) (eq_trans H Hb)) as Hx;
      discriminate Hx
  end.

Lemma idle_run (n : nat) (s : State) :
  idle (N.of_nat n) s = run (replicate n Tick) s.
Proof.
  unfold idle, run. rewrite <- Nnat.Nat2N.inj_iter. revert s.
  induction n as [|n IH]; intros s; [reflexivity|].
  rewrite Nat.iter_succ_r. cbn [replicate fold_left]. apply IH.
Qed.

(** ** The command dispatcher on an unrecognized byte *)

Lemma recognized_false b :
  recognized b = false ->
  (b =? FORWARD) = false /\ (b =? BACKWARD) = false /\ (b =? STOP) = false /\
  (b =? STEER_RIGHT) = false /\ (b =? STEER_LEFT) = false /\
  (b =? GEARUP) = false /\ (b =? GEARDOWN) = false /\
  (b =? CLR_SCREEN) = false /\ (b =? SEND_LCD) = false /\
  (b =? REVERSE) = false /\ (b =? BUZZER_ON) = false /\
  (b =? BUZZER_OFF) = false.
Proof.
  unfold recognized. cbn [existsb]. intros H.
  repeat (apply orb_false_elim in H; destruct H as [? H]).
  repeat split; assumption.
Qed.

(** C8 (amended): on a byte that has no case in the switch the dispatcher
    still records the byte in [command] and marks the link alive; every
    other variable, register and the move stack are left as they were. *)
Theorem C8_unrecognized_byte (s : State) (b : Z) :
  0 <= b < 256 ->
  recognized b = false ->
  uart_rx_buffer s !! 0%nat = Some b ->
  UART_Get_Cmd s = set_car_connected true (set_command b s).
Proof.
  intros Hb Hrec Hbuf.
  apply recognized_false in Hrec.
  destruct Hrec as (H1 & H2 & H3 & H4 & H5 & H6 & H7 & H8 & H9 & H10 & H11 & H12).
  unfold UART_Get_Cmd. rewrite Hbuf. cbn [default from_option id].
  rewrite (uint8_small b Hb). cbn [command set_command set_car_connected].
  now rewrite H1, H2, H3, H4, H5, H6, H7, H8, H9, H10, H11, H12.
Qed.

(** C8 for the byte 'x' (120) received right after boot. *)
Lemma C8_unrecognized_byte_witness :
  let s := with_byte 120 boot in
  0 <= 120 < 256 /\ recognized 120 = false /\
  uart_rx_buffer s !! 0%nat = Some 120 /\
  UART_Get_Cmd s = set_car_connected true (set_command 120 s).
Proof.
  cbv zeta.
  assert (H1 : 0 <= 120 < 256) by lia.
  assert (H2 : recognized 120 = false) by reflexivity.
  assert (H3 : uart_rx_buffer (with_byte 120 boot) !! 0%nat = Some 120)
    by reflexivity.
  split; [exact H1|]. split; [exact H2|]. split; [exact H3|].
  exact (C8_unrecognized_byte (with_byte 120 boot) 120 H1 H2 H3).
Defined.

(** C8 as stated fails: the byte 'x' arrives after the watchdog has
    cleared the alive flag; the flag is raised again and [command]
    becomes 'x'. *)
Lemma C8_counterexample : ~ C8_claimed_no_change forward_then_silence 120.
Proof.
  unfold C8_claimed_no_change. cbv zeta. intros H.
  destruct (H eq_refl) as (Hc & _).
  refute_eq Hc true false.
Qed.

(** ** Once replaying, always replaying *)

Lemma Back_Reverse_replaying s : replaying s -> replaying (Back_Reverse s).
Proof.
  unfold replaying, Back_Reverse. unfold_drivers.
  intros [Hcb Hrx]. split_ifs; auto.
Qed.

Lemma Obstacle_Detection_replaying f b s :
  replaying s -> replaying (Obstacle_Detection f b s).
Proof.
  unfold replaying, Obstacle_Detection, Obstacle_Detection_back,
    Obstacle_Detection_front.
  unfold_drivers. intros [Hcb Hrx]. split_ifs; auto.
Qed.

Lemma timer0_overflow_replaying s :
  replaying s -> replaying (timer0_overflow s).
Proof.
  intros H. unfold timer0_overflow, vector_11.
  assert (H0 : replaying (set_TCNT0 0 s)) by exact H.
  destruct H0 as [Hcb Hrx]. rewrite Hcb.
  pose proof (Back_Reverse_replaying (set_TCNT0 0 s) (conj Hcb Hrx)) as HB.
  destruct (mcu_reset (Back_Reverse (set_TCNT0 0 s))); exact HB.
Qed.

Lemma step_replaying s e : replaying s -> replaying (step s e).
Proof.
  intros H. unfold step. destruct (mcu_reset s); [exact H|].
  destruct e as [|byte|f b].
  - unfold timer0_tick. destruct (timer0_clock s); [|exact H].
    destruct (TCNT0 s =? 255); [now apply timer0_overflow_replaying|exact H].
  - destruct H as [Hcb Hrx]. rewrite Hrx. now split.
  - now apply Obstacle_Detection_replaying.
Qed.

Lemma run_replaying es : forall s, replaying s -> replaying (run es s).
Proof.
  induction es as [|e es IH]; intros s H; [exact H|].
  cbn [run fold_left]. apply IH. now apply step_replaying.
Qed.

(** ** The connection watchdog at a heartbeat-window boundary *)




(** ** One step of the replay engine *)

(** C3 (amended): on a replay step whose overflow count is reached, an
    empty stack stops both motors and forces the reset; otherwise the top
    record is popped and, provided the remembered inverse motion
    [reversed_mode] is not STOP, the record's overflow count and preload
    are loaded, 51 * gear is written to the Timer2 compare register and
    [MOTOR_SET_Direction] is called with the record's stored mode field;
    when [reversed_mode] is STOP the record is popped and nothing else
    changes. *)
Theorem C3_replay_step (s : State) :
  ovfCounts s <= uint16 (br_counter s + 1) ->
  0 <= top s < 256 ->
  replay_step_contract s.
Proof.
  intros Hwin Htop. unfold replay_step_contract. cbn zeta.
  assert (Hlt : (uint16 (br_counter s + 1) <? ovfCounts s) = false)
    by (apply Z.ltb_ge; exact Hwin).
  split; intros H0.
  - unfold Back_Reverse, halted. unfold_drivers. reduce_state.
    rewrite Hlt, H0. reduce_state. auto.
  - assert (Hz : (top s =? 0) = false) by (apply Z.eqb_neq; exact H0).
    assert (Hp : uint8 (top s - 1) = top s - 1) by (apply uint8_small; lia).
    unfold Back_Reverse, stack_at. unfold_drivers. reduce_state.
    rewrite Hlt. reduce_state. rewrite Hz. reduce_state. rewrite Hp.
    destruct (reversed_mode s =? STOP) eqn:Hrm; reduce_state.
    + apply Z.eqb_eq in Hrm. repeat split; auto; intros; congruence.
    + apply Z.eqb_neq in Hrm. repeat split; auto; try (intros; congruence).
      all: split_ifs; reflexivity.
Qed.

(** C3 at the state where FORWARD was held 300 ticks and the return has
    just been requested. *)
Lemma C3_replay_step_witness :
  let s := forward_300_then_reverse in
  ovfCounts s <= uint16 (br_counter s + 1) /\ 0 <= top s < 256 /\
  replay_step_contract s.
Proof.
  cbv zeta.
  assert (H1 : ovfCounts forward_300_then_reverse
               <= uint16 (br_counter forward_300_then_reverse + 1))
    by by_eval.
  assert (H2 : 0 <= top forward_300_then_reverse < 256)
    by (split; by_eval).
  split; [exact H1|]. split; [exact H2|].
  exact (C3_replay_step forward_300_then_reverse H1 H2).
Defined.

(** C3 as stated fails: with two records on the stack and [reversed_mode]
    = STOP the due step pops a record of gear 2 and mode 1 but leaves the
    compare register at 51 and the motors halted. *)
Lemma C3_counterexample : ~ C3_claimed_step stopped_with_history.
Proof.
  unfold C3_claimed_step. intros H.
  assert (Hw : ovfCounts stopped_with_history
               <= uint16 (br_counter stopped_with_history + 1)) by by_eval.
  destruct (H Hw) as [_ H2].
  assert (Ht : top stopped_with_history <> 0) by by_eval.
  destruct (H2 Ht) as (_ & Hocr & _).
  refute_eq Hocr 51 102.
Qed.

(** ** The obstacle guard *)

(** C7 (amended): whenever a blocked direction's sample is at least 10 cm
    the guard drives both motors forward (front sensor) or backward (back
    sensor), whatever motion was active before the block, re-enables
    Timebase counting and clears that direction's blocked flag; nothing
    else changes in that half of the poll. *)
Theorem C7_obstacle_resume (s : State) :
  (front_blocked s = true -> 10 <= front_distance s -> front_resumed s) /\
  (back_blocked s = true -> 10 <= back_distance s -> back_resumed s).
Proof.
  unfold front_resumed, back_resumed. split; intros Hb Hd.
  - unfold Obstacle_Detection_front.
    assert (Hl : (front_distance s <? 10) = false) by (apply Z.ltb_ge; lia).
    assert (Hg : (10 <=? front_distance s) = true) by (apply Z.leb_le; lia).
    rewrite Hl, Hg, Hb, andb_false_r. reflexivity.
  - unfold Obstacle_Detection_back.
    assert (Hl : (back_distance s <? 10) = false) by (apply Z.ltb_ge; lia).
    assert (Hg : (10 <=? back_distance s) = true) by (apply Z.leb_le; lia).
    rewrite Hl, Hg, Hb, andb_false_r. reflexivity.
Qed.

(** C7 with both directions blocked and both samples back at 50 cm. *)
Lemma C7_obstacle_resume_witness :
  let s := both_blocked_then_clear in
  (front_blocked s = true /\ 10 <= front_distance s /\ front_resumed s) /\
  (back_blocked s = true /\ 10 <= back_distance s /\ back_resumed s).
Proof.
  cbv zeta.
  assert (F1 : front_blocked both_blocked_then_clear = true) by by_eval.
  assert (F2 : 10 <= front_distance both_blocked_then_clear) by by_eval.
  assert (B1 : back_blocked both_blocked_then_clear = true) by by_eval.
  assert (B2 : 10 <= back_distance both_blocked_then_clear) by by_eval.
  split.
  - split; [exact F1|]. split; [exact F2|].
    exact (proj1 (C7_obstacle_resume both_blocked_then_clear) F1 F2).
  - split; [exact B1|]. split; [exact B2|].
    exact (proj2 (C7_obstacle_resume both_blocked_then_clear) B1 B2).
Defined.

(** C7 as stated fails: in replay the engine is turning; the front sensor
    blocks and clears; the guard then drives both motors forward instead
    of resuming the turn. *)
Lemma C7_counterexample : ~ C7_claimed_resume turning_in_replay 5 50 100.
Proof.
  unfold C7_claimed_resume. cbv zeta. intros H.
  assert (H1 : front_blocked turning_in_replay = false) by by_eval.
  assert (H2 : front_blocked (step turning_in_replay (Sense 5 100)) = true)
    by by_eval.
  assert (H3 : 10 <= 50) by lia.
  destruct (H H1 H2 H3) as (_ & Hl & _).
  refute_eq Hl (HIGH, LOW) (LOW, HIGH).
Qed.

(** While no clock source is selected a tick changes nothing. *)
Lemma tick_frozen s : timer0_clock s = false -> step s Tick = s.
Proof.
  intros H. unfold step, timer0_tick. rewrite H. now destruct (mcu_reset s).
Qed.

(** C6 (the code departs from the claim): the front sensor blocks a
    forward move, the operator backs up, the back sensor blocks too, then
    the front clears.  The back direction is still blocked, yet Timebase
    counting is enabled again and both motors run forward; ten ticks that
    elapse in this blocked interval end up in the next record's duration. *)
Theorem C6_blocked_interval_is_counted :
  let s := run [Recv FORWARD; Sense 5 50; Recv BACKWARD;
                Sense 5 5; Sense 50 5] boot in
  let s' := step (idle 10 s) (Recv STOP) in
  back_blocked s = true /\ timer0_clock s = true /\
  back_blocked (idle 10 s) = true /\
  top s' = top s + 1 /\
  reverse.tcnt (stack_at s' (top s)) = 10.
Proof.
  cbv zeta. repeat split; by_eval.
Qed.

(** ** What the move stack can hold *)

Lemma stored_motion_of_code c :
  motion_code c -> c <> STOP -> stored_motion (bits3 c).
Proof.
  unfold motion_code, stored_motion.
  intros [->|[->|[->|[->| ->]]]] H; auto; congruence.
Qed.

Lemma stack_inv_push rm tp st g o t :
  length st = 300%nat -> rm <> STOP -> stack_inv rm tp st ->
  stack_inv rm (uint8 (tp + 1))
    (<[Z.to_nat tp := reverse.mk (bits3 rm) g o t]> st).
Proof.
  intros Hlen Hrm (Hc & Htp & Hcells).
  split; [exact Hc|]. split; [apply uint8_range|].
  intros i Hi.
  assert (Hle : uint8 (tp + 1) <= tp + 1).
  { unfold uint8. apply Z.mod_le; lia. }
  destruct (Z.eq_dec i tp) as [->|Hne].
  - rewrite list_lookup_insert_eq by lia. cbn.
    now apply stored_motion_of_code.
  - rewrite list_lookup_insert_ne by lia. apply Hcells. lia.
Qed.

Lemma stack_inv_pop rm tp st :
  tp <> 0 -> stack_inv rm tp st -> stack_inv rm (uint8 (tp - 1)) st.
Proof.
  intros Hne (Hc & Htp & Hcells).
  rewrite uint8_small by lia.
  split; [exact Hc|]. split; [lia|].
  intros i Hi. apply Hcells. lia.
Qed.

Lemma stack_inv_mode rm rm' tp st :
  motion_code rm' -> stack_inv rm tp st -> stack_inv rm' tp st.
Proof. intros Hc (_ & H). now split. Qed.

Lemma Inv_Save_Move s : Inv s -> Inv (Save_Move s).
Proof.
  unfold Inv, Save_Move. unfold_drivers. intros [H Hlen].
  destruct (negb (reversed_mode s =? STOP) && (top s <? MAX_MOVES))%bool
    eqn:Hpush; reduce_state; [|now split].
  apply andb_prop in Hpush. destruct Hpush as [Hrm _].
  apply negb_true_iff, Z.eqb_neq in Hrm.
  split; [now apply stack_inv_push|]. now rewrite length_insert.
Qed.

Lemma Inv_Back_Reverse s : Inv s -> Inv (Back_Reverse s).
Proof.
  unfold Inv, Back_Reverse. unfold_drivers. intros [H Hlen]. reduce_state.
  destruct (uint16 (br_counter s + 1) <? ovfCounts s); reduce_state;
    [now split|].
  destruct (top s =? 0) eqn:Hz; reduce_state; [now split|].
  apply Z.eqb_neq in Hz.
  assert (Hp : stack_inv (reversed_mode s) (uint8 (top s - 1)) (stack s))
    by now apply stack_inv_pop.
  split_ifs; now split.
Qed.

Lemma Inv_frame s s' :
  reversed_mode s' = reversed_mode s -> top s' = top s ->
  stack s' = stack s -> Inv s -> Inv s'.
Proof. unfold Inv. intros -> -> ->. auto. Qed.

Lemma Inv_set_reversed_mode c s :
  motion_code c -> Inv s -> Inv (set_reversed_mode c s).
Proof.
  unfold Inv. intros Hc [H Hlen]. reduce_state.
  split; [|exact Hlen]. now apply stack_inv_mode with (reversed_mode s).
Qed.

(** Peel one frame-preserving call off the state under [Inv].  The inner
    state is abstracted first, so that the three projection equalities are
    checked on a variable. *)
Ltac inv_peel :=
  match goal with
  | |- Inv (?f ?x) =>
      let y := fresh "y" in
      let Hy := fresh "Hy" in
      cut (Inv x);
      [ generalize x; intros y Hy; apply (Inv_frame y);
        [reflexivity | reflexivity | reflexivity | exact Hy]
      | ]
  end.

Ltac inv_solve :=
  repeat match goal with
  | |- Inv ?x => is_var x; assumption
  | |- Inv (set_reversed_mode _ _) =>
      apply Inv_set_reversed_mode; [unfold motion_code; auto 6|]
  | |- Inv (Save_Move _) => apply Inv_Save_Move
  | |- Inv _ => inv_peel
  end.

Lemma Inv_UART_Get_Cmd s : Inv s -> Inv (UART_Get_Cmd s).
Proof.
  intros H. unfold UART_Get_Cmd. case_ifs; inv_solve.
Qed.

Lemma Inv_UART_Get_LCD_msg s : Inv s -> Inv (UART_Get_LCD_msg s).
Proof. intros H. unfold UART_Get_LCD_msg. inv_solve. Qed.

Lemma Inv_Check_Connection s : Inv s -> Inv (Check_Connection s).
Proof.
  intros H. unfold Check_Connection. case_ifs; inv_solve.
Qed.

Lemma Inv_Obstacle_Detection f b s : Inv s -> Inv (Obstacle_Detection f b s).
Proof.
  intros H.
  assert (Hf : forall x, Inv x -> Inv (Obstacle_Detection_front x)).
  { intros x Hx. unfold Obstacle_Detection_front. case_ifs; inv_solve. }
  assert (Hb : forall x, Inv x -> Inv (Obstacle_Detection_back x)).
  { intros x Hx. unfold Obstacle_Detection_back. case_ifs; inv_solve. }
  unfold Obstacle_Detection. cbv zeta. apply Hb, Hf. inv_solve.
Qed.

Lemma Inv_vector_11 s : Inv s -> Inv (vector_11 s).
Proof.
  intros H. unfold vector_11.
  set (x := match g_TIMER0_OVF_CallBack s with
            | Some fn_Check_Connection => Check_Connection s
            | Some fn_Back_Reverse => Back_Reverse s
            | None => s
            end).
  assert (Hx : Inv x).
  { subst x. destruct (g_TIMER0_OVF_CallBack s) as [[|]|];
      auto using Inv_Check_Connection, Inv_Back_Reverse. }
  clearbody x. cbv zeta. destruct (mcu_reset x); inv_solve.
Qed.

Lemma Inv_rx_dispatch a :
  Inv a ->
  Inv match g_UART_RXCallBack a with
      | Some fn_UART_Get_Cmd => UART_Get_Cmd a
      | Some fn_UART_Get_LCD_msg => UART_Get_LCD_msg a
      | None => a
      end.
Proof.
  intros Ha. destruct (g_UART_RXCallBack a) as [[|]|];
    auto using Inv_UART_Get_Cmd, Inv_UART_Get_LCD_msg.
Qed.

Lemma Inv_vector_13 byte s : Inv s -> Inv (vector_13 byte s).
Proof.
  intros H. unfold vector_13. cbv zeta.
  destruct (_ || _)%bool; [|inv_solve].
  apply Inv_rx_dispatch. case_ifs; inv_solve.
Qed.

Lemma Inv_step s e : Inv s -> Inv (step s e).
Proof.
  intros H. unfold step. destruct (mcu_reset s); [exact H|].
  destruct e as [|byte|f b].
  - unfold timer0_tick, timer0_overflow.
    destruct (timer0_clock s); [|exact H].
    destruct (TCNT0 s =? 255); [apply Inv_vector_11|]; inv_solve.
  - destruct (uart_rx_int s); [now apply Inv_vector_13|exact H].
  - now apply Inv_Obstacle_Detection.
Qed.

Lemma Inv_run es : forall s, Inv s -> Inv (run es s).
Proof.
  induction es as [|e es IH]; intros s H; [exact H|].
  cbn [run fold_left]. apply IH. now apply Inv_step.
Qed.

Lemma Inv_APP_Init w_ovfs w_tcnt : Inv (APP_Init w_ovfs w_tcnt).
Proof.
  unfold Inv, stack_inv, motion_code. cbn [APP_Init reversed_mode top stack].
  repeat split; auto; lia.
Qed.

(** C9: [Save_Move] stores nothing while the remembered inverse motion is
    STOP; this is the case at boot, so the first motion command pushes
    nothing; and in every state the firmware can reach each record below
    [top] carries the three low bits of FORWARD, BACKWARD, STEER_RIGHT or
    STEER_LEFT, never those of STOP: stopped intervals are not recorded,
    hence never replayed. *)
Theorem C9_no_stop_record :
  (forall s, reversed_mode s = STOP ->
     stack (Save_Move s) = stack s /\ top (Save_Move s) = top s) /\
  (forall c, motion_code c ->
     stack (step boot (Recv c)) = stack boot /\
     top (step boot (Recv c)) = 0) /\
  (forall w_ovfs w_tcnt es i,
     let s := run es (APP_Init w_ovfs w_tcnt) in
     0 <= i < top s ->
     stored_motion (reverse.mode (stack_at s i)) /\
     reverse.mode (stack_at s i) <> bits3 STOP).
Proof.
  split; [|split].
  - intros s Hs. unfold Save_Move. unfold_drivers. reduce_goal.
    rewrite Hs. cbn. auto.
  - intros c [->|[->|[->|[->| ->]]]]; split; vm_compute; reflexivity.
  - intros w_ovfs w_tcnt es i s Hi.
    destruct (Inv_run es _ (Inv_APP_Init w_ovfs w_tcnt)) as [(_ & _ & Hc) _].
    fold s in Hc. specialize (Hc i Hi). unfold stack_at.
    split; [exact Hc|].
    destruct Hc as [->|[->|[->| ->]]]; vm_compute; discriminate.
Qed.

(** C9 at boot and after FORWARD, STOP (one record on the stack). *)
Lemma C9_no_stop_record_witness :
  let s := run [Recv FORWARD; Recv STOP] (APP_Init 611 166) in
  reversed_mode boot = STOP /\ motion_code FORWARD /\ 0 <= 0 < top s /\
  (stack (Save_Move boot) = stack boot /\ top (Save_Move boot) = top boot) /\
  (stack (step boot (Recv FORWARD)) = stack boot /\
   top (step boot (Recv FORWARD)) = 0) /\
  (stored_motion (reverse.mode (stack_at s 0)) /\
   reverse.mode (stack_at s 0) <> bits3 STOP).
Proof.
  cbv zeta.
  assert (H1 : reversed_mode boot = STOP) by reflexivity.
  assert (H2 : 0 <= 0 < top (run [Recv FORWARD; Recv STOP]
                               (APP_Init 611 166)))
    by (split; by_eval).
  assert (H3 : motion_code FORWARD) by (left; reflexivity).
  split; [exact H1|]. split; [exact H3|]. split; [exact H2|].
  split; [|split].
  - exact (proj1 C9_no_stop_record boot H1).
  - exact (proj1 (proj2 C9_no_stop_record) FORWARD H3).
  - exact (proj2 (proj2 C9_no_stop_record) 611 166
             [Recv FORWARD; Recv STOP] 0 H2).
Defined.

(** [top] never leaves the range of its 8-bit type. *)
Lemma reachable_top_bound w_ovfs w_tcnt es :
  0 <= top (run es (APP_Init w_ovfs w_tcnt)) < 256.
Proof.
  destruct (Inv_run es _ (Inv_APP_Init w_ovfs w_tcnt)) as [(_ & Ht & _) _].
  exact Ht.
Qed.

(** C5 (the code departs from the claim): [top] is an 8-bit counter, so it
    wraps to 0 on the 256th push and is 44, not 300, after 300 pushes; the
    301st push is not discarded: it makes [top] 45 and overwrites the
    record stored at index 44 by the 45th push. *)
Theorem C5_stack_bound_wraps :
  let s256 := run (Recv FORWARD :: back_and_forth 128) boot in
  let s300 := run (Recv FORWARD :: back_and_forth 150) boot in
  let s301 := run [Tick; Recv BACKWARD] s300 in
  top s256 = 0 /\ top s300 = 44 /\ top s301 = 45 /\
  stack_at s300 44 = reverse.mk 2 1 0 0 /\
  stack_at s301 44 = reverse.mk 2 1 0 1.
Proof.
  cbv zeta. repeat split; by_eval.
Qed.

(** ** What a push stores and how replay reads it back *)

(** A push writes the three low bits of [reversed_mode], not the command
    byte, into the mode member. *)
Lemma Save_Move_pushes s :
  reversed_mode s <> STOP -> 0 <= top s < 256 ->
  (Z.to_nat (top s) < length (stack s))%nat ->
  top (Save_Move s) = uint8 (top s + 1) /\
  stack_at (Save_Move s) (top s)
  = reverse.mk (bits3 (reversed_mode s)) (bits3 (gear s))
      (uint16 (g_TIMER0_Overflow s)) (uint8 (TCNT0 s)).
Proof.
  intros Hrm Htop Hlen.
  assert (H1 : (reversed_mode s =? STOP) = false) by now apply Z.eqb_neq.
  assert (H2 : (top s <? MAX_MOVES) = true)
    by (apply Z.ltb_lt; unfold MAX_MOVES; lia).
  unfold Save_Move, stack_at. unfold_drivers. reduce_goal.
  rewrite H1, H2. reduce_goal.
  split; [reflexivity|]. now rewrite list_lookup_insert_eq.
Qed.

(** The four values a stored mode can take, read with the MOTOR_def.h
    direction codes: stored FORWARD (1) is MOTOR_BACKWARD, stored
    STEER_RIGHT (4) is MOTOR_TURN_LEFT, stored BACKWARD (2) and stored
    STEER_LEFT (5) fall into the final else and stop the motors. *)
Lemma stored_mode_drives (r l : Motor) (s : State) :
  MOTOR_SET_Direction r l (bits3 FORWARD) s = MOTOR_BothBackward r l s /\
  MOTOR_SET_Direction r l (bits3 BACKWARD) s = MOTOR_BothStop r l s /\
  MOTOR_SET_Direction r l (bits3 STEER_RIGHT) s = MOTOR_TurnLeft r l s /\
  MOTOR_SET_Direction r l (bits3 STEER_LEFT) s = MOTOR_BothStop r l s.
Proof. repeat split. Qed.

(** C2 (the code departs from the claim): after FORWARD then STOP the one
    record pushed for the superseded FORWARD does not hold BACKWARD (the
    byte '2', 50) but its three low bits, 2, because the mode member is a
    3-bit field; [MOTOR_SET_Direction] reads 2 as MOTOR_STOP. *)
Theorem C2_stored_mode_is_truncated :
  let s := run [Recv FORWARD; Recv STOP] boot in
  top s = 1 /\
  reverse.mode (stack_at s 0) = 2 /\
  reverse.mode (stack_at s 0) <> BACKWARD /\
  halted (MOTOR_SET_Direction right_motor left_motor
            (reverse.mode (stack_at s 0)) s).
Proof.
  cbv zeta. unfold halted. repeat split; by_eval.
Qed.

(** ** Unwinding while the remembered inverse motion is STOP *)

Lemma Back_Reverse_unwinding_pop s :
  unwinding_stopped s -> top s <> 0 ->
  let s' := Back_Reverse s in
  unwinding_stopped s' /\ top s' = top s - 1 /\ TCNT0 s' = TCNT0 s /\
  OCR2 s' = OCR2 s /\ stack s' = stack s.
Proof.
  intros (Hr & Hcb & Hovf & Hbr & Hrm & Htop & Hh1 & Hh2) Hne. cbv zeta.
  assert (Hz : (top s =? 0) = false) by now apply Z.eqb_neq.
  unfold unwinding_stopped, halted, Back_Reverse. unfold_drivers.
  reduce_goal. rewrite Hbr, Hovf.
  change (uint16 (0 + 1) <? 0) with false. reduce_goal.
  rewrite Hz. reduce_goal. rewrite Hrm, Z.eqb_refl. reduce_goal.
  rewrite uint8_small by lia.
  repeat split; auto; lia.
Qed.

Lemma Back_Reverse_unwinding_finish s :
  unwinding_stopped s -> top s = 0 ->
  let s' := Back_Reverse s in
  mcu_reset s' = true /\ halted s'.
Proof.
  intros (Hr & Hcb & Hovf & Hbr & Hrm & Htop & Hh) Hz. cbv zeta.
  unfold halted, Back_Reverse. unfold_drivers.
  reduce_goal. rewrite Hbr, Hovf.
  change (uint16 (0 + 1) <? 0) with false. reduce_goal.
  rewrite Hz. reduce_goal. auto.
Qed.

Lemma timer0_overflow_replay s :
  g_TIMER0_OVF_CallBack s = Some fn_Back_Reverse ->
  timer0_overflow s
  = let x := Back_Reverse (set_TCNT0 0 s) in
    if mcu_reset x then x
    else set_g_TIMER0_Overflow (uint16 (g_TIMER0_Overflow x + 1)) x.
Proof.
  intros Hcb. unfold timer0_overflow, vector_11.
  cbn [g_TIMER0_OVF_CallBack set_TCNT0]. now rewrite Hcb.
Qed.

Lemma unwinding_stopped_set_TCNT0 v s :
  unwinding_stopped s -> unwinding_stopped (set_TCNT0 v s).
Proof. exact (fun H => H). Qed.

Lemma overflow_unwinding_pop s :
  unwinding_stopped s -> top s <> 0 ->
  let s' := timer0_overflow s in
  unwinding_stopped s' /\ top s' = top s - 1 /\ TCNT0 s' = 0 /\
  OCR2 s' = OCR2 s /\ stack s' = stack s.
Proof.
  intros Hs Hne. cbv zeta.
  rewrite timer0_overflow_replay by apply Hs.
  pose proof (Back_Reverse_unwinding_pop (set_TCNT0 0 s)
                (unwinding_stopped_set_TCNT0 0 s Hs) Hne) as HB.
  cbv zeta in HB. revert HB.
  change (top (set_TCNT0 0 s)) with (top s).
  change (TCNT0 (set_TCNT0 0 s)) with 0.
  change (OCR2 (set_TCNT0 0 s)) with (OCR2 s).
  change (stack (set_TCNT0 0 s)) with (stack s).
  generalize (Back_Reverse (set_TCNT0 0 s)). intros x (Hu & Ht & Hc & Ho & Hst).
  cbv zeta. destruct Hu as (Hr & Hu). rewrite Hr.
  split; [|auto]. split; [exact Hr|exact Hu].
Qed.

Lemma overflow_unwinding_finish s :
  unwinding_stopped s -> top s = 0 ->
  let s' := timer0_overflow s in
  mcu_reset s' = true /\ halted s'.
Proof.
  intros Hs Hz. cbv zeta.
  rewrite timer0_overflow_replay by apply Hs.
  pose proof (Back_Reverse_unwinding_finish (set_TCNT0 0 s)
                (unwinding_stopped_set_TCNT0 0 s Hs) Hz) as HB.
  cbv zeta in HB. revert HB.
  generalize (Back_Reverse (set_TCNT0 0 s)). intros x (Hr & Hh).
  cbv zeta. rewrite Hr. now split.
Qed.

Lemma unwinding_stopped_iter s :
  unwinding_stopped s ->
  forall k : nat, Z.of_nat k <= top s ->
  let sk := Nat.iter k timer0_overflow s in
  unwinding_stopped sk /\ top sk = top s - Z.of_nat k /\
  OCR2 sk = OCR2 s /\ stack sk = stack s /\ (k <> 0%nat -> TCNT0 sk = 0).
Proof.
  intros Hs k. induction k as [|k IH]; intros Hk; cbv zeta.
  - change (Nat.iter 0 timer0_overflow s) with s. rewrite Z.sub_0_r.
    split; [exact Hs|]. repeat split; auto. congruence.
  - rewrite Nat2Z.inj_succ in *. rewrite Nat.iter_succ.
    destruct IH as (Hu & Ht & Ho & Hst & _); [lia|]. cbv zeta in *.
    destruct (overflow_unwinding_pop _ Hu) as (Hu' & Ht' & Hc' & Ho' & Hs');
      [lia|]. cbv zeta in *.
    split; [exact Hu'|]. split; [rewrite Ht', Ht; lia|]. split; [congruence|].
    split; [congruence|]. intros _. exact Hc'.
Qed.

Lemma UART_Get_Cmd_REVERSE s :
  uart_rx_buffer s !! 0%nat = Some REVERSE ->
  UART_Get_Cmd s
  = start_replay (set_car_connected true (set_command REVERSE s)).
Proof.
  intros Hbuf. unfold UART_Get_Cmd. rewrite Hbuf.
  cbn [default from_option id]. change (uint8 REVERSE) with REVERSE.
  cbn [command set_command set_car_connected]. reflexivity.
Qed.

Lemma Check_Connection_lost s :
  ovfCounts s <= uint16 (cc_counter s + 1) ->
  car_connected s = false ->
  Check_Connection s
  = set_command REVERSE
      (start_replay
         (set_cc_counter 0
            (TIMER0_SetTimerValue (tcnt s)
               (set_cc_counter (uint16 (cc_counter s + 1)) s)))).
Proof.
  intros Hwin Hc. apply Z.leb_le in Hwin. unfold Check_Connection.
  cbv zeta. unfold TIMER0_SetTimerValue at 1 2 3.
  cbn [ovfCounts cc_counter car_connected set_cc_counter set_TCNT0].
  rewrite Hwin, Hc. reflexivity.
Qed.

Lemma start_replay_unwinding s :
  mcu_reset s = false -> br_counter s = 0 -> reversed_mode s = STOP ->
  0 <= top s < 256 ->
  let s0 := start_replay s in
  unwinding_stopped s0 /\ top s0 = top s /\ stack s0 = stack s /\
  OCR2 s0 = OCR2 s /\ TCNT0 s0 = 255.
Proof.
  intros Hr Hbr Hrm Htop. cbv zeta.
  unfold start_replay, Save_Move, unwinding_stopped, halted.
  unfold_drivers. reduce_goal. rewrite Hrm, Z.eqb_refl. reduce_goal.
  repeat split; auto; lia.
Qed.

Lemma replay_entry_unwinding s s0 :
  mcu_reset s = false -> br_counter s = 0 -> reversed_mode s = STOP ->
  0 <= top s < 256 -> replay_entry s s0 ->
  unwinding_stopped s0 /\ top s0 = top s /\ stack s0 = stack s /\
  OCR2 s0 = OCR2 s /\ TCNT0 s0 = 255.
Proof.
  intros Hr Hbr Hrm Htop [[Hbuf ->]|(Hcb & Hwin & Hc & ->)].
  - rewrite (UART_Get_Cmd_REVERSE s Hbuf).
    exact (start_replay_unwinding
             (set_car_connected true (set_command REVERSE s))
             Hr Hbr Hrm Htop).
  - unfold vector_11. rewrite Hcb, (Check_Connection_lost s Hwin Hc).
    pose proof (start_replay_unwinding
                  (set_cc_counter 0
                     (TIMER0_SetTimerValue (tcnt s)
                        (set_cc_counter (uint16 (cc_counter s + 1)) s)))
                  Hr Hbr Hrm Htop) as HS.
    cbv zeta in HS. revert HS.
    change (top (set_cc_counter 0 _)) with (top s).
    change (stack (set_cc_counter 0 _)) with (stack s).
    change (OCR2 (set_cc_counter 0 _)) with (OCR2 s).
    generalize (start_replay
                  (set_cc_counter 0
                     (TIMER0_SetTimerValue (tcnt s)
                        (set_cc_counter (uint16 (cc_counter s + 1)) s)))).
    intros y ((Hy1 & Hy2) & Hy3 & Hy4 & Hy5 & Hy6).
    change (mcu_reset (set_command REVERSE y)) with (mcu_reset y).
    rewrite Hy1. repeat split; auto; apply Hy2.
Qed.

(** C10: when replay is entered while the remembered inverse motion is
    STOP, each of the next [top] Timebase overflows pops exactly one
    record and does nothing else - the motors stay halted, the Timer2
    compare register keeps its value, no record's overflow count or
    preload is loaded ([ovfCounts] stays 0 and the counter restarts from 0)
    - and the overflow after the last pop stops the motors and forces the
    reset. *)
Theorem C10_unwind_when_stopped (s s0 : State) :
  mcu_reset s = false -> br_counter s = 0 -> reversed_mode s = STOP ->
  0 <= top s < 256 -> replay_entry s s0 ->
  unwinds_without_driving s s0.
Proof.
  intros Hr Hbr Hrm Htop He. unfold unwinds_without_driving.
  destruct (replay_entry_unwinding s s0 Hr Hbr Hrm Htop He)
    as (Hu & Ht & Hst & Ho & Hc).
  split.
  - intros k Hk. cbv zeta.
    destruct (unwinding_stopped_iter s0 Hu k) as (Huk & Htk & Hok & Hsk & Hck);
      [lia|]. cbv zeta in *.
    destruct Huk as (H1 & _ & H3 & _ & _ & _ & H7).
    repeat split; try apply H7; auto; try congruence.
    destruct k as [|k]; [exact Hc|]. apply Hck. discriminate.
  - cbv zeta. rewrite Nat.iter_succ.
    destruct (unwinding_stopped_iter s0 Hu (Z.to_nat (top s)))
      as (Huk & Htk & _); [lia|]. cbv zeta in *.
    apply overflow_unwinding_finish; [exact Huk|]. lia.
Qed.

(** C10 when REVERSE arrives after BACKWARD, GEARUP, STOP: two records
    are on the stack and the remembered inverse motion is STOP. *)
Lemma C10_unwind_when_stopped_witness :
  let s := with_byte REVERSE
             (run [Recv BACKWARD; Recv GEARUP; Recv STOP] boot) in
  mcu_reset s = false /\ br_counter s = 0 /\ reversed_mode s = STOP /\
  top s = 2 /\ replay_entry s (UART_Get_Cmd s) /\
  unwinds_without_driving s (UART_Get_Cmd s).
Proof.
  cbv zeta.
  set (s := with_byte REVERSE
              (run [Recv BACKWARD; Recv GEARUP; Recv STOP] boot)).
  assert (H1 : mcu_reset s = false) by by_eval.
  assert (H2 : br_counter s = 0) by by_eval.
  assert (H3 : reversed_mode s = STOP) by by_eval.
  assert (H4 : top s = 2) by by_eval.
  assert (H5 : 0 <= top s < 256) by (rewrite H4; lia).
  assert (H6 : replay_entry s (UART_Get_Cmd s))
    by (left; split; [by_eval | reflexivity]).
  split; [exact H1|]. split; [exact H2|]. split; [exact H3|].
  split; [exact H4|]. split; [exact H6|].
  exact (C10_unwind_when_stopped s (UART_Get_Cmd s) H1 H2 H3 H5 H6).
Defined.

(** ** Remote mode and replay mode *)

Lemma remote_frame s s' :
  g_TIMER0_OVF_CallBack s' = g_TIMER0_OVF_CallBack s ->
  br_counter s' = br_counter s -> mcu_reset s' = mcu_reset s ->
  remote s -> remote s'.
Proof. unfold remote. intros -> -> ->. auto. Qed.

Lemma remote_Save_Move s : remote s -> remote (Save_Move s).
Proof.
  unfold remote, Save_Move. unfold_drivers. intros H. split_ifs; exact H.
Qed.

Ltac remote_peel :=
  match goal with
  | |- remote (?f ?x) =>
      let y := fresh "y" in
      let Hy := fresh "Hy" in
      cut (remote x);
      [ generalize x; intros y Hy; apply (remote_frame y);
        [reflexivity | reflexivity | reflexivity | exact Hy]
      | ]
  end.

Ltac remote_solve :=
  repeat match goal with
  | |- remote ?x => is_var x; assumption
  | |- remote (Save_Move _) => apply remote_Save_Move
  | |- remote _ => remote_peel
  end.

Lemma start_replay_replaying s : replaying (start_replay s).
Proof. split; reflexivity. Qed.

Lemma session_UART_Get_Cmd s : remote s -> session (UART_Get_Cmd s).
Proof.
  intros H. unfold UART_Get_Cmd. case_ifs;
    try (left; remote_solve; fail).
  right. apply start_replay_replaying.
Qed.

Lemma session_rx_dispatch a :
  remote a ->
  session match g_UART_RXCallBack a with
          | Some fn_UART_Get_Cmd => UART_Get_Cmd a
          | Some fn_UART_Get_LCD_msg => UART_Get_LCD_msg a
          | None => a
          end.
Proof.
  intros Ha. destruct (g_UART_RXCallBack a) as [[|]|].
  - now apply session_UART_Get_Cmd.
  - left. unfold UART_Get_LCD_msg. cbv zeta. remote_solve.
  - now left.
Qed.

Lemma session_vector_13 byte s : remote s -> session (vector_13 byte s).
Proof.
  intros H. unfold vector_13. cbv zeta.
  destruct (_ || _)%bool; [|left; remote_solve].
  apply session_rx_dispatch. case_ifs; remote_solve.
Qed.

Lemma session_Check_Connection s :
  remote s ->
  remote (Check_Connection s) \/
  (replaying (Check_Connection s) /\ mcu_reset (Check_Connection s) = false).
Proof.
  intros H. unfold Check_Connection. case_ifs;
    try (left; remote_solve; fail).
  right. split; [split; reflexivity|].
  change (mcu_reset (Save_Move
            (set_cc_counter 0
               (TIMER0_SetTimerValue
                  (tcnt (set_cc_counter (uint16 (cc_counter s + 1)) s))
                  (set_cc_counter (uint16 (cc_counter s + 1)) s)))) = false).
  apply remote_Save_Move. remote_solve.
Qed.

Lemma session_timer0_overflow s : remote s -> session (timer0_overflow s).
Proof.
  intros H. unfold timer0_overflow, vector_11.
  assert (H0 : remote (set_TCNT0 0 s)) by exact H.
  destruct H0 as (Hcb & Hbr & Hr). rewrite Hcb.
  destruct (session_Check_Connection (set_TCNT0 0 s) (conj Hcb (conj Hbr Hr)))
    as [Hx|[Hx Hm]]; revert Hx;
    [|revert Hm]; generalize (Check_Connection (set_TCNT0 0 s)); intros x.
  - intros Hx. assert (Hm := proj2 (proj2 Hx)). cbv zeta. rewrite Hm.
    left. remote_solve.
  - intros Hm Hx. cbv zeta. rewrite Hm. right. exact Hx.
Qed.

Lemma session_Obstacle_Detection f b s :
  remote s -> remote (Obstacle_Detection f b s).
Proof.
  intros H.
  assert (Hf : forall x, remote x -> remote (Obstacle_Detection_front x)).
  { intros x Hx. unfold Obstacle_Detection_front. case_ifs; remote_solve. }
  assert (Hb : forall x, remote x -> remote (Obstacle_Detection_back x)).
  { intros x Hx. unfold Obstacle_Detection_back. case_ifs; remote_solve. }
  unfold Obstacle_Detection. cbv zeta. apply Hb, Hf. remote_solve.
Qed.

Lemma session_step s e : session s -> session (step s e).
Proof.
  intros [H|H]; [|right; now apply step_replaying].
  unfold step. destruct (mcu_reset s); [now left|].
  destruct e as [|byte|f b].
  - unfold timer0_tick. destruct (timer0_clock s); [|now left].
    destruct (TCNT0 s =? 255); [now apply session_timer0_overflow|].
    left. remote_solve.
  - destruct (uart_rx_int s); [now apply session_vector_13|now left].
  - left. now apply session_Obstacle_Detection.
Qed.

Lemma session_run es : forall s, session s -> session (run es s).
Proof.
  induction es as [|e es IH]; intros s H; [exact H|].
  cbn [run fold_left]. apply IH. now apply session_step.
Qed.

(** In every reachable state that is still in Remote mode the replay
    engine's counter is 0, no reset is pending and [top] fits a byte: the
    side conditions of the replay theorems hold whenever replay is entered. *)
Lemma reachable_remote w_ovfs w_tcnt es :
  let s := run es (APP_Init w_ovfs w_tcnt) in
  g_TIMER0_OVF_CallBack s = Some fn_Check_Connection ->
  mcu_reset s = false /\ br_counter s = 0 /\ 0 <= top s < 256.
Proof.
  cbv zeta. intros Hcb.
  assert (H0 : session (APP_Init w_ovfs w_tcnt))
    by (left; repeat split).
  destruct (session_run es _ H0) as [(_ & Hbr & Hr)|[Hx _]];
    [|congruence].
  destruct (Inv_run es _ (Inv_APP_Init w_ovfs w_tcnt)) as [(_ & Ht & _) _].
  auto.
Qed.

(** ** How long one replayed record lasts *)

Lemma Back_Reverse_not_due x :
  uint16 (br_counter x + 1) < ovfCounts x ->
  Back_Reverse x = set_br_counter (uint16 (br_counter x + 1)) x.
Proof.
  intros H. apply Z.ltb_lt in H. unfold Back_Reverse. cbv zeta.
  cbn [br_counter ovfCounts set_br_counter]. now rewrite H.
Qed.

Lemma timer0_overflow_not_due s :
  mcu_reset s = false ->
  g_TIMER0_OVF_CallBack s = Some fn_Back_Reverse ->
  uint16 (br_counter s + 1) < ovfCounts s ->
  timer0_overflow s
  = set_g_TIMER0_Overflow (uint16 (g_TIMER0_Overflow s + 1))
      (set_br_counter (uint16 (br_counter s + 1)) (set_TCNT0 0 s)).
Proof.
  intros Hr Hcb Hlt. rewrite (timer0_overflow_replay s Hcb).
  rewrite (Back_Reverse_not_due (set_TCNT0 0 s) Hlt). cbv zeta.
  cbn [mcu_reset set_br_counter set_TCNT0]. now rewrite Hr.
Qed.

Lemma waiting_after_tick s s' k t m :
  0 <= k < 65536 -> 0 <= t < 256 -> 0 <= m ->
  m + 1 < 256 * Z.max k 1 - t ->
  waiting_after s s' k t m -> waiting_after s (step s' Tick) k t (m + 1).
Proof.
  intros Hk Ht Hm Hd
    (Hr & Hck & Hcb & Hovf & Hcnt & Hbr & Htop & Hst & Hrm & Hp1 & Hp2 & Ho).
  unfold step, timer0_tick. rewrite Hr, Hck.
  destruct (TCNT0 s' =? 255) eqn:E.
  - apply Z.eqb_eq in E. rewrite E in Hcnt.
    assert (Hc1 : (t + (m + 1)) / 256 = (t + m) / 256 + 1 /\
                  (t + (m + 1)) mod 256 = 0)
      by (Z.div_mod_to_equations; lia).
    destruct Hc1 as [Hq Hz].
    assert (Hlt : (t + m) / 256 + 1 < k)
      by (Z.div_mod_to_equations; lia).
    assert (Hu : uint16 (br_counter s' + 1) = (t + m) / 256 + 1).
    { rewrite Hbr. apply uint16_small. Z.div_mod_to_equations; lia. }
    rewrite (timer0_overflow_not_due s' Hr Hcb) by (rewrite Hu, Hovf; lia).
    rewrite Hu. unfold waiting_after.
    cbn [mcu_reset timer0_clock g_TIMER0_OVF_CallBack ovfCounts TCNT0
         br_counter top stack reversed_mode right_pins left_pins OCR2
         set_g_TIMER0_Overflow set_br_counter set_TCNT0].
    rewrite Hq, Hz. repeat split; assumption.
  - apply Z.eqb_neq in E. rewrite Hcnt in E.
    assert (Hc1 : (t + (m + 1)) / 256 = (t + m) / 256 /\
                  (t + (m + 1)) mod 256 = (t + m) mod 256 + 1)
      by (Z.div_mod_to_equations; lia).
    destruct Hc1 as [Hq Hz]. unfold waiting_after.
    cbn [mcu_reset timer0_clock g_TIMER0_OVF_CallBack ovfCounts TCNT0
         br_counter top stack reversed_mode right_pins left_pins OCR2
         set_TCNT0].
    rewrite Hq, Hz, Hcnt. repeat split; assumption.
Qed.

Lemma waiting_after_idle s k t :
  0 <= k < 65536 -> 0 <= t < 256 -> replay_waiting s k t ->
  forall n : N, Z.of_N n < 256 * Z.max k 1 - t ->
  waiting_after s (idle n s) k t (Z.of_N n).
Proof.
  intros Hk Ht (Hr & Hck & Hcb & Hovf & Hcnt & Hbr) n.
  induction n as [|n IH] using N.peano_ind; intros Hn.
  - change (idle 0 s) with s. change (Z.of_N 0) with 0.
    unfold waiting_after. rewrite Z.add_0_r.
    rewrite Z.mod_small, Z.div_small by lia.
    repeat split; (assumption || reflexivity || lia).
  - unfold idle in *. rewrite N.iter_succ, N2Z.inj_succ.
    apply waiting_after_tick; try lia. apply IH. lia.
Qed.

Lemma Back_Reverse_due_pop x :
  ovfCounts x <= uint16 (br_counter x + 1) -> 0 <= top x < 256 ->
  (top x = 0 -> mcu_reset (Back_Reverse x) = true) /\
  (top x <> 0 ->
     top (Back_Reverse x) = top x - 1 /\
     mcu_reset (Back_Reverse x) = mcu_reset x).
Proof.
  intros Hdue Htop.
  assert (Hlt : (uint16 (br_counter x + 1) <? ovfCounts x) = false)
    by (apply Z.ltb_ge; exact Hdue).
  unfold Back_Reverse. unfold_drivers. reduce_goal. rewrite Hlt.
  split; intros H0.
  - rewrite H0. reflexivity.
  - assert (Hz : (top x =? 0) = false) by now apply Z.eqb_neq.
    rewrite Hz. reduce_goal.
    destruct (reversed_mode x =? STOP); reduce_goal.
    + rewrite (uint8_small (top x - 1)) by lia. now split.
    + split_ifs; rewrite (uint8_small (top x - 1)) by lia; now split.
Qed.

(** X1: a record replayed with overflow count [k] and preload [t] holds
    its motion for 256 * max k 1 - t ticks: nothing the engine controls
    changes before, and the next pop (or the final reset) happens on
    exactly that tick. *)
Lemma replay_step_duration s k t :
  0 <= k < 65536 -> 0 <= t < 256 -> 0 <= top s < 256 ->
  replay_waiting s k t ->
  let d := 256 * Z.max k 1 - t in
  (forall n : N, Z.of_N n < d ->
     let sn := idle n s in
     mcu_reset sn = false /\ top sn = top s /\
     right_pins sn = right_pins s /\ left_pins sn = left_pins s) /\
  (top s = 0 -> mcu_reset (idle (Z.to_N d) s) = true) /\
  (top s <> 0 -> top (idle (Z.to_N d) s) = top s - 1).
Proof.
  intros Hk Ht Htop Hw. cbv zeta.
  pose proof (waiting_after_idle s k t Hk Ht Hw) as HI.
  split.
  - intros n Hn.
    destruct (HI n Hn) as (Hr & _ & _ & _ & _ & _ & Hto & _ & _ & H1 & H2 & _).
    auto.
  - assert (Hd : Z.to_N (256 * Z.max k 1 - t)
                 = N.succ (Z.to_N (256 * Z.max k 1 - t - 1)))
      by lia.
    rewrite Hd. unfold idle. rewrite N.iter_succ.
    fold (idle (Z.to_N (256 * Z.max k 1 - t - 1)) s).
    specialize (HI (Z.to_N (256 * Z.max k 1 - t - 1))).
    rewrite Z2N.id in HI by lia. specialize (HI ltac:(lia)).
    revert HI. generalize (idle (Z.to_N (256 * Z.max k 1 - t - 1)) s).
    intros x (Hr & Hck & Hcb & Hovf & Hcnt & Hbr & Hto & _).
    assert (Hc255 : TCNT0 x = 255)
      by (rewrite Hcnt; Z.div_mod_to_equations; lia).
    assert (Hbk : br_counter x = Z.max k 1 - 1)
      by (rewrite Hbr; Z.div_mod_to_equations; lia).
    unfold step, timer0_tick. rewrite Hr, Hck, Hc255. cbn [Z.eqb Pos.eqb].
    rewrite (timer0_overflow_replay x Hcb). cbv zeta.
    assert (Hdue : ovfCounts (set_TCNT0 0 x)
                   <= uint16 (br_counter (set_TCNT0 0 x) + 1)).
    { cbn [ovfCounts br_counter set_TCNT0]. rewrite Hovf, Hbk.
      rewrite uint16_small by lia. lia. }
    assert (Htx : 0 <= top (set_TCNT0 0 x) < 256)
      by (cbn [top set_TCNT0]; lia).
    destruct (Back_Reverse_due_pop (set_TCNT0 0 x) Hdue Htx) as [Hz Hnz].
    change (top (set_TCNT0 0 x)) with (top x) in Hz, Hnz.
    change (mcu_reset (set_TCNT0 0 x)) with (mcu_reset x) in Hnz.
    rewrite Hto in Hz, Hnz. revert Hz Hnz.
    generalize (Back_Reverse (set_TCNT0 0 x)). intros y Hz Hnz. split.
    + intros H0. rewrite (Hz H0). exact (Hz H0).
    + intros H0. destruct (Hnz H0) as [Hy1 Hy2].
      rewrite Hy2, Hr. exact Hy1.
Qed.

(** The record of 300 ticks of FORWARD has been popped (1 overflow,
    preload 44) and the stack is empty. *)
Lemma replay_step_duration_witness :
  let s := step forward_300_then_reverse Tick in
  (forall n : N, Z.of_N n < 212 ->
     let sn := idle n s in
     mcu_reset sn = false /\ top sn = top s /\
     right_pins sn = right_pins s /\ left_pins sn = left_pins s) /\
  (top s = 0 -> mcu_reset (idle 212 s) = true) /\
  (top s <> 0 -> top (idle 212 s) = top s - 1).
Proof.
  cbv zeta.
  assert (Hk : 0 <= 1 < 65536) by lia.
  assert (Ht : 0 <= 44 < 256) by lia.
  assert (Htop : 0 <= top (step forward_300_then_reverse Tick) < 256)
    by (split; by_eval).
  assert (Hw : replay_waiting (step forward_300_then_reverse Tick) 1 44)
    by (repeat split; by_eval).
  exact (replay_step_duration (step forward_300_then_reverse Tick) 1 44
           Hk Ht Htop Hw).
Defined.

(** C1 (the code departs from the claim): FORWARD is held for 300 ticks
    and the return is requested.  One record is on the stack and it holds
    1 overflow + 44 ticks = 300 ticks.  The first replay overflow pops it,
    but the motors are left halted instead of being driven backward, and
    the step lasts 212 ticks (256 - 44), not 300: the reset is forced on
    the 212th tick after the pop. *)
Theorem C1_round_trip_timing_fails :
  let s := forward_300_then_reverse in
  let s1 := step s Tick in
  top s = 1 /\ stack_at s 0 = reverse.mk 2 1 1 44 /\
  256 * reverse.ovfs (stack_at s 0) + reverse.tcnt (stack_at s 0) = 300 /\
  top s1 = 0 /\ mcu_reset s1 = false /\ halted s1 /\
  mcu_reset (idle 211 s1) = false /\ mcu_reset (idle 212 s1) = true.
Proof.
  cbv zeta. unfold halted. repeat split; by_eval.
Qed.

(** ** How long the whole replay lasts *)

Lemma idle_add (a b : N) (s : State) :
  idle (a + b) s = idle a (idle b s).
Proof. unfold idle. apply N.iter_add. Qed.

Lemma Back_Reverse_due_load x :
  ovfCounts x <= uint16 (br_counter x + 1) -> 0 < top x < 256 ->
  reversed_mode x <> STOP ->
  let r := stack_at x (top x - 1) in
  let y := Back_Reverse x in
  mcu_reset y = mcu_reset x /\ timer0_clock y = timer0_clock x /\
  g_TIMER0_OVF_CallBack y = g_TIMER0_OVF_CallBack x /\
  ovfCounts y = reverse.ovfs r /\ TCNT0 y = uint8 (reverse.tcnt r) /\
  br_counter y = 0 /\ top y = top x - 1 /\ stack y = stack x /\
  reversed_mode y = reversed_mode x.
Proof.
  intros Hdue Htop Hrm. cbv zeta.
  assert (Hlt : (uint16 (br_counter x + 1) <? ovfCounts x) = false)
    by (apply Z.ltb_ge; exact Hdue).
  assert (Hz : (top x =? 0) = false) by (apply Z.eqb_neq; lia).
  assert (Hs : (reversed_mode x =? STOP) = false) by now apply Z.eqb_neq.
  unfold Back_Reverse, stack_at. unfold_drivers. reduce_goal.
  rewrite Hlt, Hz. reduce_goal. rewrite Hs. reduce_goal.
  rewrite (uint8_small (top x - 1)) by lia.
  split_ifs; repeat split; reflexivity.
Qed.

Lemma Back_Reverse_due_finish x :
  ovfCounts x <= uint16 (br_counter x + 1) -> top x = 0 ->
  mcu_reset (Back_Reverse x) = true /\ halted (Back_Reverse x) /\
  top (Back_Reverse x) = 0.
Proof.
  intros Hdue Htop.
  assert (Hlt : (uint16 (br_counter x + 1) <? ovfCounts x) = false)
    by (apply Z.ltb_ge; exact Hdue).
  unfold Back_Reverse, halted. unfold_drivers. reduce_goal.
  rewrite Hlt, Htop. reduce_goal. auto.
Qed.

(** The state one tick before a replayed record is due, and the overflow
    that ends the wait. *)
Lemma replay_wait_ends s k t :
  0 <= k < 65536 -> 0 <= t < 256 -> replay_waiting s k t ->
  let d := 256 * Z.max k 1 - t in
  exists x,
    idle (Z.to_N d) s
    = (let y := Back_Reverse (set_TCNT0 0 x) in
       if mcu_reset y then y
       else set_g_TIMER0_Overflow (uint16 (g_TIMER0_Overflow y + 1)) y) /\
    ovfCounts x <= uint16 (br_counter x + 1) /\
    mcu_reset x = false /\ timer0_clock x = true /\
    g_TIMER0_OVF_CallBack x = Some fn_Back_Reverse /\
    top x = top s /\ stack x = stack s /\
    reversed_mode x = reversed_mode s.
Proof.
  intros Hk Ht Hw. cbv zeta.
  pose proof (waiting_after_idle s k t Hk Ht Hw) as HI.
  assert (Hd : Z.to_N (256 * Z.max k 1 - t)
               = N.succ (Z.to_N (256 * Z.max k 1 - t - 1)))
    by lia.
  rewrite Hd. unfold idle. rewrite N.iter_succ.
  fold (idle (Z.to_N (256 * Z.max k 1 - t - 1)) s).
  specialize (HI (Z.to_N (256 * Z.max k 1 - t - 1))).
  rewrite Z2N.id in HI by lia. specialize (HI ltac:(lia)).
  revert HI. generalize (idle (Z.to_N (256 * Z.max k 1 - t - 1)) s).
  intros x (Hr & Hck & Hcb & Hovf & Hcnt & Hbr & Hto & Hst & Hrm & _).
  assert (Hc255 : TCNT0 x = 255)
    by (rewrite Hcnt; Z.div_mod_to_equations; lia).
  assert (Hbk : br_counter x = Z.max k 1 - 1)
    by (rewrite Hbr; Z.div_mod_to_equations; lia).
  exists x. split; [|split].
  - unfold step, timer0_tick. rewrite Hr, Hck, Hc255. cbn [Z.eqb Pos.eqb].
    apply (timer0_overflow_replay x Hcb).
  - rewrite Hovf, Hbk. rewrite uint16_small by lia. lia.
  - repeat split; assumption.
Qed.

Lemma replay_step_next s k t :
  0 <= k < 65536 -> 0 <= t < 256 -> 0 < top s < 256 ->
  reversed_mode s <> STOP -> replay_waiting s k t ->
  let s' := idle (Z.to_N (256 * Z.max k 1 - t)) s in
  let r := stack_at s (top s - 1) in
  replay_waiting s' (reverse.ovfs r) (uint8 (reverse.tcnt r)) /\
  top s' = top s - 1 /\ stack s' = stack s /\
  reversed_mode s' = reversed_mode s.
Proof.
  intros Hk Ht Htop Hrm Hw. cbv zeta.
  destruct (replay_wait_ends s k t Hk Ht Hw)
    as (x & -> & Hdue & Hr & Hck & Hcb & Hto & Hst & Hmode).
  assert (Hdue' : ovfCounts (set_TCNT0 0 x)
                  <= uint16 (br_counter (set_TCNT0 0 x) + 1)) by exact Hdue.
  assert (Htop' : 0 < top (set_TCNT0 0 x) < 256)
    by (cbn [top set_TCNT0]; lia).
  assert (Hrm' : reversed_mode (set_TCNT0 0 x) <> STOP)
    by (cbn [reversed_mode set_TCNT0]; congruence).
  pose proof (Back_Reverse_due_load (set_TCNT0 0 x) Hdue' Htop' Hrm') as HB.
  cbv zeta in HB. unfold stack_at in *.
  cbn [mcu_reset timer0_clock g_TIMER0_OVF_CallBack top stack reversed_mode
       set_TCNT0] in HB.
  rewrite Hr, Hck, Hcb, Hto, Hst, Hmode in HB.
  revert HB. generalize (Back_Reverse (set_TCNT0 0 x)).
  intros y (Y1 & Y2 & Y3 & Y4 & Y5 & Y6 & Y7 & Y8 & Y9).
  cbv zeta. rewrite Y1. unfold replay_waiting.
  cbn [mcu_reset timer0_clock g_TIMER0_OVF_CallBack ovfCounts TCNT0
       br_counter top stack reversed_mode set_g_TIMER0_Overflow].
  repeat split; assumption.
Qed.

Lemma replay_step_last s k t :
  0 <= k < 65536 -> 0 <= t < 256 -> top s = 0 -> replay_waiting s k t ->
  let s' := idle (Z.to_N (256 * Z.max k 1 - t)) s in
  mcu_reset s' = true /\ halted s' /\ top s' = 0.
Proof.
  intros Hk Ht Htop Hw. cbv zeta.
  destruct (replay_wait_ends s k t Hk Ht Hw)
    as (x & -> & Hdue & Hr & Hck & Hcb & Hto & Hst & Hmode).
  assert (Hdue' : ovfCounts (set_TCNT0 0 x)
                  <= uint16 (br_counter (set_TCNT0 0 x) + 1)) by exact Hdue.
  assert (Htop' : top (set_TCNT0 0 x) = 0)
    by (cbn [top set_TCNT0]; lia).
  pose proof (Back_Reverse_due_finish (set_TCNT0 0 x) Hdue' Htop') as HB.
  revert HB. generalize (Back_Reverse (set_TCNT0 0 x)).
  intros y (Y1 & Y2 & Y3). cbv zeta. rewrite Y1. auto.
Qed.

Lemma replay_no_reset_before s k t :
  0 <= k < 65536 -> 0 <= t < 256 -> replay_waiting s k t ->
  forall n : N, Z.of_N n < 256 * Z.max k 1 - t ->
  mcu_reset (idle n s) = false.
Proof.
  intros Hk Ht Hw n Hn.
  now destruct (waiting_after_idle s k t Hk Ht Hw n Hn) as (Hr & _).
Qed.

Lemma record_ticks_pos r :
  0 <= reverse.ovfs r < 65536 -> 0 <= reverse.tcnt r < 256 ->
  0 < record_ticks r.
Proof. unfold record_ticks. lia. Qed.

Lemma replay_ticks_nonneg st n :
  (forall i, (i < n)%nat ->
     0 <= reverse.ovfs (default reverse.zero (st !! i)) < 65536 /\
     0 <= reverse.tcnt (default reverse.zero (st !! i)) < 256) ->
  0 <= replay_ticks st n.
Proof.
  induction n as [|n IH]; intros H; cbn [replay_ticks]; [lia|].
  destruct (H n ltac:(lia)) as [H1 H2].
  pose proof (record_ticks_pos _ H1 H2).
  specialize (IH ltac:(intros i Hi; apply H; lia)). lia.
Qed.



(** ** What a record measures *)

Lemma Check_Connection_not_due x :
  uint16 (cc_counter x + 1) < ovfCounts x ->
  Check_Connection x = set_cc_counter (uint16 (cc_counter x + 1)) x.
Proof.
  intros H. apply Z.leb_gt in H. unfold Check_Connection. cbv zeta.
  cbn [cc_counter ovfCounts set_cc_counter]. now rewrite H.
Qed.

Lemma timer0_overflow_counting s :
  mcu_reset s = false ->
  g_TIMER0_OVF_CallBack s = Some fn_Check_Connection ->
  uint16 (cc_counter s + 1) < ovfCounts s ->
  timer0_overflow s
  = set_g_TIMER0_Overflow (uint16 (g_TIMER0_Overflow s + 1))
      (set_cc_counter (uint16 (cc_counter s + 1)) (set_TCNT0 0 s)).
Proof.
  intros Hr Hcb Hlt. unfold timer0_overflow, vector_11.
  cbn [g_TIMER0_OVF_CallBack set_TCNT0]. rewrite Hcb.
  rewrite (Check_Connection_not_due (set_TCNT0 0 s) Hlt). cbv zeta.
  cbn [mcu_reset set_cc_counter set_TCNT0]. now rewrite Hr.
Qed.

Lemma counting_after_tick s s' m :
  0 <= TCNT0 s < 256 -> 0 <= cc_counter s -> 0 <= g_TIMER0_Overflow s ->
  0 <= m ->
  cc_counter s + (TCNT0 s + (m + 1)) / 256 < ovfCounts s ->
  ovfCounts s <= 65536 ->
  g_TIMER0_Overflow s + (TCNT0 s + (m + 1)) / 256 < 65536 ->
  counting_after s s' m -> counting_after s (step s' Tick) (m + 1).
Proof.
  intros Ht Hc Hg Hm Hw Hov Hgo
    (Hr & Hck & Hcb & Hovf & Hcnt & Hgv & Hcc & Htop & Hst & Hrm & Hge).
  unfold step, timer0_tick. rewrite Hr, Hck.
  destruct (TCNT0 s' =? 255) eqn:E.
  - apply Z.eqb_eq in E. rewrite E in Hcnt.
    assert (Hc1 : (TCNT0 s + (m + 1)) / 256 = (TCNT0 s + m) / 256 + 1 /\
                  (TCNT0 s + (m + 1)) mod 256 = 0)
      by (Z.div_mod_to_equations; lia).
    destruct Hc1 as [Hq Hz]. rewrite Hq in Hw, Hgo.
    assert (Hu : uint16 (cc_counter s' + 1)
                 = cc_counter s + (TCNT0 s + m) / 256 + 1).
    { rewrite Hcc. apply uint16_small. Z.div_mod_to_equations; lia. }
    assert (Hu2 : uint16 (g_TIMER0_Overflow s' + 1)
                  = g_TIMER0_Overflow s + (TCNT0 s + m) / 256 + 1).
    { rewrite Hgv. apply uint16_small. Z.div_mod_to_equations; lia. }
    rewrite (timer0_overflow_counting s' Hr Hcb) by (rewrite Hu, Hovf; lia).
    rewrite Hu, Hu2. unfold counting_after.
    cbn [mcu_reset timer0_clock g_TIMER0_OVF_CallBack ovfCounts TCNT0
         g_TIMER0_Overflow cc_counter top stack reversed_mode gear
         set_g_TIMER0_Overflow set_cc_counter set_TCNT0].
    rewrite Hq, Hz. repeat split; (assumption || lia).
  - apply Z.eqb_neq in E. rewrite Hcnt in E.
    assert (Hc1 : (TCNT0 s + (m + 1)) / 256 = (TCNT0 s + m) / 256 /\
                  (TCNT0 s + (m + 1)) mod 256 = (TCNT0 s + m) mod 256 + 1)
      by (Z.div_mod_to_equations; lia).
    destruct Hc1 as [Hq Hz]. unfold counting_after.
    cbn [mcu_reset timer0_clock g_TIMER0_OVF_CallBack ovfCounts TCNT0
         g_TIMER0_Overflow cc_counter top stack reversed_mode gear
         set_TCNT0].
    rewrite Hq, Hz, Hcnt. repeat split; assumption.
Qed.

Lemma counting_after_idle s :
  mcu_reset s = false -> timer0_clock s = true ->
  g_TIMER0_OVF_CallBack s = Some fn_Check_Connection ->
  0 <= TCNT0 s < 256 -> 0 <= cc_counter s -> 0 <= g_TIMER0_Overflow s ->
  ovfCounts s <= 65536 ->
  forall n : N,
  cc_counter s + (TCNT0 s + Z.of_N n) / 256 < ovfCounts s ->
  g_TIMER0_Overflow s + (TCNT0 s + Z.of_N n) / 256 < 65536 ->
  counting_after s (idle n s) (Z.of_N n).
Proof.
  intros Hr Hck Hcb Ht Hc Hg Hov n.
  induction n as [|n IH] using N.peano_ind; intros Hw Hgo.
  - change (idle 0 s) with s. change (Z.of_N 0) with 0.
    unfold counting_after. rewrite Z.add_0_r.
    rewrite Z.mod_small, Z.div_small by lia.
    repeat split; (assumption || reflexivity || lia).
  - unfold idle in *. rewrite N.iter_succ, N2Z.inj_succ.
    rewrite N2Z.inj_succ in Hw, Hgo.
    assert (Hmono : (TCNT0 s + Z.of_N n) / 256
                    <= (TCNT0 s + Z.succ (Z.of_N n)) / 256)
      by (apply Z.div_le_mono; lia).
    apply counting_after_tick; try lia. apply IH; lia.
Qed.



Lemma Save_Move_keeps_gear s :
  gear (Save_Move s) = gear s /\ OCR2 (Save_Move s) = OCR2 s.
Proof.
  unfold Save_Move. cbv zeta.
  destruct (negb _ && _)%bool; split; reflexivity.
Qed.



(** ** Gears and well-formed records *)

Lemma Gears_frame s s' :
  gear s' = gear s ->
  g_TIMER0_OVF_CallBack s' = g_TIMER0_OVF_CallBack s ->
  OCR2 s' = OCR2 s -> top s' = top s -> stack s' = stack s ->
  Gears s -> Gears s'.
Proof. unfold Gears, stack_at. intros -> -> -> -> ->. auto. Qed.

Lemma Gears_SetCallback_Back_Reverse s :
  Gears s -> Gears (TIMER0_SetCallback fn_Back_Reverse s).
Proof.
  unfold Gears, stack_at. intros (Hg & _ & Ho & Hr).
  cbn [TIMER0_SetCallback gear g_TIMER0_OVF_CallBack OCR2 top stack
       set_g_TIMER0_OVF_CallBack].
  split; [exact Hg|]. split; [discriminate|]. split; [exact Ho|exact Hr].
Qed.

Lemma bits3_gear g : gear_level g -> bits3 g = g.
Proof.
  unfold gear_level, MIN_GEAR, MAX_GEAR, bits3. intros H.
  apply Z.mod_small. lia.
Qed.

Lemma well_formed_push (st : list reverse.t) tp rm g o t :
  length st = 300%nat -> 0 <= tp < 256 -> gear_level g ->
  (forall i, 0 <= i < tp ->
     well_formed_record (default reverse.zero (st !! Z.to_nat i))) ->
  forall i, 0 <= i < uint8 (tp + 1) ->
    well_formed_record
      (default reverse.zero
         (<[Z.to_nat tp := reverse.mk rm (bits3 g) (uint16 o) (uint8 t)]> st
            !! Z.to_nat i)).
Proof.
  intros Hlen Htp Hg Hr i Hi.
  assert (Hle : uint8 (tp + 1) <= tp + 1)
    by (unfold uint8; apply Z.mod_le; lia).
  destruct (Z.eq_dec i tp) as [->|Hne].
  - rewrite list_lookup_insert_eq by lia. cbn [default from_option id].
    unfold well_formed_record. cbn [reverse.gear reverse.ovfs reverse.tcnt].
    rewrite bits3_gear by exact Hg.
    split; [exact Hg|]. split; [apply uint16_range|apply uint8_range].
  - rewrite list_lookup_insert_ne by lia. apply Hr. lia.
Qed.

Lemma Gears_Save_Move s : Inv s -> Gears s -> Gears (Save_Move s).
Proof.
  intros [(_ & Htop & _) Hlen] (Hg & Hcc & Ho & Hr).
  unfold Gears, Save_Move, stack_at in *. unfold_drivers.
  destruct (negb (reversed_mode s =? STOP) && (top s <? MAX_MOVES))%bool;
    reduce_goal.
  - split; [exact Hg|]. split; [exact Hcc|]. split; [exact Ho|].
    now apply well_formed_push.
  - split; [exact Hg|]. split; [exact Hcc|]. split; [exact Ho|exact Hr].
Qed.

Lemma Gears_Back_Reverse s :
  g_TIMER0_OVF_CallBack s = Some fn_Back_Reverse ->
  Inv s -> Gears s -> Gears (Back_Reverse s).
Proof.
  intros Hcb [(_ & Htop & _) Hlen] (Hg & Hcc & Ho & Hr).
  unfold Gears, Back_Reverse, stack_at in *. unfold_drivers. reduce_goal.
  destruct (uint16 (br_counter s + 1) <? ovfCounts s); reduce_goal;
    [split; [exact Hg|]; split; [intros E; congruence|];
     split; [exact Ho|exact Hr]|].
  destruct (top s =? 0) eqn:Hz; reduce_goal;
    [split; [exact Hg|]; split; [intros E; congruence|];
     split; [exact Ho|exact Hr]|].
  apply Z.eqb_neq in Hz.
  rewrite (uint8_small (top s - 1)) by lia.
  assert (Hr' : forall i, 0 <= i < top s - 1 ->
            well_formed_record
              (default reverse.zero (stack s !! Z.to_nat i)))
    by (intros i Hi; apply Hr; lia).
  destruct (Hr (top s - 1) ltac:(lia)) as (Hrg & _).
  assert (Ho' : exists g, gear_level g /\
            uint8 (51 * reverse.gear
                          (default reverse.zero
                             (stack s !! Z.to_nat (top s - 1))))
            = 51 * g).
  { eexists. split; [exact Hrg|].
    apply uint8_small. unfold gear_level, MIN_GEAR, MAX_GEAR in Hrg. lia. }
  destruct (reversed_mode s =? STOP); reduce_goal.
  - split; [exact Hg|]. split; [intros E; congruence|].
    split; [exact Ho|exact Hr'].
  - split_ifs; (split; [exact Hg|]; split; [intros E; congruence|];
                split; [exact Ho'|exact Hr']).
Qed.

Ltac gears_peel :=
  match goal with
  | |- Gears (?f ?x) =>
      let y := fresh "y" in
      let Hy := fresh "Hy" in
      cut (Gears x);
      [ generalize x; intros y Hy; apply (Gears_frame y);
        [reflexivity | reflexivity | reflexivity | reflexivity
         | reflexivity | exact Hy]
      | ]
  end.

Ltac gears_solve :=
  repeat match goal with
  | |- Gears ?x => is_var x; assumption
  | |- Gears (Save_Move _) => apply Gears_Save_Move; [inv_solve|]
  | |- Gears (TIMER0_SetCallback fn_Back_Reverse _) =>
      apply Gears_SetCallback_Back_Reverse
  | |- Gears _ => gears_peel
  end.

Lemma Gears_gear_change (x : State) (g : Z) :
  gear_level g -> Gears x ->
  Gears (TIMER2_SetCompareValue (51 * gear (set_gear (uint8 g) x))
           (set_gear (uint8 g) x)).
Proof.
  intros Hg (_ & _ & _ & Hr).
  assert (Hu : uint8 g = g)
    by (apply uint8_small; unfold gear_level, MIN_GEAR, MAX_GEAR in Hg; lia).
  unfold Gears, stack_at in *. unfold_drivers.
  cbn [gear g_TIMER0_OVF_CallBack OCR2 top stack set_OCR2 set_gear].
  rewrite Hu.
  assert (Ho : uint8 (51 * g) = 51 * g)
    by (apply uint8_small; unfold gear_level, MIN_GEAR, MAX_GEAR in Hg; lia).
  rewrite Ho. split; [exact Hg|]. split; [reflexivity|].
  split; [now exists g|exact Hr].
Qed.

Lemma Gears_UART_Get_Cmd s : Inv s -> Gears s -> Gears (UART_Get_Cmd s).
Proof.
  intros HI HG. unfold UART_Get_Cmd. cbv zeta.
  assert (HIx : Inv (set_car_connected true
                       (set_command
                          (uint8 (default 0 (uart_rx_buffer s !! 0%nat))) s)))
    by inv_solve.
  assert (HGx : Gears (set_car_connected true
                         (set_command
                            (uint8 (default 0 (uart_rx_buffer s !! 0%nat)))
                            s)))
    by gears_solve.
  revert HIx HGx.
  generalize (set_car_connected true
                (set_command
                   (uint8 (default 0 (uart_rx_buffer s !! 0%nat))) s)).
  intros x HIx HGx.
  destruct (command x =? FORWARD); [gears_solve|].
  destruct (command x =? BACKWARD); [gears_solve|].
  destruct (command x =? STOP); [gears_solve|].
  destruct (command x =? STEER_RIGHT); [gears_solve|].
  destruct (command x =? STEER_LEFT); [gears_solve|].
  destruct (command x =? GEARUP).
  { destruct (Z.ltb_spec (gear x) MAX_GEAR) as [Hlt|_]; [|exact HGx].
    apply Gears_Save_Move; [inv_solve|].
    apply Gears_gear_change; [|exact HGx].
    destruct HGx as (Hg & _). unfold gear_level in *. lia. }
  destruct (command x =? GEARDOWN).
  { destruct (Z.ltb_spec MIN_GEAR (gear x)) as [Hlt|_]; [|exact HGx].
    apply Gears_Save_Move; [inv_solve|].
    apply Gears_gear_change; [|exact HGx].
    destruct HGx as (Hg & _). unfold gear_level in *. lia. }
  case_ifs; gears_solve.
Qed.

Lemma Gears_UART_Get_LCD_msg s : Gears s -> Gears (UART_Get_LCD_msg s).
Proof. intros H. unfold UART_Get_LCD_msg. cbv zeta. gears_solve. Qed.

Lemma Gears_Check_Connection s :
  Inv s -> Gears s -> Gears (Check_Connection s).
Proof.
  intros HI HG. unfold Check_Connection. case_ifs; gears_solve.
Qed.

Lemma Gears_Obstacle_Detection f b s :
  Gears s -> Gears (Obstacle_Detection f b s).
Proof.
  intros H.
  assert (Hf : forall x, Gears x -> Gears (Obstacle_Detection_front x)).
  { intros x Hx. unfold Obstacle_Detection_front. case_ifs; gears_solve. }
  assert (Hb : forall x, Gears x -> Gears (Obstacle_Detection_back x)).
  { intros x Hx. unfold Obstacle_Detection_back. case_ifs; gears_solve. }
  unfold Obstacle_Detection. cbv zeta. apply Hb, Hf. gears_solve.
Qed.

Lemma Gears_vector_11 s : Inv s -> Gears s -> Gears (vector_11 s).
Proof.
  intros HI HG. unfold vector_11.
  set (x := match g_TIMER0_OVF_CallBack s with
            | Some fn_Check_Connection => Check_Connection s
            | Some fn_Back_Reverse => Back_Reverse s
            | None => s
            end).
  assert (Hx : Gears x).
  { subst x. destruct (g_TIMER0_OVF_CallBack s) as [[|]|] eqn:E;
      auto using Gears_Check_Connection, Gears_Back_Reverse. }
  clearbody x. cbv zeta. destruct (mcu_reset x); gears_solve.
Qed.

Lemma Gears_vector_13 byte s : Inv s -> Gears s -> Gears (vector_13 byte s).
Proof.
  intros HI HG. unfold vector_13. cbv zeta.
  destruct (_ || _)%bool; [|gears_solve].
  match goal with
  | |- Gears match g_UART_RXCallBack ?a with _ => _ end =>
      assert (HIa : Inv a) by (case_ifs; inv_solve);
      assert (HGa : Gears a) by (case_ifs; gears_solve);
      revert HIa HGa; generalize a; intros y HIa HGa
  end.
  destruct (g_UART_RXCallBack y) as [[|]|];
    auto using Gears_UART_Get_Cmd, Gears_UART_Get_LCD_msg.
Qed.

Lemma Gears_step s e : Inv s -> Gears s -> Gears (step s e).
Proof.
  intros HI HG. unfold step. destruct (mcu_reset s); [exact HG|].
  destruct e as [|byte|f b].
  - unfold timer0_tick, timer0_overflow.
    destruct (timer0_clock s); [|exact HG].
    destruct (TCNT0 s =? 255); [apply Gears_vector_11; [inv_solve|]|];
      gears_solve.
  - destruct (uart_rx_int s); [now apply Gears_vector_13|exact HG].
  - now apply Gears_Obstacle_Detection.
Qed.

Lemma Gears_run es : forall s, Inv s -> Gears s -> Gears (run es s).
Proof.
  induction es as [|e es IH]; intros s HI HG; [exact HG|].
  cbn [run fold_left]. apply IH; [now apply Inv_step|now apply Gears_step].
Qed.

Lemma Gears_APP_Init w_ovfs w_tcnt : Gears (APP_Init w_ovfs w_tcnt).
Proof.
  unfold Gears, gear_level.
  cbn [APP_Init gear g_TIMER0_OVF_CallBack OCR2 top].
  split; [unfold MIN_GEAR, MAX_GEAR; lia|]. split; [reflexivity|].
  split; [exists MIN_GEAR; split; [unfold MIN_GEAR, MAX_GEAR; lia|reflexivity]|].
  intros i Hi. lia.
Qed.

(** X5: in every state the firmware can reach the gear is between
    MIN_GEAR and MAX_GEAR, OCR2 holds 51 times a gear level (51 times the
    current gear while the watchdog owns the overflow interrupt), and
    every record below [top] holds a gear level, an overflow count below
    65536 and a counter value below 256. *)
Theorem reachable_gears (w_ovfs w_tcnt : Z) (es : list event) :
  let s := run es (APP_Init w_ovfs w_tcnt) in
  MIN_GEAR <= gear s <= MAX_GEAR /\
  (g_TIMER0_OVF_CallBack s = Some fn_Check_Connection ->
   OCR2 s = 51 * gear s) /\
  (exists g, MIN_GEAR <= g <= MAX_GEAR /\ OCR2 s = 51 * g) /\
  records_in_range s /\
  forall i, 0 <= i < top s ->
    MIN_GEAR <= reverse.gear (stack_at s i) <= MAX_GEAR.
Proof.
  cbv zeta.
  destruct (Gears_run es _ (Inv_APP_Init w_ovfs w_tcnt)
              (Gears_APP_Init w_ovfs w_tcnt)) as (Hg & Hcc & Ho & Hr).
  split; [exact Hg|]. split; [exact Hcc|]. split; [exact Ho|].
  split; intros i Hi; destruct (Hr i Hi) as (H1 & H2 & H3); auto.
Qed.

(** ** The two modes of a boot session *)

(** X6: every state the firmware can reach is in Remote mode (watchdog
    installed, replay counter 0, no reset) or in replay mode (replay
    engine installed, receiver off); a reset is only ever forced in replay
    mode, and in replay mode received bytes change nothing. *)
Theorem reachable_session (w_ovfs w_tcnt : Z) (es : list event) :
  let s := run es (APP_Init w_ovfs w_tcnt) in
  (remote s \/ replaying s) /\
  (mcu_reset s = true -> replaying s) /\
  (replaying s -> forall bytes, run (map Recv bytes) s = s).
Proof.
  cbv zeta.
  assert (H0 : session (APP_Init w_ovfs w_tcnt)) by (left; repeat split).
  pose proof (session_run es _ H0) as Hs.
  revert Hs. generalize (run es (APP_Init w_ovfs w_tcnt)). intros s Hs.
  split; [exact Hs|]. split.
  - intros Hr. destruct Hs as [(_ & _ & Hn)|Hs]; [congruence|exact Hs].
  - intros [_ Hrx] bytes. induction bytes as [|b bytes IH]; [reflexivity|].
    cbn [map run fold_left]. unfold step at 2. rewrite Hrx.
    destruct (mcu_reset s); exact IH.
Qed.

(** ** The H-bridge inputs *)

Lemma bridge_safe_frame s s' :
  right_pins s' = right_pins s -> left_pins s' = left_pins s ->
  bridge_safe s -> bridge_safe s'.
Proof. unfold bridge_safe. intros -> ->. auto. Qed.

Lemma bridge_safe_set_pins m p s :
  p <> (HIGH, HIGH) -> bridge_safe s -> bridge_safe (set_pins m p s).
Proof.
  unfold bridge_safe. intros Hp [H1 H2].
  destruct m; cbn [set_pins right_pins left_pins set_right_pins set_left_pins];
    auto.
Qed.

Lemma bridge_safe_MOTOR_Forward m s :
  bridge_safe s -> bridge_safe (MOTOR_Forward m s).
Proof. apply bridge_safe_set_pins. discriminate. Qed.

Lemma bridge_safe_MOTOR_Backward m s :
  bridge_safe s -> bridge_safe (MOTOR_Backward m s).
Proof. apply bridge_safe_set_pins. discriminate. Qed.

Lemma bridge_safe_MOTOR_Stop m s :
  bridge_safe s -> bridge_safe (MOTOR_Stop m s).
Proof. apply bridge_safe_set_pins. discriminate. Qed.

Ltac bridge_peel :=
  match goal with
  | |- bridge_safe (?f ?x) =>
      let y := fresh "y" in
      let Hy := fresh "Hy" in
      cut (bridge_safe x);
      [ generalize x; intros y Hy; apply (bridge_safe_frame y);
        [reflexivity | reflexivity | exact Hy]
      | ]
  end.

Lemma bridge_safe_Save_Move s : bridge_safe s -> bridge_safe (Save_Move s).
Proof.
  intros H. unfold Save_Move. cbv zeta.
  destruct (negb _ && _)%bool; repeat bridge_peel; exact H.
Qed.

Ltac bridge_solve :=
  unfold MOTOR_SET_Direction, MOTOR_TurnLeft, MOTOR_TurnRight,
    MOTOR_BothStop, MOTOR_BothBackward, MOTOR_BothForward;
  repeat match goal with
  | |- bridge_safe ?x => is_var x; assumption
  | |- bridge_safe (if ?c then _ else _) => destruct c
  | |- bridge_safe (Save_Move _) => apply bridge_safe_Save_Move
  | |- bridge_safe (MOTOR_Forward _ _) => apply bridge_safe_MOTOR_Forward
  | |- bridge_safe (MOTOR_Backward _ _) => apply bridge_safe_MOTOR_Backward
  | |- bridge_safe (MOTOR_Stop _ _) => apply bridge_safe_MOTOR_Stop
  | |- bridge_safe _ => bridge_peel
  end.

Lemma bridge_safe_UART_Get_Cmd s :
  bridge_safe s -> bridge_safe (UART_Get_Cmd s).
Proof. intros H. unfold UART_Get_Cmd. case_ifs; bridge_solve. Qed.

Lemma bridge_safe_UART_Get_LCD_msg s :
  bridge_safe s -> bridge_safe (UART_Get_LCD_msg s).
Proof. intros H. unfold UART_Get_LCD_msg. cbv zeta. bridge_solve. Qed.

Lemma bridge_safe_Check_Connection s :
  bridge_safe s -> bridge_safe (Check_Connection s).
Proof. intros H. unfold Check_Connection. case_ifs; bridge_solve. Qed.

Lemma bridge_safe_Back_Reverse s :
  bridge_safe s -> bridge_safe (Back_Reverse s).
Proof.
  intros H. unfold Back_Reverse, WDT_RESET_MCU. cbv zeta.
  destruct (_ <? _); [bridge_solve|].
  destruct (_ =? 0); [bridge_solve|].
  destruct (negb _); bridge_solve.
Qed.

Lemma bridge_safe_Obstacle_Detection f b s :
  bridge_safe s -> bridge_safe (Obstacle_Detection f b s).
Proof.
  intros H.
  assert (Hf : forall x, bridge_safe x ->
                 bridge_safe (Obstacle_Detection_front x)).
  { intros x Hx. unfold Obstacle_Detection_front. case_ifs; bridge_solve. }
  assert (Hb : forall x, bridge_safe x ->
                 bridge_safe (Obstacle_Detection_back x)).
  { intros x Hx. unfold Obstacle_Detection_back. case_ifs; bridge_solve. }
  unfold Obstacle_Detection. cbv zeta. apply Hb, Hf. bridge_solve.
Qed.

Lemma bridge_safe_vector_11 s :
  bridge_safe s -> bridge_safe (vector_11 s).
Proof.
  intros H. unfold vector_11.
  set (x := match g_TIMER0_OVF_CallBack s with
            | Some fn_Check_Connection => Check_Connection s
            | Some fn_Back_Reverse => Back_Reverse s
            | None => s
            end).
  assert (Hx : bridge_safe x).
  { subst x. destruct (g_TIMER0_OVF_CallBack s) as [[|]|];
      auto using bridge_safe_Check_Connection, bridge_safe_Back_Reverse. }
  clearbody x. cbv zeta. destruct (mcu_reset x); bridge_solve.
Qed.

Lemma bridge_safe_vector_13 byte s :
  bridge_safe s -> bridge_safe (vector_13 byte s).
Proof.
  intros H. unfold vector_13. cbv zeta.
  destruct (_ || _)%bool; [|bridge_solve].
  match goal with
  | |- bridge_safe match g_UART_RXCallBack ?a with _ => _ end =>
      assert (Ha : bridge_safe a) by bridge_solve;
      revert Ha; generalize a; intros y Hy
  end.
  destruct (g_UART_RXCallBack y) as [[|]|];
    auto using bridge_safe_UART_Get_Cmd, bridge_safe_UART_Get_LCD_msg.
Qed.

Lemma bridge_safe_step s e : bridge_safe s -> bridge_safe (step s e).
Proof.
  intros H. unfold step. destruct (mcu_reset s); [exact H|].
  destruct e as [|byte|f b].
  - unfold timer0_tick, timer0_overflow.
    destruct (timer0_clock s); [|exact H].
    destruct (TCNT0 s =? 255); [apply bridge_safe_vector_11|]; bridge_solve.
  - destruct (uart_rx_int s); [now apply bridge_safe_vector_13|exact H].
  - now apply bridge_safe_Obstacle_Detection.
Qed.


(** ** A blocked car *)

(** X8: while FORWARD is the latest command and no direction is blocked,
    a front sample below 10 cm halts both motors, switches the Timer0
    clock off and sets [front_blocked]; the stack and the counters are
    untouched, and from then on ticks change nothing: neither the time of
    the running interval nor the heartbeat window advances while the car
    is blocked. *)
Theorem front_obstacle_freezes (s : State) (front back : Z) :
  mcu_reset s = false -> command s = FORWARD ->
  0 <= front < 10 ->
  front_blocked s = false -> back_blocked s = false ->
  let s' := step s (Sense front back) in
  halted s' /\ timer0_clock s' = false /\ front_blocked s' = true /\
  (forall n, idle n s' = s') /\
  stack s' = stack s /\ top s' = top s /\
  TCNT0 s' = TCNT0 s /\ g_TIMER0_Overflow s' = g_TIMER0_Overflow s /\
  cc_counter s' = cc_counter s /\
  g_TIMER0_OVF_CallBack s' = g_TIMER0_OVF_CallBack s.
Proof.
  intros Hr Hc Hf Hfb Hbb. cbv zeta.
  assert (Hs : step s (Sense front back)
               = set_front_blocked true
                   (TIMER0_Disable
                      (MOTOR_BothStop right_motor left_motor
                         (set_back_distance (uint16 back)
                            (set_front_distance (uint16 front) s))))).
  { unfold step. rewrite Hr. unfold Obstacle_Detection. cbv zeta.
    generalize (uint16 back). intros bk.
    unfold Obstacle_Detection_front.
    cbn [command reversed_mode front_distance front_blocked
         set_back_distance set_front_distance].
    rewrite Hc, Hfb, (uint16_small front) by lia.
    change (FORWARD =? FORWARD) with true.
    destruct (Z.ltb_spec front 10) as [_|Hbad]; [|lia].
    cbn [orb andb negb]. cbv zeta.
    unfold Obstacle_Detection_back. unfold_drivers.
    cbn [command reversed_mode back_distance back_blocked
         set_front_blocked set_timer0_clock set_right_pins set_left_pins
         set_back_distance set_front_distance].
    rewrite Hc, Hbb.
    change (FORWARD =? BACKWARD) with false.
    change (FORWARD =? REVERSE) with false.
    reflexivity. }
  rewrite Hs. unfold halted.
  split; [split; reflexivity|]. split; [reflexivity|].
  split; [reflexivity|]. split; [|repeat split; reflexivity].
  intros n. induction n as [|n IH] using N.peano_ind; [reflexivity|].
  unfold idle in *. rewrite N.iter_succ, IH.
  apply tick_frozen. reflexivity.
Qed.

(** X8 for a front sample of 5 cm while driving FORWARD after boot. *)
Lemma front_obstacle_freezes_witness :
  let s := step boot (Recv FORWARD) in
  let s' := step s (Sense 5 50) in
  halted s' /\ timer0_clock s' = false /\ front_blocked s' = true /\
  (forall n, idle n s' = s') /\
  stack s' = stack s /\ top s' = top s /\
  TCNT0 s' = TCNT0 s /\ g_TIMER0_Overflow s' = g_TIMER0_Overflow s /\
  cc_counter s' = cc_counter s /\
  g_TIMER0_OVF_CallBack s' = g_TIMER0_OVF_CallBack s.
Proof.
  cbv zeta.
  apply (front_obstacle_freezes (step boot (Recv FORWARD)) 5 50);
    try by_eval.
  lia.
Defined.

(** ** The receive buffer *)

Lemma rx_mode_frame s s' :
  length (uart_rx_buffer s') = length (uart_rx_buffer s) ->
  g_UART_RXCallBack s' = g_UART_RXCallBack s ->
  g_UART_RX_ArraySize s' = g_UART_RX_ArraySize s ->
  rx_mode s -> rx_mode s'.
Proof. unfold rx_mode. intros -> -> ->. auto. Qed.

Lemma Framing_frame s s' :
  uart_rx_buffer s' = uart_rx_buffer s ->
  g_UART_RXCallBack s' = g_UART_RXCallBack s ->
  g_UART_RX_ArraySize s' = g_UART_RX_ArraySize s ->
  g_UART_RX_Index s' = g_UART_RX_Index s ->
  Framing s -> Framing s'.
Proof. unfold Framing, rx_mode. intros -> -> -> ->. auto. Qed.

Lemma Framing_Set_RX_Callback f n s :
  length (uart_rx_buffer s) = 34%nat ->
  (f = fn_UART_Get_Cmd /\ n = 1) \/ (f = fn_UART_Get_LCD_msg /\ n = 34) ->
  Framing (UART_Set_RX_Callback f n s).
Proof.
  intros Hlen Hf. unfold Framing, rx_mode, UART_Set_RX_Callback.
  cbn [uart_rx_buffer g_UART_RXCallBack g_UART_RX_ArraySize g_UART_RX_Index
       set_g_UART_RX_Index set_g_UART_RX_ArraySize set_g_UART_RXCallBack].
  destruct Hf as [[-> ->]|[-> ->]].
  - split; [split; [exact Hlen|left; split; reflexivity]|].
    rewrite uint16_small; lia.
  - split; [split; [exact Hlen|right; split; reflexivity]|].
    rewrite uint16_small; lia.
Qed.

Ltac framing_peel :=
  match goal with
  | |- Framing (?f ?x) =>
      let y := fresh "y" in
      let Hy := fresh "Hy" in
      cut (Framing x);
      [ generalize x; intros y Hy; apply (Framing_frame y);
        [reflexivity | reflexivity | reflexivity | reflexivity | exact Hy]
      | ]
  end.

Lemma Framing_Save_Move s : Framing s -> Framing (Save_Move s).
Proof.
  intros H. unfold Save_Move. cbv zeta.
  destruct (negb _ && _)%bool; repeat framing_peel; exact H.
Qed.

Ltac framing_solve :=
  repeat match goal with
  | |- Framing ?x => is_var x; assumption
  | |- Framing (Save_Move _) => apply Framing_Save_Move
  | |- Framing _ => framing_peel
  end.

Lemma Framing_buffer_length s :
  Framing s -> length (uart_rx_buffer s) = 34%nat.
Proof. now intros [[H _] _]. Qed.

Lemma Framing_UART_Get_Cmd s : Framing s -> Framing (UART_Get_Cmd s).
Proof.
  intros H. unfold UART_Get_Cmd. cbv zeta.
  assert (Hx : Framing (set_car_connected true
                          (set_command
                             (uint8 (default 0 (uart_rx_buffer s !! 0%nat)))
                             s)))
    by framing_solve.
  revert Hx.
  generalize (set_car_connected true
                (set_command
                   (uint8 (default 0 (uart_rx_buffer s !! 0%nat))) s)).
  intros x Hx.
  repeat match goal with
         | |- context [if ?c then _ else _] => destruct c
         end;
    try (framing_solve; fail).
  apply Framing_Set_RX_Callback;
    [now apply Framing_buffer_length|right; now split].
Qed.

Lemma Framing_UART_Get_LCD_msg s :
  Framing s -> Framing (UART_Get_LCD_msg s).
Proof.
  intros H. unfold UART_Get_LCD_msg. cbv zeta. framing_peel.
  apply Framing_Set_RX_Callback; [|left; now split].
  apply Framing_buffer_length. framing_solve.
Qed.

Lemma Framing_Check_Connection s :
  Framing s -> Framing (Check_Connection s).
Proof. intros H. unfold Check_Connection. case_ifs; framing_solve. Qed.

Lemma Framing_Back_Reverse s : Framing s -> Framing (Back_Reverse s).
Proof.
  intros H. unfold Back_Reverse, MOTOR_SET_Direction. case_ifs;
    framing_solve.
Qed.

Lemma Framing_Obstacle_Detection f b s :
  Framing s -> Framing (Obstacle_Detection f b s).
Proof.
  intros H.
  assert (Hf : forall x, Framing x -> Framing (Obstacle_Detection_front x)).
  { intros x Hx. unfold Obstacle_Detection_front. case_ifs; framing_solve. }
  assert (Hb : forall x, Framing x -> Framing (Obstacle_Detection_back x)).
  { intros x Hx. unfold Obstacle_Detection_back. case_ifs; framing_solve. }
  unfold Obstacle_Detection. cbv zeta. apply Hb, Hf. framing_solve.
Qed.

Lemma Framing_vector_11 s : Framing s -> Framing (vector_11 s).
Proof.
  intros H. unfold vector_11.
  set (x := match g_TIMER0_OVF_CallBack s with
            | Some fn_Check_Connection => Check_Connection s
            | Some fn_Back_Reverse => Back_Reverse s
            | None => s
            end).
  assert (Hx : Framing x).
  { subst x. destruct (g_TIMER0_OVF_CallBack s) as [[|]|];
      auto using Framing_Check_Connection, Framing_Back_Reverse. }
  clearbody x. cbv zeta. destruct (mcu_reset x); framing_solve.
Qed.

Lemma rx_mode_size s : rx_mode s -> 1 <= g_UART_RX_ArraySize s <= 34.
Proof. intros [_ [[_ ->]|[_ ->]]]; lia. Qed.

Lemma Framing_vector_13 byte s : Framing s -> Framing (vector_13 byte s).
Proof.
  intros [Hm Hi]. pose proof (rx_mode_size s Hm) as Hsz.
  unfold vector_13. cbv zeta.
  set (x0 := set_uart_rx_buffer _ s).
  assert (Hm0 : rx_mode x0).
  { apply (rx_mode_frame s); try reflexivity; [|exact Hm].
    subst x0. cbn [uart_rx_buffer set_uart_rx_buffer]. apply length_insert. }
  assert (Hi0 : g_UART_RX_Index x0 = g_UART_RX_Index s) by reflexivity.
  assert (Hs0 : g_UART_RX_ArraySize x0 = g_UART_RX_ArraySize s)
    by reflexivity.
  clearbody x0.
  set (x1 := set_g_UART_RX_Index _ x0).
  assert (Hm1 : rx_mode x1)
    by (apply (rx_mode_frame x0); try reflexivity; exact Hm0).
  assert (Hi1 : g_UART_RX_Index x1 = g_UART_RX_Index s + 1).
  { subst x1. cbn [g_UART_RX_Index set_g_UART_RX_Index]. rewrite Hi0.
    apply uint16_small. lia. }
  assert (Hs1 : g_UART_RX_ArraySize x1 = g_UART_RX_ArraySize s)
    by exact Hs0.
  clearbody x1.
  destruct ((g_UART_RX_ArraySize x1 <=? g_UART_RX_Index x1)
            || (byte =? UART_STOPCHAR))%bool eqn:Hc.
  - set (x2 := if byte =? UART_STOPCHAR then _ else x1).
    assert (Hm2 : rx_mode x2).
    { subst x2. destruct (byte =? UART_STOPCHAR); [|exact Hm1].
      apply (rx_mode_frame x1); try reflexivity; [|exact Hm1].
      cbn [uart_rx_buffer set_uart_rx_buffer]. apply length_insert. }
    clearbody x2.
    assert (Hf : Framing (set_g_UART_RX_Index 0 x2)).
    { split.
      - apply (rx_mode_frame x2); try reflexivity. exact Hm2.
      - pose proof (rx_mode_size x2 Hm2).
        cbn [g_UART_RX_Index g_UART_RX_ArraySize set_g_UART_RX_Index]. lia. }
    revert Hf. generalize (set_g_UART_RX_Index 0 x2). intros y Hy.
    destruct (g_UART_RXCallBack y) as [[|]|];
      auto using Framing_UART_Get_Cmd, Framing_UART_Get_LCD_msg.
  - apply orb_false_elim in Hc. destruct Hc as [Hc _].
    apply Z.leb_gt in Hc. split; [exact Hm1|lia].
Qed.

Lemma Framing_step s e : Framing s -> Framing (step s e).
Proof.
  intros H. unfold step. destruct (mcu_reset s); [exact H|].
  destruct e as [|byte|f b].
  - unfold timer0_tick, timer0_overflow.
    destruct (timer0_clock s); [|exact H].
    destruct (TCNT0 s =? 255); [apply Framing_vector_11|]; framing_solve.
  - destruct (uart_rx_int s); [now apply Framing_vector_13|exact H].
  - now apply Framing_Obstacle_Detection.
Qed.

Lemma Framing_run es : forall s, Framing s -> Framing (run es s).
Proof.
  induction es as [|e es IH]; intros s H; [exact H|].
  cbn [run fold_left]. apply IH. now apply Framing_step.
Qed.

Lemma Framing_APP_Init w_ovfs w_tcnt : Framing (APP_Init w_ovfs w_tcnt).
Proof.
  unfold Framing, rx_mode.
  cbn [APP_Init uart_rx_buffer g_UART_RXCallBack g_UART_RX_ArraySize
       g_UART_RX_Index].
  split; [split; [reflexivity|left; split; reflexivity]|lia].
Qed.


(** ** An LCD message *)

Lemma UART_Get_Cmd_SEND_LCD s :
  uart_rx_buffer s !! 0%nat = Some SEND_LCD ->
  UART_Get_Cmd s
  = UART_Set_RX_Callback fn_UART_Get_LCD_msg 34
      (set_car_connected true (set_command SEND_LCD s)).
Proof.
  intros Hbuf. unfold UART_Get_Cmd. rewrite Hbuf.
  cbn [default from_option id]. change (uint8 SEND_LCD) with SEND_LCD.
  cbn [command set_command set_car_connected]. reflexivity.
Qed.

Lemma collecting_start s0 :
  mcu_reset s0 = false -> uart_rx_int s0 = true ->
  g_UART_RXCallBack s0 = Some fn_UART_Get_Cmd ->
  g_UART_RX_ArraySize s0 = 1 -> g_UART_RX_Index s0 = 0 ->
  length (uart_rx_buffer s0) = 34%nat ->
  collecting s0 (step s0 (Recv SEND_LCD)) [].
Proof.
  intros Hr Hrx Hcb Hsz Hix Hlen.
  unfold step. rewrite Hr, Hrx. unfold vector_13. cbv zeta.
  change (uint8 SEND_LCD) with SEND_LCD.
  cbn [g_UART_RX_ArraySize g_UART_RX_Index g_UART_RXCallBack
       uart_rx_buffer set_g_UART_RX_Index set_uart_rx_buffer].
  rewrite Hsz, Hix. change (uint16 (0 + 1)) with 1.
  change ((1 <=? 1) || (SEND_LCD =? UART_STOPCHAR))%bool with true.
  change (SEND_LCD =? UART_STOPCHAR) with false.
  cbn [g_UART_RXCallBack set_g_UART_RX_Index set_uart_rx_buffer].
  rewrite Hcb. change (Z.to_nat 0) with 0%nat.
  rewrite UART_Get_Cmd_SEND_LCD
    by (cbn [uart_rx_buffer set_g_UART_RX_Index set_uart_rx_buffer];
        apply list_lookup_insert_eq; lia).
  unfold collecting, drive_view, UART_Set_RX_Callback.
  cbn [mcu_reset uart_rx_int g_UART_RXCallBack g_UART_RX_ArraySize
       g_UART_RX_Index uart_rx_buffer right_pins left_pins OCR2 gear top
       stack reversed_mode buzzer TCNT0 g_TIMER0_Overflow
       g_TIMER0_OVF_CallBack lcd command car_connected
       set_g_UART_RX_Index set_g_UART_RX_ArraySize set_g_UART_RXCallBack
       set_car_connected set_command set_uart_rx_buffer].
  repeat split; try assumption; reflexivity.
Qed.

Lemma collecting_byte s0 s pre b :
  length (uart_rx_buffer s0) = 34%nat -> (length pre < 33)%nat ->
  0 <= b < 256 -> b <> UART_STOPCHAR ->
  collecting s0 s pre -> collecting s0 (step s (Recv b)) (pre ++ [b]).
Proof.
  intros Hlen Hpre Hb Hstop
    (Hr & Hrx & Hcb & Hsz & Hix & Hbuf & Hv & Hl & Hc & Ha).
  apply Z.eqb_neq in Hstop.
  unfold step. rewrite Hr, Hrx. rewrite (uint8_small b Hb).
  unfold vector_13. cbv zeta.
  cbn [g_UART_RX_ArraySize g_UART_RX_Index g_UART_RXCallBack
       uart_rx_buffer set_g_UART_RX_Index set_uart_rx_buffer].
  rewrite Hsz, Hix, Hstop.
  rewrite (uint16_small (Z.of_nat (length pre) + 1)) by lia.
  destruct (Z.leb_spec 34 (Z.of_nat (length pre) + 1)) as [Hbad|_]; [lia|].
  cbn [orb]. unfold collecting, drive_view.
  cbn [mcu_reset uart_rx_int g_UART_RXCallBack g_UART_RX_ArraySize
       g_UART_RX_Index uart_rx_buffer right_pins left_pins OCR2 gear top
       stack reversed_mode buzzer TCNT0 g_TIMER0_Overflow
       g_TIMER0_OVF_CallBack lcd command car_connected
       set_g_UART_RX_Index set_uart_rx_buffer].
  rewrite Hbuf, Nat2Z.id, length_app. cbn [length].
  split; [exact Hr|]. split; [exact Hrx|]. split; [exact Hcb|].
  split; [exact Hsz|]. split; [lia|]. split; [|auto].
  assert (Hd : (length pre
                < length (<[0%nat := SEND_LCD]> (uart_rx_buffer s0)))%nat)
    by (rewrite length_insert; lia).
  destruct (drop (length pre) (<[0%nat := SEND_LCD]> (uart_rx_buffer s0)))
    as [|c rest] eqn:E.
  { apply (f_equal length) in E. rewrite length_drop in E. cbn in E. lia. }
  assert (Hrest : drop (length pre + 1)
                    (<[0%nat := SEND_LCD]> (uart_rx_buffer s0)) = rest)
    by (rewrite <- drop_drop, E; reflexivity).
  rewrite Hrest, insert_app_r_alt by lia. rewrite Nat.sub_diag.
  cbn [insert]. now rewrite <- app_assoc.
Qed.

Lemma collecting_run s0 msg :
  length (uart_rx_buffer s0) = 34%nat ->
  Forall (fun b => 0 <= b < 256 /\ b <> UART_STOPCHAR) msg ->
  forall s pre, (length pre + length msg < 34)%nat ->
  collecting s0 s pre ->
  collecting s0 (run (map Recv msg) s) (pre ++ msg).
Proof.
  intros Hlen Hmsg. induction Hmsg as [|b msg [Hb Hstop] _ IH];
    intros s pre Hfit Hc.
  - now rewrite app_nil_r.
  - cbn [map run fold_left]. cbn [length] in Hfit.
    replace (pre ++ b :: msg) with ((pre ++ [b]) ++ msg)
      by now rewrite <- app_assoc.
    apply IH; [rewrite length_app; cbn [length]; lia|].
    apply collecting_byte; auto. lia.
Qed.

Lemma collecting_stop s0 s pre :
  (length pre <= 32)%nat -> length (uart_rx_buffer s0) = 34%nat ->
  collecting s0 s pre ->
  let s' := step s (Recv UART_STOPCHAR) in
  lcd s'
  = LCD_PrintString_call
      (pre ++ [UART_STOPCHAR; UART_STOPCHAR]
         ++ drop (length pre + 2)
              (<[0%nat := SEND_LCD]> (uart_rx_buffer s0)))
    :: LCD_ClearScreen_call :: lcd s0 /\
  g_UART_RXCallBack s' = Some fn_UART_Get_Cmd /\
  g_UART_RX_ArraySize s' = 1 /\ g_UART_RX_Index s' = 0 /\
  uart_rx_int s' = true /\ mcu_reset s' = false /\
  car_connected s' = true /\ command s' = SEND_LCD /\
  drive_view s' = drive_view s0.
Proof.
  intros Hpre Hlen (Hr & Hrx & Hcb & Hsz & Hix & Hbuf & Hv & Hl & Hc & Ha).
  cbv zeta. unfold step. rewrite Hr, Hrx.
  change (uint8 UART_STOPCHAR) with UART_STOPCHAR.
  unfold vector_13. cbv zeta.
  change (UART_STOPCHAR =? UART_STOPCHAR) with true.
  rewrite orb_true_r.
  cbn [g_UART_RX_Index g_UART_RXCallBack uart_rx_buffer
       set_g_UART_RX_Index set_uart_rx_buffer].
  rewrite Hcb, Hix.
  rewrite (uint16_small (Z.of_nat (length pre) + 1)) by lia.
  unfold UART_Get_LCD_msg, UART_Set_RX_Callback, LCD_PrintString,
    LCD_ClearScreen, drive_view.
  cbv zeta.
  cbn [mcu_reset uart_rx_int g_UART_RXCallBack g_UART_RX_ArraySize
       g_UART_RX_Index uart_rx_buffer right_pins left_pins OCR2 gear top
       stack reversed_mode buzzer TCNT0 g_TIMER0_Overflow
       g_TIMER0_OVF_CallBack lcd command car_connected
       set_g_UART_RX_Index set_g_UART_RX_ArraySize set_g_UART_RXCallBack
       set_car_connected set_lcd set_uart_rx_buffer].
  rewrite Hl, Hbuf. change (uint16 1) with 1.
  split; [|repeat split; assumption].
  f_equal. f_equal.
  replace (Z.to_nat (Z.of_nat (length pre) + 1)) with (length pre + 1)%nat
    by lia.
  rewrite Nat2Z.id.
  assert (Hd : (length pre + 1
                < length (<[0%nat := SEND_LCD]> (uart_rx_buffer s0)))%nat)
    by (rewrite length_insert; lia).
  destruct (drop (length pre) (<[0%nat := SEND_LCD]> (uart_rx_buffer s0)))
    as [|c0 [|c1 rest]] eqn:E;
    try (apply (f_equal length) in E; rewrite length_drop in E; cbn in E;
         lia).
  assert (Hrest : drop (length pre + 2)
                    (<[0%nat := SEND_LCD]> (uart_rx_buffer s0)) = rest)
    by (rewrite <- drop_drop, E; reflexivity).
  rewrite Hrest.
  rewrite (insert_app_r_alt pre (c0 :: c1 :: rest) (length pre)) by lia.
  rewrite Nat.sub_diag. cbn [insert].
  rewrite (insert_app_r_alt pre _ (length pre + 1)) by lia.
  replace (length pre + 1 - length pre)%nat with 1%nat by lia.
  reflexivity.
Qed.

(** X10: in command mode, SEND_LCD followed by up to 32 bytes other than
    ':' and then ':' clears the LCD and calls [LCD_PrintString] on the
    receive buffer, which then holds the message followed by two stop
    characters (and the older content after them); the receiver is back in
    command mode, the alive flag is set and [command] is SEND_LCD.  None
    of the message bytes is executed as a command: motors, PWM, gear,
    move stack, buzzer and Timer0 are as before. *)
Theorem LCD_message_is_displayed (s : State) (msg : list Z) :
  mcu_reset s = false -> uart_rx_int s = true ->
  g_UART_RXCallBack s = Some fn_UART_Get_Cmd ->
  g_UART_RX_ArraySize s = 1 -> g_UART_RX_Index s = 0 ->
  length (uart_rx_buffer s) = 34%nat ->
  Forall (fun b => 0 <= b < 256 /\ b <> UART_STOPCHAR) msg ->
  (length msg <= 32)%nat ->
  let s' :=
    run (Recv SEND_LCD :: map Recv msg ++ [Recv UART_STOPCHAR]) s in
  lcd s'
  = LCD_PrintString_call
      (msg ++ [UART_STOPCHAR; UART_STOPCHAR]
         ++ drop (length msg + 2)
              (<[0%nat := SEND_LCD]> (uart_rx_buffer s)))
    :: LCD_ClearScreen_call :: lcd s /\
  g_UART_RXCallBack s' = Some fn_UART_Get_Cmd /\
  g_UART_RX_ArraySize s' = 1 /\ g_UART_RX_Index s' = 0 /\
  uart_rx_int s' = true /\ mcu_reset s' = false /\
  car_connected s' = true /\ command s' = SEND_LCD /\
  drive_view s' = drive_view s.
Proof.
  intros Hr Hrx Hcb Hsz Hix Hlen Hmsg Hfit. cbv zeta.
  cbn [run fold_left]. unfold run. rewrite fold_left_app.
  cbn [fold_left]. fold (run (map Recv msg) (step s (Recv SEND_LCD))).
  apply (collecting_stop s _ msg Hfit Hlen).
  apply (collecting_run s msg Hlen Hmsg _ []);
    [cbn [length]; lia|].
  now apply collecting_start.
Qed.

(** X10 for the message "Hi" sent right after boot. *)
Lemma LCD_message_is_displayed_witness :
  let s' :=
    run (Recv SEND_LCD :: map Recv [72; 105] ++ [Recv UART_STOPCHAR]) boot in
  lcd s'
  = LCD_PrintString_call
      ([72; 105] ++ [UART_STOPCHAR; UART_STOPCHAR]
         ++ drop (length [72; 105] + 2)
              (<[0%nat := SEND_LCD]> (uart_rx_buffer boot)))
    :: LCD_ClearScreen_call :: lcd boot /\
  g_UART_RXCallBack s' = Some fn_UART_Get_Cmd /\
  g_UART_RX_ArraySize s' = 1 /\ g_UART_RX_Index s' = 0 /\
  uart_rx_int s' = true /\ mcu_reset s' = false /\
  car_connected s' = true /\ command s' = SEND_LCD /\
  drive_view s' = drive_view boot.
Proof.
  cbv zeta.
  apply (LCD_message_is_displayed boot [72; 105]); try reflexivity.
  - repeat constructor; (lia || discriminate).
  - cbn [length]. lia.
Defined.

(** ** The EEPROM driver *)

Lemma WriteByte_cell address data m a :
  0 <= address < EEPROM_SIZE ->
  EEPROM_WriteByte address data m a
  = if a =? address then uint8 data else m a.
Proof.
  intros H. unfold EEPROM_WriteByte, EEPROM_SIZE in *. cbv zeta.
  rewrite (uint16_small address) by lia.
  destruct (address <? 1024) eqn:E; [reflexivity|].
  apply Z.ltb_ge in E. lia.
Qed.

Ltac z_cases :=
  repeat match goal with
  | |- context [?x <=? ?y] => destruct (Z.leb_spec x y)
  | |- context [?x <? ?y] => destruct (Z.ltb_spec x y)
  | |- context [?x =? ?y] => destruct (Z.eqb_spec x y)
  end; cbn [andb orb negb].

Lemma write_loop_cell address (data : list Z) n :
  forall i m a,
  0 <= address -> 0 <= i ->
  address + i + Z.of_nat n <= EEPROM_SIZE ->
  for_loop n i
    (fun byte m =>
       EEPROM_WriteByte (address + byte)
         (default 0 (data !! Z.to_nat byte)) m) m a
  = if (address + i <=? a) && (a <? address + i + Z.of_nat n)
    then uint8 (default 0 (data !! Z.to_nat (a - address)))
    else m a.
Proof.
  induction n as [|n IH]; intros i m a Ha Hi Hn.
  - cbn [for_loop]. z_cases; (reflexivity || lia).
  - cbn [for_loop]. rewrite IH by lia.
    rewrite WriteByte_cell by (unfold EEPROM_SIZE in *; lia).
    z_cases; try reflexivity; try lia.
    subst a. replace (address + i - address) with i by lia. reflexivity.
Qed.

Lemma read_loop_lookup address m n :
  forall i (d : list Z) (j : nat),
  0 <= i ->
  for_loop n i
    (fun byte data =>
       <[Z.to_nat byte := EEPROM_ReadByte (address + byte) m]> data) d
    !! j
  = if (i <=? Z.of_nat j) && (Z.of_nat j <? i + Z.of_nat n)
       && (j <? length d)%nat
    then Some (EEPROM_ReadByte (address + Z.of_nat j) m)
    else d !! j.
Proof.
  induction n as [|n IH]; intros i d j Hi.
  - cbn [for_loop]. z_cases; (reflexivity || lia).
  - cbn [for_loop]. rewrite IH by lia. rewrite length_insert.
    destruct (Nat.ltb_spec j (length d)) as [Hj|Hj].
    + destruct (Z.eq_dec (Z.of_nat j) i) as [E|E].
      * subst i. rewrite Nat2Z.id.
        rewrite list_lookup_insert_eq by lia.
        z_cases; try reflexivity; lia.
      * rewrite list_lookup_insert_ne by lia.
        z_cases; try reflexivity; lia.
    + rewrite !andb_false_r.
      rewrite !lookup_ge_None_2; [reflexivity|lia|rewrite length_insert; lia].
Qed.

(** X11: [EEPROM_ReadByte] returns the byte last written to a valid
    address by [EEPROM_WriteByte] and a write changes no other cell; at an
    address from EEPROM_SIZE on a write changes nothing and a read
    returns 0. *)
Theorem EEPROM_byte_write_read (address data : Z) (m : eeprom) :
  0 <= address < 65536 ->
  (address < EEPROM_SIZE ->
     EEPROM_ReadByte address (EEPROM_WriteByte address data m) = uint8 data) /\
  (EEPROM_SIZE <= address ->
     EEPROM_WriteByte address data m = m /\ EEPROM_ReadByte address m = 0) /\
  (forall other, 0 <= other < 65536 -> other <> address ->
     EEPROM_ReadByte other (EEPROM_WriteByte address data m)
     = EEPROM_ReadByte other m).
Proof.
  intros Ha. unfold EEPROM_ReadByte, EEPROM_WriteByte. cbv zeta.
  rewrite (uint16_small address Ha). split; [|split].
  - intros Hv. z_cases; (reflexivity || lia).
  - intros Hv. z_cases; try lia. now split.
  - intros other Ho Hne. rewrite (uint16_small other Ho).
    z_cases; (reflexivity || lia).
Qed.

(** X11 for the password flag at address 0x20 of an erased EEPROM. *)
Lemma EEPROM_byte_write_read_witness :
  (32 < EEPROM_SIZE ->
     EEPROM_ReadByte 32 (EEPROM_WriteByte 32 0 erased) = uint8 0) /\
  (EEPROM_SIZE <= 32 ->
     EEPROM_WriteByte 32 0 erased = erased /\ EEPROM_ReadByte 32 erased = 0) /\
  (forall other, 0 <= other < 65536 -> other <> 32 ->
     EEPROM_ReadByte other (EEPROM_WriteByte 32 0 erased)
     = EEPROM_ReadByte other erased).
Proof. apply (EEPROM_byte_write_read 32 0 erased). lia. Defined.

Lemma WriteArray_cell address (data : list Z) n m a :
  0 <= address -> 0 <= n < 256 -> address + n <= EEPROM_SIZE ->
  EEPROM_WriteArray address (Some data) n m a
  = if (address <=? a) && (a <? address + n)
    then uint8 (default 0 (data !! Z.to_nat (a - address)))
    else m a.
Proof.
  intros Ha Hn Hfit. unfold EEPROM_WriteArray. cbv zeta.
  unfold EEPROM_SIZE in *.
  rewrite (uint16_small address), (uint8_small n) by lia.
  rewrite (uint16_small (address + n)) by lia.
  destruct (Z.ltb_spec 1024 (address + n)); [lia|].
  rewrite write_loop_cell by (unfold EEPROM_SIZE; lia).
  rewrite Z.add_0_r, Z2Nat.id by lia. reflexivity.
Qed.

(** X12: an array of bytes written by [EEPROM_WriteArray] inside the
    EEPROM is read back unchanged by [EEPROM_ReadArray] with the same
    address and size; the cells of the destination beyond the size are
    left as they were. *)
Theorem EEPROM_array_round_trip (address : Z) (data dest : list Z)
    (m : eeprom) :
  0 <= address ->
  address + Z.of_nat (length data) <= EEPROM_SIZE ->
  (length data <= 255)%nat ->
  (length data <= length dest)%nat ->
  Forall (fun x => 0 <= x < 256) data ->
  EEPROM_ReadArray address (Some dest) (Z.of_nat (length data))
    (EEPROM_WriteArray address (Some data) (Z.of_nat (length data)) m)
  = Some (data ++ drop (length data) dest).
Proof.
  intros Ha Hfit Hn Hd Hbytes.
  unfold EEPROM_ReadArray. cbv zeta. unfold EEPROM_SIZE in *.
  rewrite (uint16_small address), (uint8_small (Z.of_nat (length data)))
    by lia.
  rewrite (uint16_small (address + Z.of_nat (length data))) by lia.
  destruct (Z.ltb_spec 1024 (address + Z.of_nat (length data))); [lia|].
  f_equal. apply list_eq. intros j.
  rewrite read_loop_lookup by lia. rewrite Nat2Z.id.
  destruct (Nat.lt_ge_cases j (length data)) as [Hj|Hj].
  - rewrite lookup_app_l by exact Hj.
    destruct (lookup_lt_is_Some_2 data j Hj) as [x Hx].
    replace ((0 <=? Z.of_nat j) && (Z.of_nat j <? 0 + Z.of_nat (length data))
             && (j <? length dest)%nat)
      with true
      by (symmetry; destruct (Nat.ltb_spec j (length dest)); z_cases;
          (reflexivity || lia)).
    rewrite Hx. f_equal.
    unfold EEPROM_ReadByte. cbv zeta.
    rewrite (uint16_small (address + Z.of_nat j)) by lia.
    destruct (Z.ltb_spec (address + Z.of_nat j) EEPROM_SIZE);
      [|unfold EEPROM_SIZE in *; lia].
    rewrite WriteArray_cell by (unfold EEPROM_SIZE; lia).
    replace (address + Z.of_nat j - address) with (Z.of_nat j) by lia.
    rewrite Nat2Z.id, Hx. cbn [default from_option id].
    z_cases; try lia. apply uint8_small.
    eapply Forall_lookup_1 in Hbytes; [exact Hbytes|exact Hx].
  - rewrite lookup_app_r by exact Hj. rewrite lookup_drop.
    replace (length data + (j - length data))%nat with j by lia.
    replace ((0 <=? Z.of_nat j) && (Z.of_nat j <? 0 + Z.of_nat (length data))
             && (j <? length dest)%nat)
      with false; [reflexivity|].
    symmetry. destruct (Nat.ltb_spec j (length dest)); z_cases;
      (reflexivity || lia).
Qed.

(** X12 for the four password bytes at address 0x21. *)
Lemma EEPROM_array_round_trip_witness :
  EEPROM_ReadArray 33 (Some [0; 0; 0; 0])
    (Z.of_nat (length [49; 50; 51; 52]))
    (EEPROM_WriteArray 33 (Some [49; 50; 51; 52])
       (Z.of_nat (length [49; 50; 51; 52])) erased)
  = Some ([49; 50; 51; 52] ++ drop (length [49; 50; 51; 52]) [0; 0; 0; 0]).
Proof.
  apply (EEPROM_array_round_trip 33 [49; 50; 51; 52] [0; 0; 0; 0] erased).
  - lia.
  - cbn [length]. unfold EEPROM_SIZE. lia.
  - cbn [length]. lia.
  - cbn [length]. lia.
  - repeat constructor; lia.
Defined.

(** X13: the array functions are all or nothing.  When
    address + array_size exceeds EEPROM_SIZE (and stays below 65536)
    [EEPROM_WriteArray] writes no cell and [EEPROM_ReadArray] leaves the
    destination untouched; otherwise the write changes no cell outside
    address .. address + array_size - 1. *)
Theorem EEPROM_array_bounds (address n : Z) (data : list Z) (m : eeprom) :
  0 <= address -> 0 <= n < 256 -> address + n < 65536 ->
  (EEPROM_SIZE < address + n ->
     EEPROM_WriteArray address (Some data) n m = m /\
     forall dest, EEPROM_ReadArray address (Some dest) n m = Some dest) /\
  (address + n <= EEPROM_SIZE ->
     forall a, ~ address <= a < address + n ->
       EEPROM_WriteArray address (Some data) n m a = m a).
Proof.
  intros Ha Hn Hw. split.
  - intros Hbig. unfold EEPROM_WriteArray, EEPROM_ReadArray. cbv zeta.
    rewrite (uint16_small address), (uint8_small n) by lia.
    rewrite (uint16_small (address + n)) by lia.
    destruct (Z.ltb_spec EEPROM_SIZE (address + n)); [|lia]. now split.
  - intros Hfit a Hout. rewrite WriteArray_cell by assumption.
    z_cases; (reflexivity || lia).
Qed.

(** X13 for four bytes at address 1022, two cells before the end. *)
Lemma EEPROM_array_bounds_witness :
  (EEPROM_SIZE < 1022 + 4 ->
     EEPROM_WriteArray 1022 (Some [1; 2; 3; 4]) 4 erased = erased /\
     forall dest, EEPROM_ReadArray 1022 (Some dest) 4 erased = Some dest) /\
  (1022 + 4 <= EEPROM_SIZE ->
     forall a, ~ 1022 <= a < 1022 + 4 ->
       EEPROM_WriteArray 1022 (Some [1; 2; 3; 4]) 4 erased a = erased a).
Proof. apply (EEPROM_array_bounds 1022 4 [1; 2; 3; 4] erased); lia. Defined.

Lemma WriteByte_cell_wrapped address byte data m a :
  65536 <= address + byte < 65536 + EEPROM_SIZE ->
  EEPROM_WriteByte (address + byte) data m a
  = if a =? address + byte - 65536 then uint8 data else m a.
Proof.
  intros H. unfold EEPROM_WriteByte, EEPROM_SIZE in *. cbv zeta.
  assert (Hu : uint16 (address + byte) = address + byte - 65536).
  { unfold uint16. symmetry. apply (Z.mod_unique _ _ 1); lia. }
  rewrite Hu. destruct (Z.ltb_spec (address + byte - 65536) 1024); [|lia].
  reflexivity.
Qed.

Lemma WriteByte_cell_beyond address byte data m :
  EEPROM_SIZE <= address + byte < 65536 ->
  EEPROM_WriteByte (address + byte) data m = m.
Proof.
  intros H. unfold EEPROM_WriteByte, EEPROM_SIZE in *. cbv zeta.
  rewrite uint16_small by lia.
  destruct (Z.ltb_spec (address + byte) 1024); [lia|reflexivity].
Qed.

Lemma write_loop_wrapped address (data : list Z) n :
  forall i m a,
  EEPROM_SIZE <= address < 65536 -> 0 <= i ->
  i + Z.of_nat n <= 255 -> 0 <= a < EEPROM_SIZE ->
  for_loop n i
    (fun byte m =>
       EEPROM_WriteByte (address + byte)
         (default 0 (data !! Z.to_nat byte)) m) m a
  = if (address + i <=? a + 65536) && (a + 65536 <? address + i + Z.of_nat n)
    then uint8 (default 0 (data !! Z.to_nat (a + 65536 - address)))
    else m a.
Proof.
  induction n as [|n IH]; intros i m a Ha Hi Hn Hcell.
  - cbn [for_loop]. z_cases; (reflexivity || lia).
  - cbn [for_loop]. rewrite IH by lia.
    unfold EEPROM_SIZE in *.
    destruct (Z.lt_ge_cases (address + i) 65536) as [Hlow|Hhigh].
    + rewrite WriteByte_cell_beyond by (unfold EEPROM_SIZE; lia).
      z_cases; try reflexivity; lia.
    + rewrite WriteByte_cell_wrapped by (unfold EEPROM_SIZE; lia).
      z_cases; try reflexivity; try lia.
      subst a. replace (address + i - 65536 + 65536 - address) with i by lia.
      reflexivity.
Qed.

(** X14: the guard of [EEPROM_WriteArray] adds [address] and
    [array_size] in 16 bits.  When the sum reaches 65536 it wraps below
    EEPROM_SIZE, the request is accepted, and the bytes whose address
    wraps are written to the cells from 0 on. *)
Theorem EEPROM_array_guard_wraps (address n : Z) (data : list Z)
    (m : eeprom) (a : Z) :
  0 <= address < 65536 -> 0 <= n < 256 -> 65536 <= address + n ->
  0 <= a < address + n - 65536 ->
  EEPROM_WriteArray address (Some data) n m a
  = uint8 (default 0 (data !! Z.to_nat (a + 65536 - address))).
Proof.
  intros Ha Hn Hwrap Hcell. unfold EEPROM_WriteArray. cbv zeta.
  rewrite (uint16_small address), (uint8_small n) by lia.
  assert (Hu : uint16 (address + n) = address + n - 65536).
  { unfold uint16. symmetry. apply (Z.mod_unique _ _ 1); lia. }
  rewrite Hu. unfold EEPROM_SIZE.
  destruct (Z.ltb_spec 1024 (address + n - 65536)); [lia|].
  rewrite write_loop_wrapped by (unfold EEPROM_SIZE; lia).
  rewrite Z2Nat.id by lia. z_cases; (reflexivity || lia).
Qed.

(** X14 for two bytes at address 65535: the second lands in cell 0. *)
Lemma EEPROM_array_guard_wraps_witness :
  EEPROM_WriteArray 65535 (Some [7; 9]) 2 erased 0
  = uint8 (default 0 ([7; 9] !! Z.to_nat (0 + 65536 - 65535))).
Proof. apply (EEPROM_array_guard_wraps 65535 2 [7; 9] erased 0); lia. Defined.

(** ** The password lock *)

Import Lock.
Local Open Scope lock_scope.

Ltac lock_unfold :=
  unfold Check_Pass, APP_Init, Save_pass, Keypad_Get_Pass, Is_Pass_Valid,
    wait_for_key, KEYPAD_GetPressedKey, store, get_array, SERVO_SetAngle,
    LCD_SetCursor, LCD_PrintCharacter, LCD_PrintString, LCD_ClearScreen,
    bind, ret, PASS_SIZE, KEYPAD_NOT_PRESSED in *.

Lemma Keypad_Get_Pass_reads p b k1 k2 k3 k4 rest :
  keypad b = k1 :: k2 :: k3 :: k4 :: rest ->
  k1 <> 255 -> k2 <> 255 -> k3 <> 255 -> k4 <> 255 ->
  length (get_array p b) = 4%nat ->
  exists l,
    Keypad_Get_Pass p b
    = Some (tt, match p with
                | to_input_pass =>
                    mkBox [k1; k2; k3; k4] (pass b) (memory b) (servo b) l rest
                | to_pass =>
                    mkBox (input_pass b) [k1; k2; k3; k4] (memory b) (servo b)
                      l rest
                end).
Proof.
  intros Hk H1 H2 H3 H4 Hlen.
  apply Z.eqb_neq in H1, H2, H3, H4.
  destruct b as [ip ps m sv l ks]. cbn in Hk. subst ks.
  destruct p; cbn in Hlen.
  - destruct ip as [|a0 [|a1 [|a2 [|a3 [|]]]]]; try discriminate.
    lock_unfold. cbv -[Z.eqb]. rewrite H1. cbv -[Z.eqb]. rewrite H2.
    cbv -[Z.eqb]. rewrite H3. cbv -[Z.eqb]. rewrite H4. cbv -[Z.eqb].
    eexists. reflexivity.
  - destruct ps as [|a0 [|a1 [|a2 [|a3 [|]]]]]; try discriminate.
    lock_unfold. cbv -[Z.eqb]. rewrite H1. cbv -[Z.eqb]. rewrite H2.
    cbv -[Z.eqb]. rewrite H3. cbv -[Z.eqb]. rewrite H4. cbv -[Z.eqb].
    eexists. reflexivity.
Qed.

Lemma Is_Pass_Valid_result b :
  length (input_pass b) = 4%nat -> length (pass b) = 4%nat ->
  exists l,
    Is_Pass_Valid b
    = Some (bool_decide (input_pass b = pass b),
            mkBox (input_pass b) (pass b) (memory b) (servo b) l (keypad b)).
Proof.
  intros Hi Hp. destruct b as [ip ps m sv l ks]. cbn in Hi, Hp.
  destruct ip as [|a0 [|a1 [|a2 [|a3 [|]]]]]; try discriminate.
  destruct ps as [|b0 [|b1 [|b2 [|b3 [|]]]]]; try discriminate.
  cbn [input_pass pass memory servo keypad].
  remember (bool_decide ([a0; a1; a2; a3] = [b0; b1; b2; b3])) as v eqn:Hv.
  lock_unfold. cbv -[Z.eqb].
  destruct (Z.eqb_spec a0 b0) as [E0|N0];
    [|rewrite bool_decide_eq_false_2 in Hv by congruence; subst v;
      eexists; reflexivity].
  destruct (Z.eqb_spec a1 b1) as [E1|N1];
    [|rewrite bool_decide_eq_false_2 in Hv by congruence; subst v;
      eexists; reflexivity].
  destruct (Z.eqb_spec a2 b2) as [E2|N2];
    [|rewrite bool_decide_eq_false_2 in Hv by congruence; subst v;
      eexists; reflexivity].
  destruct (Z.eqb_spec a3 b3) as [E3|N3];
    [|rewrite bool_decide_eq_false_2 in Hv by congruence; subst v;
      eexists; reflexivity].
  rewrite bool_decide_eq_true_2 in Hv by congruence. subst v.
  eexists. reflexivity.
Qed.

Lemma bind_Some {A B : Type} (m : M A) (k : A -> M B) b a b' :
  m b = Some (a, b') -> bind m k b = k a b'.
Proof. unfold bind. now intros ->. Qed.

Lemma Save_pass_result b :
  exists l,
    Save_pass to_pass b
    = Some (tt, mkBox (input_pass b) (pass b)
                  (EEPROM_WriteArray PASS_ADDRESS (Some (pass b)) 4
                     (memory b))
                  (servo b) l (keypad b)).
Proof. eexists. reflexivity. Qed.

Lemma saved_cells (k1 k2 k3 k4 : Z) (m : eeprom) :
  0 <= k1 < 256 -> 0 <= k2 < 256 -> 0 <= k3 < 256 -> 0 <= k4 < 256 ->
  let m' := EEPROM_WriteArray PASS_ADDRESS (Some [k1; k2; k3; k4]) 4 m in
  m' 33 = k1 /\ m' 34 = k2 /\ m' 35 = k3 /\ m' 36 = k4 /\
  forall a, ~ 33 <= a < 37 -> m' a = m a.
Proof.
  intros H1 H2 H3 H4. cbv zeta. unfold PASS_ADDRESS.
  assert (Hc : forall a,
             EEPROM_WriteArray 33 (Some [k1; k2; k3; k4]) 4 m a
             = if (33 <=? a) && (a <? 33 + 4)
               then uint8 (default 0 ([k1; k2; k3; k4] !! Z.to_nat (a - 33)))
               else m a).
  { intros a. apply WriteArray_cell; unfold EEPROM_SIZE; lia. }
  repeat split.
  - rewrite Hc. cbn. now apply uint8_small.
  - rewrite Hc. cbn. now apply uint8_small.
  - rewrite Hc. cbn. now apply uint8_small.
  - rewrite Hc. cbn. now apply uint8_small.
  - intros a Ha. rewrite Hc. z_cases; (reflexivity || lia).
Qed.

(** Reset with a saved password: the password is loaded from the EEPROM
    and no key is asked for. *)
Lemma APP_Init_load (m : eeprom) (ks : list Z) :
  m 32 <> 255 ->
  exists l,
    APP_Init (power_on m ks)
    = Some (tt, mkBox [0; 0; 0; 0] [m 33; m 34; m 35; m 36] m (-90) l ks).
Proof.
  intros H. apply Z.eqb_neq in H.
  unfold APP_Init, APP_Init_password, power_on. lock_unfold.
  unfold EEPROM_ReadArray, EEPROM_ReadByte, PASS_STATUS_ADDRESS, NO_PASS,
    PASS_ADDRESS.
  cbv -[Z.eqb]. rewrite H. eexists. reflexivity.
Qed.

(** X15: first boot and every later one.  With the password flag erased
    (0xFF), [APP_Init] closes the box, takes the next four keys as the
    password and stores them and the flag in EEPROM cells 0x20 .. 0x24
    only; after any later reset [APP_Init] loads the same password from
    the EEPROM without reading a key. *)
Theorem APP_Init_first_boot (m : eeprom) (k1 k2 k3 k4 : Z) (rest : list Z) :
  m 32 = 255 ->
  0 <= k1 < 255 -> 0 <= k2 < 255 -> 0 <= k3 < 255 -> 0 <= k4 < 255 ->
  exists b,
    APP_Init (power_on m (k1 :: k2 :: k3 :: k4 :: rest)) = Some (tt, b) /\
    pass b = [k1; k2; k3; k4] /\ keypad b = rest /\ servo b = -90 /\
    (forall a, ~ 32 <= a < 37 -> memory b a = m a) /\
    forall ks, exists b',
      APP_Init (power_on (memory b) ks) = Some (tt, b') /\
      pass b' = [k1; k2; k3; k4] /\ keypad b' = ks /\ servo b' = -90.
Proof.
  intros Hm H1 H2 H3 H4.
  set (ks := k1 :: k2 :: k3 :: k4 :: rest).
  set (b0 := mkBox [0; 0; 0; 0] [0; 0; 0; 0] m (-90)
               [ClearScreen; PrintString "HELLO!"%string; SetCursor 0 5] ks).
  destruct (Keypad_Get_Pass_reads to_pass b0 k1 k2 k3 k4 rest eq_refl
              ltac:(lia) ltac:(lia) ltac:(lia) ltac:(lia) eq_refl)
    as [l Hget].
  cbn [input_pass memory servo b0] in Hget.
  set (b1 := mkBox [0; 0; 0; 0] [k1; k2; k3; k4] m (-90) l rest) in Hget.
  destruct (Save_pass_result b1) as [l' Hsave].
  cbn [input_pass pass memory servo keypad b1] in Hsave.
  destruct (saved_cells k1 k2 k3 k4 m ltac:(lia) ltac:(lia) ltac:(lia)
              ltac:(lia)) as (C1 & C2 & C3 & C4 & Cother).
  revert Hsave C1 C2 C3 C4 Cother.
  generalize (EEPROM_WriteArray PASS_ADDRESS (Some [k1; k2; k3; k4]) 4 m).
  intros m1 Hsave C1 C2 C3 C4 Cother.
  set (m2 := EEPROM_WriteByte PASS_STATUS_ADDRESS PASS_SAVED m1).
  assert (Hm2 : forall a, m2 a = if a =? 32 then 0 else m1 a).
  { intros a. unfold m2. rewrite WriteByte_cell
      by (unfold PASS_STATUS_ADDRESS, EEPROM_SIZE; lia).
    reflexivity. }
  assert (Hrun : APP_Init (power_on m ks)
                 = Some (tt, mkBox [0; 0; 0; 0] [k1; k2; k3; k4] m2 (-90) l'
                               rest)).
  { change (APP_Init (power_on m ks)) with (APP_Init_password b0).
    unfold APP_Init_password.
    assert (Hflag : (EEPROM_ReadByte PASS_STATUS_ADDRESS (memory b0)
                     =? NO_PASS) = true).
    { unfold EEPROM_ReadByte, PASS_STATUS_ADDRESS, NO_PASS. cbv -[Z.eqb].
      now apply Z.eqb_eq. }
    rewrite Hflag.
    rewrite (bind_Some _ _ _ _ _ Hget), (bind_Some _ _ _ _ _ Hsave).
    reflexivity. }
  eexists. split; [exact Hrun|]. cbn [pass keypad servo memory].
  repeat split.
  - intros a Ha. rewrite Hm2. z_cases; [lia|]. apply Cother. lia.
  - intros ks'.
    destruct (APP_Init_load m2 ks') as [l2 Hload].
    { rewrite Hm2. cbn. lia. }
    eexists. split; [exact Hload|]. cbn [pass keypad servo].
    rewrite !Hm2. cbn. rewrite C1, C2, C3, C4. auto.
Qed.

(** X15 for the keys 1, 2, 3, 4 typed on an erased EEPROM. *)
Lemma APP_Init_first_boot_witness :
  exists b,
    APP_Init (power_on erased [49; 50; 51; 52]) = Some (tt, b) /\
    pass b = [49; 50; 51; 52] /\ keypad b = [] /\ servo b = -90 /\
    (forall a, ~ 32 <= a < 37 -> memory b a = erased a) /\
    forall ks, exists b',
      APP_Init (power_on (memory b) ks) = Some (tt, b') /\
      pass b' = [49; 50; 51; 52] /\ keypad b' = ks /\ servo b' = -90.
Proof.
  apply (APP_Init_first_boot erased 49 50 51 52 []); (reflexivity || lia).
Defined.

(** X16: a key other than '*' wakes the lock and is not part of the
    code; the box is opened (servo at 90) exactly when the next four keys
    equal the stored password, and neither the password nor the EEPROM
    changes. *)
Theorem Check_Pass_opens_box (b : Box) (key k1 k2 k3 k4 : Z)
    (rest : list Z) :
  keypad b = key :: k1 :: k2 :: k3 :: k4 :: rest ->
  key <> 255 -> key <> 42 ->
  k1 <> 255 -> k2 <> 255 -> k3 <> 255 -> k4 <> 255 ->
  length (input_pass b) = 4%nat -> length (pass b) = 4%nat ->
  exists b',
    Check_Pass b = Some (tt, b') /\
    keypad b' = rest /\ pass b' = pass b /\ memory b' = memory b /\
    servo b'
    = if bool_decide ([k1; k2; k3; k4] = pass b) then 90 else servo b.
Proof.
  intros Hk Hkey Hstar H1 H2 H3 H4 Hi Hp.
  apply Z.eqb_neq in Hkey, Hstar.
  set (b1 := mkBox (input_pass b) (pass b) (memory b) (servo b) (lcd b)
               (k1 :: k2 :: k3 :: k4 :: rest)).
  assert (Hread : KEYPAD_GetPressedKey b = Some (key, b1))
    by (unfold KEYPAD_GetPressedKey; now rewrite Hk).
  destruct (Keypad_Get_Pass_reads to_input_pass b1 k1 k2 k3 k4 rest
              eq_refl H1 H2 H3 H4 Hi) as [l Hget].
  cbn [pass memory servo b1] in Hget.
  set (b2 := mkBox [k1; k2; k3; k4] (pass b) (memory b) (servo b) l rest)
    in Hget.
  destruct (Is_Pass_Valid_result b2 eq_refl Hp) as [l' Hvalid].
  cbn [input_pass pass memory servo keypad b2] in Hvalid.
  unfold Check_Pass. rewrite (bind_Some _ _ _ _ _ Hread).
  unfold KEYPAD_NOT_PRESSED. rewrite Hkey, Hstar. cbn [negb andb].
  rewrite (bind_Some _ _ _ _ _ Hget), (bind_Some _ _ _ _ _ Hvalid).
  destruct (bool_decide ([k1; k2; k3; k4] = pass b));
    eexists; (split; [reflexivity|]); cbn; auto.
Qed.

(** X16 for key 7 followed by the right code 1, 2, 3, 4. *)
Lemma Check_Pass_opens_box_witness :
  exists b',
    Check_Pass (box_1234 [55; 49; 50; 51; 52]) = Some (tt, b') /\
    keypad b' = [] /\ pass b' = pass (box_1234 [55; 49; 50; 51; 52]) /\
    memory b' = memory (box_1234 [55; 49; 50; 51; 52]) /\
    servo b'
    = if bool_decide ([49; 50; 51; 52]
                      = pass (box_1234 [55; 49; 50; 51; 52]))
      then 90 else servo (box_1234 [55; 49; 50; 51; 52]).
Proof.
  apply (Check_Pass_opens_box (box_1234 [55; 49; 50; 51; 52]) 55 49 50 51 52
           []); (reflexivity || lia).
Defined.

(** X17: after '*', the password is replaced only when the next four
    keys equal the stored one: the four keys after them become [pass] and
    are written to EEPROM cells 0x21 .. 0x24, no other cell changes;
    after a wrong old password neither [pass] nor the EEPROM changes and
    no further key is read.  The servo is not moved either way. *)
Theorem Check_Pass_change_password (b : Box) (o1 o2 o3 o4 n1 n2 n3 n4 : Z)
    (rest : list Z) :
  keypad b = 42 :: o1 :: o2 :: o3 :: o4 :: n1 :: n2 :: n3 :: n4 :: rest ->
  o1 <> 255 -> o2 <> 255 -> o3 <> 255 -> o4 <> 255 ->
  0 <= n1 < 255 -> 0 <= n2 < 255 -> 0 <= n3 < 255 -> 0 <= n4 < 255 ->
  length (input_pass b) = 4%nat -> length (pass b) = 4%nat ->
  exists b',
    Check_Pass b = Some (tt, b') /\ servo b' = servo b /\
    if bool_decide ([o1; o2; o3; o4] = pass b) then
      pass b' = [n1; n2; n3; n4] /\ keypad b' = rest /\
      map (memory b') [33; 34; 35; 36] = [n1; n2; n3; n4] /\
      forall a, ~ 33 <= a < 37 -> memory b' a = memory b a
    else
      pass b' = pass b /\ memory b' = memory b /\
      keypad b' = n1 :: n2 :: n3 :: n4 :: rest.
Proof.
  intros Hk O1 O2 O3 O4 N1 N2 N3 N4 Hi Hp.
  set (b1 := mkBox (input_pass b) (pass b) (memory b) (servo b) (lcd b)
               (o1 :: o2 :: o3 :: o4 :: n1 :: n2 :: n3 :: n4 :: rest)).
  assert (Hread : KEYPAD_GetPressedKey b = Some (42, b1))
    by (unfold KEYPAD_GetPressedKey; now rewrite Hk).
  set (b1' := mkBox (input_pass b) (pass b) (memory b) (servo b)
                (PrintString " Enter old pass"%string :: ClearScreen :: lcd b)
                (o1 :: o2 :: o3 :: o4 :: n1 :: n2 :: n3 :: n4 :: rest)).
  destruct (Keypad_Get_Pass_reads to_input_pass b1' o1 o2 o3 o4
              (n1 :: n2 :: n3 :: n4 :: rest) eq_refl O1 O2 O3 O4 Hi)
    as [l Hget].
  cbn [pass memory servo b1'] in Hget.
  set (b2 := mkBox [o1; o2; o3; o4] (pass b) (memory b) (servo b) l
               (n1 :: n2 :: n3 :: n4 :: rest)) in Hget.
  destruct (Is_Pass_Valid_result b2 eq_refl Hp) as [l' Hvalid].
  cbn [input_pass pass memory servo keypad b2] in Hvalid.
  unfold Check_Pass. rewrite (bind_Some _ _ _ _ _ Hread).
  unfold KEYPAD_NOT_PRESSED. cbn [Z.eqb Pos.eqb negb andb].
  assert (Hpre : forall k : M unit,
            (LCD_ClearScreen ;; LCD_PrintString " Enter old pass"%string ;;
             Keypad_Get_Pass to_input_pass ;; k) b1
            = k (mkBox [o1; o2; o3; o4] (pass b) (memory b) (servo b) l
                   (n1 :: n2 :: n3 :: n4 :: rest))).
  { intros k.
    change ((LCD_ClearScreen ;; LCD_PrintString " Enter old pass"%string ;;
             Keypad_Get_Pass to_input_pass ;; k) b1)
      with ((Keypad_Get_Pass to_input_pass ;; k) b1').
    now rewrite (bind_Some _ _ _ _ _ Hget). }
  rewrite Hpre. rewrite (bind_Some _ _ _ _ _ Hvalid).
  destruct (bool_decide ([o1; o2; o3; o4] = pass b)).
  - set (b3 := mkBox [o1; o2; o3; o4] (pass b) (memory b) (servo b)
                 (PrintString " Enter new pass"%string :: SetCursor 1 0 :: l')
                 (n1 :: n2 :: n3 :: n4 :: rest)).
    destruct (Keypad_Get_Pass_reads to_pass b3 n1 n2 n3 n4 rest eq_refl
                ltac:(lia) ltac:(lia) ltac:(lia) ltac:(lia) Hp)
      as [l3 Hnew].
    cbn [input_pass memory servo b3] in Hnew.
    destruct (Save_pass_result
                (mkBox [o1; o2; o3; o4] [n1; n2; n3; n4] (memory b) (servo b)
                   l3 rest)) as [l4 Hsave].
    cbn [input_pass pass memory servo keypad] in Hsave.
    destruct (saved_cells n1 n2 n3 n4 (memory b) ltac:(lia) ltac:(lia)
                ltac:(lia) ltac:(lia)) as (C1 & C2 & C3 & C4 & Cother).
    eexists. split.
    + change ((LCD_SetCursor 1 0 ;; LCD_PrintString " Enter new pass"%string ;;
               Keypad_Get_Pass to_pass ;; Save_pass to_pass)
                (mkBox [o1; o2; o3; o4] (pass b) (memory b) (servo b) l'
                   (n1 :: n2 :: n3 :: n4 :: rest)))
        with ((Keypad_Get_Pass to_pass ;; Save_pass to_pass) b3).
      rewrite (bind_Some _ _ _ _ _ Hnew). exact Hsave.
    + cbn [servo pass keypad memory map]. rewrite C1, C2, C3, C4.
      repeat split. exact Cother.
  - eexists. split; [reflexivity|]. cbn. auto.
Qed.

(** X17 for '*', the old password 1, 2, 3, 4 and the new one
    5, 6, 7, 8. *)
Lemma Check_Pass_change_password_witness :
  let b := box_1234 [42; 49; 50; 51; 52; 53; 54; 55; 56] in
  exists b',
    Check_Pass b = Some (tt, b') /\ servo b' = servo b /\
    if bool_decide ([49; 50; 51; 52] = pass b) then
      pass b' = [53; 54; 55; 56] /\ keypad b' = [] /\
      map (memory b') [33; 34; 35; 36] = [53; 54; 55; 56] /\
      forall a, ~ 33 <= a < 37 -> memory b' a = memory b a
    else
      pass b' = pass b /\ memory b' = memory b /\
      keypad b' = [53; 54; 55; 56].
Proof.
  cbv zeta.
  apply (Check_Pass_change_password
           (box_1234 [42; 49; 50; 51; 52; 53; 54; 55; 56])
           49 50 51 52 53 54 55 56 []); (reflexivity || lia).
Defined.

Section Keeps.

Variable R : Box -> Box -> Prop.
Hypothesis R_refl : forall x, R x x.
Hypothesis R_trans : forall x y z, R x y -> R y z -> R x z.
Hypothesis R_ui :
  forall b ip l ks, R b (mkBox ip (pass b) (memory b) (servo b) l ks).

Lemma keeps_ret {A : Type} (a : A) : keeps R (ret a).
Proof. intros b r b' H. injection H as _ <-. apply R_refl. Qed.

Lemma keeps_bind {A B : Type} (m : M A) (k : A -> M B) :
  keeps R m -> (forall a, keeps R (k a)) -> keeps R (bind m k).
Proof.
  intros Hm Hk b r b'. unfold bind.
  destruct (m b) as [[a b1]|] eqn:E; [|discriminate].
  intros H. eapply R_trans; [eapply Hm; exact E|eapply Hk; exact H].
Qed.

Lemma keeps_for_each (body : Z -> M unit) n :
  (forall i, keeps R (body i)) -> forall i, keeps R (for_each n i body).
Proof.
  intros Hbody. induction n as [|n IH]; intros i.
  - apply keeps_ret.
  - cbn [for_each]. apply keeps_bind; auto.
Qed.

Lemma keeps_LCD_ClearScreen : keeps R LCD_ClearScreen.
Proof. intros b a b' H. injection H as _ <-. apply R_ui. Qed.

Lemma keeps_LCD_PrintString str : keeps R (LCD_PrintString str).
Proof. intros b a b' H. injection H as _ <-. apply R_ui. Qed.

Lemma keeps_LCD_PrintCharacter c : keeps R (LCD_PrintCharacter c).
Proof. intros b a b' H. injection H as _ <-. apply R_ui. Qed.

Lemma keeps_LCD_SetCursor r c : keeps R (LCD_SetCursor r c).
Proof. intros b a b' H. injection H as _ <-. apply R_ui. Qed.

Lemma keeps_wait_for_key : keeps R wait_for_key.
Proof.
  intros b a b'. unfold wait_for_key.
  destruct (first_pressed (keypad b)) as [[key rest]|]; [|discriminate].
  intros H. injection H as _ <-. apply R_ui.
Qed.

Lemma keeps_store_input_pass i key : keeps R (store to_input_pass i key).
Proof. intros b a b' H. injection H as _ <-. apply R_ui. Qed.

Lemma keeps_Keypad_Get_Pass_input :
  keeps R (Keypad_Get_Pass to_input_pass).
Proof.
  unfold Keypad_Get_Pass.
  apply keeps_bind; [apply keeps_LCD_ClearScreen|intros _].
  apply keeps_bind; [apply keeps_LCD_PrintString|intros _].
  apply keeps_bind; [|intros _; apply keeps_LCD_ClearScreen].
  apply keeps_for_each. intros i.
  apply keeps_bind; [apply keeps_wait_for_key|intros key].
  apply keeps_bind; [apply keeps_store_input_pass|intros _].
  apply keeps_bind; [apply keeps_LCD_PrintCharacter|intros _].
  apply keeps_bind; [apply keeps_LCD_SetCursor|intros _].
  apply keeps_LCD_PrintCharacter.
Qed.

Lemma keeps_Is_Pass_Valid : keeps R Is_Pass_Valid.
Proof.
  unfold Is_Pass_Valid. generalize 0.
  induction (Z.to_nat PASS_SIZE) as [|n IH]; intros i.
  - cbn [Is_Pass_Valid_from].
    apply keeps_bind; [apply keeps_LCD_ClearScreen|intros _].
    apply keeps_bind; [apply keeps_LCD_PrintString|intros _].
    apply keeps_ret.
  - cbn [Is_Pass_Valid_from]. intros b r b'.
    destruct (negb _); [|apply IH].
    revert b r b'.
    apply keeps_bind; [apply keeps_LCD_ClearScreen|intros _].
    apply keeps_bind; [apply keeps_LCD_PrintString|intros _].
    apply keeps_ret.
Qed.

End Keeps.

Lemma same_servo_trans x y z :
  same_servo x y -> same_servo y z -> same_servo x z.
Proof. unfold same_servo. congruence. Qed.

Lemma same_password_trans x y z :
  same_password x y -> same_password y z -> same_password x z.
Proof. unfold same_password. intros [] []. split; congruence. Qed.

Lemma keeps_Keypad_Get_Pass_servo p : keeps same_servo (Keypad_Get_Pass p).
Proof.
  destruct p;
    [apply keeps_Keypad_Get_Pass_input;
     [reflexivity|exact same_servo_trans|reflexivity]|].
  assert (Hui : forall b ip l ks,
            same_servo b (mkBox ip (pass b) (memory b) (servo b) l ks))
    by reflexivity.
  unfold Keypad_Get_Pass.
  apply keeps_bind; [exact same_servo_trans| |intros _].
  { now apply keeps_LCD_ClearScreen. }
  apply keeps_bind; [exact same_servo_trans| |intros _].
  { now apply keeps_LCD_PrintString. }
  apply keeps_bind; [exact same_servo_trans|
                     |intros _; now apply keeps_LCD_ClearScreen].
  apply keeps_for_each; [reflexivity|exact same_servo_trans|]. intros i.
  apply keeps_bind; [exact same_servo_trans| |intros key].
  { now apply keeps_wait_for_key. }
  apply keeps_bind; [exact same_servo_trans| |intros _].
  { intros b a b' H. injection H as _ <-. reflexivity. }
  apply keeps_bind; [exact same_servo_trans| |intros _].
  { now apply keeps_LCD_PrintCharacter. }
  apply keeps_bind; [exact same_servo_trans| |intros _].
  { now apply keeps_LCD_SetCursor. }
  now apply keeps_LCD_PrintCharacter.
Qed.

Lemma bind_inv {A B : Type} (m : M A) (k : A -> M B) b r :
  bind m k b = Some r ->
  exists a b1, m b = Some (a, b1) /\ k a b1 = Some r.
Proof.
  unfold bind. destruct (m b) as [[a b1]|]; [|discriminate].
  intros H. now exists a, b1.
Qed.

(** X18: whatever is typed, [Check_Pass] moves the servo to 90 or not at
    all (it never closes the box), and unless its first key is '*' it
    changes neither the password nor the EEPROM. *)
Theorem Check_Pass_frame (b b' : Box) (key : Z) (rest : list Z) :
  keypad b = key :: rest ->
  Check_Pass b = Some (tt, b') ->
  (servo b' = servo b \/ servo b' = 90) /\
  (key <> 42 -> pass b' = pass b /\ memory b' = memory b).
Proof.
  intros Hk Hrun.
  assert (Sui : forall b ip l ks,
            same_servo b (mkBox ip (pass b) (memory b) (servo b) l ks))
    by reflexivity.
  assert (Pui : forall b ip l ks,
            same_password b (mkBox ip (pass b) (memory b) (servo b) l ks))
    by (split; reflexivity).
  assert (Prefl : forall x, same_password x x) by (split; reflexivity).
  set (b1 := mkBox (input_pass b) (pass b) (memory b) (servo b) (lcd b) rest).
  assert (Hread : KEYPAD_GetPressedKey b = Some (key, b1))
    by (unfold KEYPAD_GetPressedKey; now rewrite Hk).
  unfold Check_Pass in Hrun. rewrite (bind_Some _ _ _ _ _ Hread) in Hrun.
  destruct (negb (key =? KEYPAD_NOT_PRESSED) && negb (key =? 42)) eqn:Hcode.
  - apply bind_inv in Hrun. destruct Hrun as ([] & b2 & Hget & Hrun).
    apply bind_inv in Hrun. destruct Hrun as (valid & b3 & Hvalid & Hrun).
    apply bind_inv in Hrun. destruct Hrun as ([] & b4 & Hopen & Hclear).
    injection Hclear as <-.
    pose proof (keeps_Keypad_Get_Pass_servo _ _ _ _ Hget) as S2.
    pose proof (keeps_Keypad_Get_Pass_input same_password Prefl
                  same_password_trans Pui _ _ _ Hget) as [P2 M2].
    pose proof (keeps_Is_Pass_Valid same_servo ltac:(reflexivity)
                  same_servo_trans Sui _ _ _ Hvalid) as S3.
    pose proof (keeps_Is_Pass_Valid same_password Prefl
                  same_password_trans Pui _ _ _ Hvalid) as [P3 M3].
    unfold same_servo in *. cbn [servo pass memory b1] in *.
    destruct valid.
    + injection Hopen as <-. cbn [servo pass memory].
      split; [now right|]. intros _. split; congruence.
    + injection Hopen as <-.
      split; [left; congruence|]. intros _. split; congruence.
  - destruct (key =? 42) eqn:Hstar.
    + apply Z.eqb_eq in Hstar. split; [left|intros; contradiction].
      apply bind_inv in Hrun. destruct Hrun as ([] & b2 & H2 & Hrun).
      apply bind_inv in Hrun. destruct Hrun as ([] & b3 & H3 & Hrun).
      apply bind_inv in Hrun. destruct Hrun as ([] & b4 & Hget & Hrun).
      apply bind_inv in Hrun. destruct Hrun as (valid & b5 & Hvalid & Hrun).
      injection H2 as <-. injection H3 as <-.
      pose proof (keeps_Keypad_Get_Pass_servo _ _ _ _ Hget) as S4.
      pose proof (keeps_Is_Pass_Valid same_servo ltac:(reflexivity)
                    same_servo_trans Sui _ _ _ Hvalid) as S5.
      unfold same_servo in *. cbn [servo] in *.
      destruct valid.
      * apply bind_inv in Hrun. destruct Hrun as ([] & b6 & H6 & Hrun).
        apply bind_inv in Hrun. destruct Hrun as ([] & b7 & H7 & Hrun).
        apply bind_inv in Hrun. destruct Hrun as ([] & b8 & Hnew & Hsave).
        injection H6 as <-. injection H7 as <-.
        pose proof (keeps_Keypad_Get_Pass_servo _ _ _ _ Hnew) as S8.
        unfold same_servo in S8. cbn [servo] in S8.
        injection Hsave as <-. cbn [servo]. congruence.
      * injection Hrun as <-. cbn [servo]. congruence.
    + injection Hrun as <-. cbn. split; [now left|]. intros _. now split.
Qed.

(** X18 for key 7 followed by the right code. *)
Lemma Check_Pass_frame_witness :
  let b := box_1234 [55; 49; 50; 51; 52] in
  (servo opened_box = servo b \/ servo opened_box = 90) /\
  (55 <> 42 -> pass opened_box = pass b /\ memory opened_box = memory b).
Proof.
  cbv zeta.
  assert (Hk : keypad (box_1234 [55; 49; 50; 51; 52])
               = 55 :: [49; 50; 51; 52]) by reflexivity.
  assert (Hrun : Check_Pass (box_1234 [55; 49; 50; 51; 52])
                 = Some (tt, opened_box))
    by (vm_compute; reflexivity).
  exact (Check_Pass_frame (box_1234 [55; 49; 50; 51; 52]) opened_box 55
           [49; 50; 51; 52] Hk Hrun).
Defined.
